(** * A shallow embedding of the BOINC GUI_RPC client library (boinc/client.py)

    The development follows the layout of the Python module: the text
    helpers of the interpreter that the module relies on, the XML element
    model, the generic decoder [setattrs_from_xml] with its [parse_*]
    helpers, the enumeration classes, the structs derived from BOINC's C++
    structs, and the session object [BoincClient].

    Conventions.
    - A Python [str] is a [string]; its characters are read as the code
      points U+0000..U+00FF.  [isspace] and [lower] are the interpreter's
      tables restricted to that range.
    - A Python [int] is a [Z]; a Python [float] is a binary64 [float].
    - An exception is a value of [exn]; a computation that may raise returns
      [res A].  [UnicodeDecodeError] is kept apart from [ValueError], of
      which it is a subclass: no handler of the module catches either.
    - The stateful methods of [BoincClient] are computations in the state and
      exception monad [M]; the transport (module [rpc]) is an interface. *)

From Stdlib Require Import ZArith String Ascii List Bool Lia Floats DecimalString.
From Stdlib Require DecimalZ DecimalPos.
From stdpp Require Import base option gmap strings list.

Set Warnings "-register-all".

Local Open Scope string_scope.
Local Open Scope Z_scope.

(* ===================================================================== *)
(** ** Exceptions and results *)
(* ===================================================================== *)

Inductive exn : Type :=
| SocketError
| ValueError
| OverflowError
| AttributeError
| TypeError
| RecursionError
| UnicodeDecodeError.

Inductive res (A : Type) : Type :=
| Ok (a : A)
| Raise (e : exn).

Arguments Ok {A} a.
Arguments Raise {A} e.

Definition res_bind {A B : Type} (r : res A) (k : A -> res B) : res B :=
  match r with
  | Ok a => k a
  | Raise e => Raise e
  end.

Definition res_map {A B : Type} (f : A -> B) (r : res A) : res B :=
  res_bind r (fun a => Ok (f a)).

Notation "x <~ r ;; k" := (res_bind r (fun x => k))
  (at level 100, r at next level, right associativity).

(* ===================================================================== *)
(** ** Text helpers of the interpreter *)
(* ===================================================================== *)

Module Str.

(** [str.isspace] on one character: U+0009..U+000D, U+001C..U+0020, U+0085
    and U+00A0. *)
Definition isspace (c : ascii) : bool :=
  let n := N_of_ascii c in
  ((9 <=? n) && (n <=? 13) || (28 <=? n) && (n <=? 32) || (n =? 133) || (n =? 160))%N.

(** [str.lower] on one character: A..Z and U+00C0..U+00DE except U+00D7
    move up by 32. *)
Definition lower_char (c : ascii) : ascii :=
  let n := N_of_ascii c in
  if ((65 <=? n) && (n <=? 90) || (192 <=? n) && (n <=? 222) && negb (n =? 215))%N
  then ascii_of_N (n + 32) else c.

Fixpoint lower (s : string) : string :=
  match s with
  | EmptyString => EmptyString
  | String c s' => String (lower_char c) (lower s')
  end.

Fixpoint lstrip (s : string) : string :=
  match s with
  | EmptyString => EmptyString
  | String c s' => if isspace c then lstrip s' else s
  end.

Fixpoint rstrip (s : string) : string :=
  match s with
  | EmptyString => EmptyString
  | String c s' =>
      match rstrip s' with
      | EmptyString => if isspace c then EmptyString else String c EmptyString
      | r => String c r
      end
  end.

(** [s.strip()] *)
Definition strip (s : string) : string := rstrip (lstrip s).

(** [s.replace(a, b)] for one-character [a] and [b]. *)
Fixpoint replace_char (a b : ascii) (s : string) : string :=
  match s with
  | EmptyString => EmptyString
  | String c s' => String (if Ascii.eqb c a then b else c) (replace_char a b s')
  end.

(** [s.endswith("\n")] and [s[:-1]]. *)
Fixpoint endswith_char (a : ascii) (s : string) : bool :=
  match s with
  | EmptyString => false
  | String c EmptyString => Ascii.eqb c a
  | String _ s' => endswith_char a s'
  end.

Fixpoint drop_last (s : string) : string :=
  match s with
  | EmptyString => EmptyString
  | String _ EmptyString => EmptyString
  | String c s' => String c (drop_last s')
  end.

(** [bool(s)] *)
Definition truthy (s : string) : bool :=
  match s with
  | EmptyString => false
  | String _ _ => true
  end.

(** [s.encode("utf-8")] on code points below U+0100. *)
Fixpoint encode_utf8 (s : string) : list Z :=
  match s with
  | EmptyString => nil
  | String c s' =>
      let n := Z.of_N (N_of_ascii c) in
      if n <? 128 then n :: encode_utf8 s'
      else Z.lor 192 (Z.shiftr n 6) :: Z.lor 128 (Z.land n 63) :: encode_utf8 s'
  end.

(** [str(n)] for an integer. *)
Definition of_Z (z : Z) : string := DecimalString.NilZero.string_of_int (Z.to_int z).

(** [s.startswith(p)] *)
Fixpoint startswith (p s : string) : bool :=
  match p, s with
  | EmptyString, _ => true
  | String a p', String c s' => Ascii.eqb a c && startswith p' s'
  | String _ _, EmptyString => false
  end.

(** [s.replace(old, new)] for a non-empty [old]: the occurrences of [old]
    are replaced from left to right, without overlap; [skip] counts the
    characters of an occurrence that are still to be dropped. *)
Fixpoint replace_from (old new : string) (skip : nat) (s : string) : string :=
  match s with
  | EmptyString => EmptyString
  | String c s' =>
      match skip with
      | Datatypes.S k => replace_from old new k s'
      | O =>
          if startswith old s
          then new ++ replace_from old new (Nat.pred (String.length old)) s'
          else String c (replace_from old new O s')
      end
  end.

(** [s.replace(old, new)]; with an empty [old], [new] is put before every
    character and at the end. *)
Fixpoint intersperse (new s : string) : string :=
  match s with
  | EmptyString => new
  | String c s' => new ++ String c (intersperse new s')
  end.

Definition replace (old new s : string) : string :=
  match old with
  | EmptyString => intersperse new s
  | String _ _ => replace_from old new O s
  end.

(** [s.split(":", 1)]: the text before the first colon and, when there is
    a colon, the text after it. *)
Fixpoint split_colon (s : string) : string * option string :=
  match s with
  | EmptyString => (EmptyString, None)
  | String c s' =>
      if Ascii.eqb c ":" then (EmptyString, Some s')
      else let '(a, b) := split_colon s' in (String c a, b)
  end.

Definition is_digit (c : ascii) : bool :=
  let n := N_of_ascii c in ((48 <=? n) && (n <=? 57))%N.

(** The digits of an integer literal, with single underscores allowed
    between digits; [prev] tells whether the previous character is a
    digit. *)
Fixpoint digits_value (s : string) (acc : Z) (prev : bool) : option Z :=
  match s with
  | EmptyString => if prev then Some acc else None
  | String c s' =>
      if is_digit c then digits_value s' (10 * acc + (Z.of_N (N_of_ascii c) - 48)) true
      else if Ascii.eqb c "_" && prev then digits_value s' acc false
      else None
  end.

(** The number of digits of a numeral; underscores do not count. *)
Fixpoint count_digits (s : string) : nat :=
  match s with
  | EmptyString => O
  | String c s' => ((if is_digit c then 1 else 0) + count_digits s')%nat
  end.

(** [sys.int_info.default_max_str_digits]: [int] refuses a numeral of more
    digits. *)
Definition max_str_digits : nat := 4300.

(** The value of the numeral [d] without sign. *)
Definition int_digits (d : string) : option Z :=
  if (max_str_digits <? count_digits d)%nat then None else digits_value d 0 false.

(** [int(s)] on a string: surrounding whitespace, an optional sign, and at
    most [max_str_digits] decimal digits; [None] stands for ValueError. *)
Definition to_int (s : string) : option Z :=
  match strip s with
  | String c d =>
      if Ascii.eqb c "-" then option_map Z.opp (int_digits d)
      else if Ascii.eqb c "+" then int_digits d
      else int_digits (String c d)
  | EmptyString => int_digits EmptyString
  end.

(** A decimal numeral padded with zeros on the left up to [n] characters. *)
Fixpoint zeros (n : nat) : string :=
  match n with
  | O => EmptyString
  | Datatypes.S k => String "0" (zeros k)
  end.

Definition zfill (n : nat) (s : string) : string :=
  zeros (n - String.length s) ++ s.

(** ["%f" % x] for a float [x]: the sign, the integer part and six decimals
    of the exact value rounded to the nearest, ties to even; [inf] and [nan]
    for the special values. *)
Definition format_f (x : float) : string :=
  match Prim2SF x with
  | S754_nan => "nan"
  | S754_infinity s => if s then "-inf" else "inf"
  | S754_zero s => if s then "-0.000000" else "0.000000"
  | S754_finite s m e =>
      let n :=
        if 0 <=? e then Z.pos m * 2 ^ e * 1000000
        else
          let num := Z.pos m * 1000000 in
          let den := 2 ^ (- e) in
          let q := num / den in
          let r := num mod den in
          if (den <? 2 * r) || ((den =? 2 * r) && Z.odd q) then q + 1 else q in
      (if s then "-" else "") ++ of_Z (n / 1000000) ++ "." ++ zfill 6 (of_Z (n mod 1000000))
  end.

(** What reading in text mode makes of the newlines of a file: a carriage
    return followed by a line feed, and a carriage return alone, are read
    as one line feed. *)
Fixpoint universal_newlines (s : string) : string :=
  match s with
  | EmptyString => EmptyString
  | String c s' =>
      if Ascii.eqb c "013" then
        String "010"
          (match s' with
           | String c' s'' =>
               if Ascii.eqb c' "010" then universal_newlines s''
               else universal_newlines s'
           | EmptyString => EmptyString
           end)
      else String c (universal_newlines s')
  end.

End Str.

(* ===================================================================== *)
(** ** hashlib.md5 (RFC 1321) *)
(* ===================================================================== *)

Module MD5.

(** 32-bit words are integers taken modulo 2^32. *)
Definition wrap (x : Z) : Z := x mod 4294967296.

Definition rotl (x : Z) (c : Z) : Z :=
  wrap (Z.lor (Z.shiftl x c) (Z.shiftr x (32 - c))).

Definition lnot32 (x : Z) : Z := Z.lxor x 4294967295.

(** Per-round shift amounts. *)
Definition S : list Z :=
  [7; 12; 17; 22; 7; 12; 17; 22; 7; 12; 17; 22; 7; 12; 17; 22;
   5; 9; 14; 20; 5; 9; 14; 20; 5; 9; 14; 20; 5; 9; 14; 20;
   4; 11; 16; 23; 4; 11; 16; 23; 4; 11; 16; 23; 4; 11; 16; 23;
   6; 10; 15; 21; 6; 10; 15; 21; 6; 10; 15; 21; 6; 10; 15; 21].

(** K[i] = floor(2^32 * abs(sin(i + 1))). *)
Definition K : list Z :=
  [0xd76aa478; 0xe8c7b756; 0x242070db; 0xc1bdceee;
   0xf57c0faf; 0x4787c62a; 0xa8304613; 0xfd469501;
   0x698098d8; 0x8b44f7af; 0xffff5bb1; 0x895cd7be;
   0x6b901122; 0xfd987193; 0xa679438e; 0x49b40821;
   0xf61e2562; 0xc040b340; 0x265e5a51; 0xe9b6c7aa;
   0xd62f105d; 0x02441453; 0xd8a1e681; 0xe7d3fbc8;
   0x21e1cde6; 0xc33707d6; 0xf4d50d87; 0x455a14ed;
   0xa9e3e905; 0xfcefa3f8; 0x676f02d9; 0x8d2a4c8a;
   0xfffa3942; 0x8771f681; 0x6d9d6122; 0xfde5380c;
   0xa4beea44; 0x4bdecfa9; 0xf6bb4b60; 0xbebfbc70;
   0x289b7ec6; 0xeaa127fa; 0xd4ef3085; 0x04881d05;
   0xd9d4d039; 0xe6db99e5; 0x1fa27cf8; 0xc4ac5665;
   0xf4292244; 0x432aff97; 0xab9423a7; 0xfc93a039;
   0x655b59c3; 0x8f0ccc92; 0xffeff47d; 0x85845dd1;
   0x6fa87e4f; 0xfe2ce6e0; 0xa3014314; 0x4e0811a1;
   0xf7537e82; 0xbd3af235; 0x2ad7d2bb; 0xeb86d391].

Record state : Type := State { sA : Z; sB : Z; sC : Z; sD : Z }.

Definition init : state :=
  State 0x67452301 0xefcdab89 0x98badcfe 0x10325476.

(** One of the 64 operations on the block [m] (sixteen words). *)
Definition step (m : list Z) (st : state) (i : nat) : state :=
  let '(State a b c d) := st in
  let iz := Z.of_nat i in
  let '(f, g) :=
    if iz <? 16 then (Z.lor (Z.land b c) (Z.land (lnot32 b) d), iz)
    else if iz <? 32 then (Z.lor (Z.land d b) (Z.land (lnot32 d) c), (5 * iz + 1) mod 16)
    else if iz <? 48 then (Z.lxor (Z.lxor b c) d, (3 * iz + 5) mod 16)
    else (Z.lxor c (Z.lor b (lnot32 d)), (7 * iz) mod 16) in
  let f' := wrap (f + a + nth i K 0 + nth (Z.to_nat g) m 0) in
  State d (wrap (b + rotl f' (nth i S 0))) b c.

Definition compress (st : state) (m : list Z) : state :=
  let '(State a b c d) := fold_left (step m) (seq 0 64) st in
  State (wrap (sA st + a)) (wrap (sB st + b)) (wrap (sC st + c)) (wrap (sD st + d)).

(** Little-endian bytes of a word, and back. *)
Fixpoint le_bytes (n : nat) (x : Z) : list Z :=
  match n with
  | O => nil
  | Datatypes.S n' => x mod 256 :: le_bytes n' (x / 256)
  end.

Fixpoint le_word (bs : list Z) : Z :=
  match bs with
  | nil => 0
  | b :: bs' => b + 256 * le_word bs'
  end.

(** The message followed by 0x80, zeros up to 56 modulo 64, and the bit
    length on eight bytes. *)
Definition pad (msg : list Z) : list Z :=
  let len := Z.of_nat (length msg) in
  let zeros := Z.to_nat ((55 - len) mod 64) in
  msg ++ 128 :: repeat 0 zeros ++ le_bytes 8 ((8 * len) mod 18446744073709551616).

(** The sixteen-word blocks of a padded message ([fuel] bounds their number). *)
Fixpoint blocks (fuel : nat) (bs : list Z) : list (list Z) :=
  match fuel, bs with
  | O, _ | _, nil => nil
  | Datatypes.S fuel', _ =>
      let block := firstn 64 bs in
      map (fun j => le_word (firstn 4 (skipn (4 * j) block))) (seq 0 16)
        :: blocks fuel' (skipn 64 bs)
  end.

Definition digest (msg : list Z) : list Z :=
  let p := pad msg in
  let '(State a b c d) := fold_left compress (blocks (length p) p) init in
  le_bytes 4 a ++ le_bytes 4 b ++ le_bytes 4 c ++ le_bytes 4 d.

Definition hex_digit (x : Z) : ascii :=
  if x <? 10 then ascii_of_N (Z.to_N (48 + x)) else ascii_of_N (Z.to_N (87 + x)).

Fixpoint hex (bs : list Z) : string :=
  match bs with
  | nil => EmptyString
  | b :: bs' => String (hex_digit (b / 16)) (String (hex_digit (b mod 16)) (hex bs'))
  end.

(** [hashlib.md5(msg).hexdigest()] *)
Definition hexdigest (msg : list Z) : string := hex (digest msg).

End MD5.

(* ===================================================================== *)
(** ** XML elements (xml.etree.ElementTree.Element) *)
(* ===================================================================== *)

(** An element carries its tag, its text ([None] when the element has no
    text) and its children in document order. *)
Inductive element : Type :=
| Element (tag : string) (text : option string) (children : list element).

Definition tag (e : element) : string :=
  match e with Element t _ _ => t end.

Definition text (e : element) : option string :=
  match e with Element _ t _ => t end.

(** [list(e)] *)
Definition children (e : element) : list element :=
  match e with Element _ _ c => c end.

(** [e.find(t)]: the first child whose tag is [t]. *)
Definition find (t : string) (e : element) : option element :=
  List.find (fun c => String.eqb (tag c) t) (children e).

(** [bool(e)]: an element is true when it has children. *)
Definition element_truthy (e : element) : bool :=
  match children e with
  | nil => false
  | _ :: _ => true
  end.

(* ===================================================================== *)
(** ** Values and the parse helpers *)
(* ===================================================================== *)

(** The values an attribute of a struct can hold: [None], a [bool], an
    [int], a [float], a [str], a list of elements, or an element. *)
Inductive value : Type :=
| VNone
| VBool (b : bool)
| VInt (z : Z)
| VFloat (f : float)
| VStr (s : string)
| VList (l : list element)
| VElem (e : element).

(** The builtin [float(s)] on a string; [None] stands for ValueError. *)
Class PyFloat : Type := float_of_str : string -> option float.

(** The builtin [int(f)] on a float: truncation toward zero; OverflowError
    on an infinity and ValueError on a NaN. *)
Definition int_of_float (f : float) : res Z :=
  match Prim2SF f with
  | S754_zero _ => Ok 0
  | S754_infinity _ => Raise OverflowError
  | S754_nan => Raise ValueError
  | S754_finite s m e =>
      let v := if 0 <=? e then Z.shiftl (Z.pos m) e else Z.shiftr (Z.pos m) (- e) in
      Ok (if s then - v else v)
  end.

(** [parse_bool]: a missing text is true; otherwise
    [bool(e.text) and not e.text.strip().lower() in ("0", "false")]. *)
Definition parse_bool (e : element) : bool :=
  match text e with
  | None => true
  | Some t =>
      Str.truthy t &&
      negb (String.eqb (Str.lower (Str.strip t)) "0"
            || String.eqb (Str.lower (Str.strip t)) "false")
  end.

(** What an object finds on its class under a name: a value bound in the
    body of a class, such as a docstring; another object, such as a
    function or a method, which is no bool, int, float, str or list and
    which an assignment on the instance shadows; or a data descriptor, on
    which an assignment raises. *)
Inductive class_attr : Type :=
| ClassValue (v : value)
| ClassObject
| ClassDescriptor (raised : exn).

(** What [hasattr(obj, name)] and [getattr(obj, name)] find: an attribute
    of the instance, or one of its class. *)
Inductive attribute : Type :=
| InstanceAttr (v : value)
| ClassAttr (a : class_attr).

(** An object is the map [obj] of its instance attributes, beside the
    attributes [cls] of its class.  The names of the data descriptors of a
    class are no names of instance attributes, since no assignment to them
    reaches the instance: the instance is looked up first. *)
Definition find_attr (cls : string -> option class_attr) (obj : gmap string value)
    (name : string) : option attribute :=
  match obj !! name with
  | Some v => Some (InstanceAttr v)
  | None => ClassAttr <$> cls name
  end.

(** [setattr(obj, name, v)] on the attribute found under [name]. *)
Definition setattr (found : attribute) (obj : gmap string value) (name : string)
    (v : value) : res (gmap string value) :=
  match found with
  | ClassAttr (ClassDescriptor raised) => Raise raised
  | InstanceAttr _ | ClassAttr (ClassValue _) | ClassAttr ClassObject =>
      Ok (<[name := v]> obj)
  end.

Section Decoder.

Context {pyfloat : PyFloat}.

(** [parse_float]: [0.0 if e.text is None else float(e.text.strip())] *)
Definition parse_float (e : element) : res float :=
  match text e with
  | None => Ok 0%float
  | Some t =>
      match float_of_str (Str.strip t) with
      | Some f => Ok f
      | None => Raise ValueError
      end
  end.

(** [parse_int]: [0 if e.text is None else int(float(e.text.strip()))] *)
Definition parse_int (e : element) : res Z :=
  match text e with
  | None => Ok 0
  | Some t =>
      match float_of_str (Str.strip t) with
      | Some f => int_of_float f
      | None => Raise ValueError
      end
  end.

(** [parse_str]: ["" if e.text is None else e.text.strip()] *)
Definition parse_str (e : element) : string :=
  match text e with
  | None => ""
  | Some t => Str.strip t
  end.

(** [parse_list]: [list(e)] *)
Definition parse_list (e : element) : list element := children e.

(** The function chosen from the current value of the attribute, in the
    order of the [isinstance] tests; the last case is [lambda x: x]. *)
Definition infer_attrfunc (attr : value) : element -> res value :=
  match attr with
  | VBool _ => fun e => Ok (VBool (parse_bool e))
  | VInt _ => fun e => res_map VInt (parse_int e)
  | VFloat _ => fun e => res_map VFloat (parse_float e)
  | VStr _ => fun e => Ok (VStr (parse_str e))
  | VList _ => fun e => Ok (VList (parse_list e))
  | VNone | VElem _ => fun e => Ok (VElem e)
  end.

(** The function chosen from [getattr(obj, e.tag)]. *)
Definition attr_attrfunc (found : attribute) : element -> res value :=
  match found with
  | InstanceAttr attr | ClassAttr (ClassValue attr) => infer_attrfunc attr
  | ClassAttr ClassObject | ClassAttr (ClassDescriptor _) => fun e => Ok (VElem e)
  end.

(** The body of the loop of [setattrs_from_xml] for one child [e]: when the
    object has an attribute named [e.tag], it is set to [attrfunc(e)]; a
    tag without attribute is reported and skipped. *)
Definition setattr_from_child (cls : string -> option class_attr)
    (attrfuncdict : gmap string (element -> res value))
    (obj : gmap string value) (e : element) : res (gmap string value) :=
  match find_attr cls obj (tag e) with
  | Some attr =>
      let attrfunc :=
        match attrfuncdict !! tag e with
        | Some f => f
        | None => attr_attrfunc attr
        end in
      v <~ attrfunc e ;;
      setattr attr obj (tag e) v
  | None => Ok obj
  end.

(** A [for] loop whose body may raise. *)
Fixpoint for_each {A St : Type} (body : St -> A -> res St) (items : list A) (st : St)
    : res St :=
  match items with
  | nil => Ok st
  | x :: rest => st' <~ body st x ;; for_each body rest st'
  end.

(** [setattrs_from_xml(obj, xml, attrfuncdict)] on an element [xml], for
    an object [obj] of a class with the attributes [cls].  The message
    printed for a tag without attribute is not modelled. *)
Definition setattrs_from_xml (cls : string -> option class_attr)
    (obj : gmap string value) (xml : element)
    (attrfuncdict : gmap string (element -> res value)) : res (gmap string value) :=
  for_each (setattr_from_child cls attrfuncdict) (children xml) obj.

End Decoder.

(** [getattr(obj, k)] *)
Definition getattr (obj : gmap string value) (k : string) : res value :=
  match obj !! k with
  | Some v => Ok v
  | None => Raise AttributeError
  end.

(** [v == 0] *)
Definition eq_zero (v : value) : bool :=
  match v with
  | VBool b => negb b
  | VInt z => z =? 0
  | VFloat f => PrimFloat.eqb f 0%float
  | VNone | VStr _ | VList _ | VElem _ => false
  end.

(* ===================================================================== *)
(** ** Enumerations *)
(* ===================================================================== *)

Inductive EnumClass : Type :=
| Enum | NetworkStatus | SuspendReason | RunMode | CpuSched | ResultState | Process.

(** The objects met by [name]: an [int], a [str], [None], or some other
    object (a method, a descriptor, a mapping), which is known by its
    identity [id] only. *)
Inductive pyval : Type :=
| PInt (z : Z)
| PStr (s : string)
| PNone
| PObject (id : string).

(** [a == b] *)
Definition py_eq (a b : pyval) : bool :=
  match a, b with
  | PInt x, PInt y => x =? y
  | PStr x, PStr y => String.eqb x y
  | PNone, PNone => true
  | PObject x, PObject y => String.eqb x y
  | _, _ => false
  end.

(** [str(v)]; the text of an object other than an [int], a [str] or [None]
    is written between angle brackets or parentheses and is the name of no
    attribute. *)
Definition py_str (v : pyval) : string :=
  match v with
  | PInt z => Str.of_Z z
  | PStr s => s
  | PNone => "None"
  | PObject id => "<" ++ id ++ ">"
  end.

(** The double quote. *)
Definition dquote : string := String "034"%char "".

(** [cls.__dict__.items()]: the names bound in the body of each class, in
    order, with the module name and the docstring that the interpreter
    adds.  A classmethod and the two descriptors that the interpreter gives
    to a class without base are objects of their own. *)
Definition class_dict (cls : EnumClass) : list (string * pyval) :=
  match cls with
  | Enum =>
      [("__module__", PStr "client"); ("UNKNOWN", PInt (-1));
       ("name", PObject "classmethod Enum.name");
       ("__dict__", PObject "attribute __dict__");
       ("__weakref__", PObject "attribute __weakref__"); ("__doc__", PNone)]
  | NetworkStatus =>
      [("__module__", PStr "client"); ("__doc__", PStr "Values of 'network_status'");
       ("ONLINE", PInt 0); ("WANT_CONNECTION", PInt 1); ("WANT_DISCONNECT", PInt 2);
       ("LOOKUP_PENDING", PInt 3);
       ("name", PObject "classmethod NetworkStatus.name")]
  | SuspendReason =>
      [("__module__", PStr "client");
       ("__doc__", PStr "
    Bitmap defs for task_suspend_reason, network_suspend_reason.
    Note: does not need to be a bitmap, but keep for compatibility.
    ");
       ("NOT_SUSPENDED", PInt 0); ("BATTERIES", PInt 1); ("USER_ACTIVE", PInt 2);
       ("USER_REQ", PInt 4); ("TIME_OF_DAY", PInt 8); ("BENCHMARKS", PInt 16);
       ("DISK_SIZE", PInt 32); ("CPU_THROTTLE", PInt 64); ("NO_RECENT_INPUT", PInt 128);
       ("INITIAL_DELAY", PInt 256); ("EXCLUSIVE_APP_RUNNING", PInt 512);
       ("CPU_USAGE", PInt 1024); ("NETWORK_QUOTA_EXCEEDED", PInt 2048); ("OS", PInt 4096);
       ("WIFI_STATE", PInt 4097); ("BATTERY_CHARGING", PInt 4098);
       ("BATTERY_OVERHEATED", PInt 4099);
       ("name", PObject "classmethod SuspendReason.name")]
  | RunMode =>
      [("__module__", PStr "client");
       ("__doc__", PStr "
    Run modes for CPU, GPU, network, controlled by Activity menu and snooze
    button.
    ");
       ("ALWAYS", PInt 1); ("AUTO", PInt 2); ("NEVER", PInt 3); ("RESTORE", PInt 4);
       ("name", PObject "classmethod RunMode.name")]
  | CpuSched =>
      [("__module__", PStr "client");
       ("__doc__", PStr ("
    Values of ACTIVE_TASK::scheduler_state and ACTIVE_TASK::next_scheduler_state
    " ++ dquote ++ "SCHEDULED" ++ dquote ++ " is synonymous with "
            ++ dquote ++ "executing" ++ dquote ++ " except when CPU throttling
    is in use.
    "));
       ("UNINITIALIZED", PInt 0); ("PREEMPTED", PInt 1); ("SCHEDULED", PInt 2)]
  | ResultState =>
      [("__module__", PStr "client");
       ("__doc__", PStr "
    Values of RESULT::state in client.
    THESE MUST BE IN NUMERICAL ORDER
    (because of the > comparison in RESULT::computing_done())
    See html/inc/common_defs.inc
    ");
       ("NEW", PInt 0); ("FILES_DOWNLOADING", PInt 1); ("FILES_DOWNLOADED", PInt 2);
       ("COMPUTE_ERROR", PInt 3); ("FILES_UPLOADING", PInt 4); ("FILES_UPLOADED", PInt 5);
       ("ABORTED", PInt 6); ("UPLOAD_FAILED", PInt 7)]
  | Process =>
      [("__module__", PStr "client");
       ("__doc__", PStr "Values of ACTIVE_TASK::task_state.");
       ("UNINITIALIZED", PInt 0); ("EXECUTING", PInt 1); ("SUSPENDED", PInt 9);
       ("ABORT_PENDING", PInt 5); ("QUIT_PENDING", PInt 8); ("COPY_PENDING", PInt 10)]
  end.

Fixpoint assoc (k : string) (l : list (string * pyval)) : option pyval :=
  match l with
  | nil => None
  | (k', v) :: l' => if String.eqb k' k then Some v else assoc k l'
  end.

(** What attribute lookup on a class makes of the object bound to [k]: a
    classmethod gives a method bound to the class, and [__dict__] the
    mapping of the class, both objects that no class stores; every other
    object, the descriptor of [__weakref__] included, is returned as it
    is. *)
Definition descr_get (k : string) (v : pyval) : pyval :=
  match v with
  | PObject id =>
      if String.eqb k "name" then PObject ("bound method of " ++ id)
      else if String.eqb k "__dict__" then PObject "mappingproxy"
      else v
  | _ => v
  end.

(** [getattr(cls, k)]: the namespace of the class, then that of [Enum].
    The names that a class inherits from [object] and from its metaclass
    are left out.  A string that is such a name is treated like a string
    that names nothing, and [name] ends in the same way on both, with six
    exceptions: the attributes of the metaclass whose value is an integer
    or [None] ([__basicsize__], [__itemsize__], [__flags__],
    [__dictoffset__], [__weakrefoffset__], [__text_signature__]), which
    depend on the build of the interpreter. *)
Definition class_getattr (cls : EnumClass) (k : string) : option pyval :=
  match assoc k (class_dict cls) with
  | Some v => Some (descr_get k v)
  | None => option_map (descr_get k) (assoc k (class_dict Enum))
  end.

(** [hasattr(cls, k)] *)
Definition class_hasattr (cls : EnumClass) (k : string) : bool :=
  match class_getattr cls k with
  | Some _ => true
  | None => false
  end.

(** [cls.K] for a constant [K] of the class. *)
Definition const (cls : EnumClass) (k : string) : pyval :=
  default PNone (class_getattr cls k).

(** [Enum.UNKNOWN] *)
Definition UNKNOWN : Z := -1.

(** The first item of [cls.__dict__] whose value equals [value]. *)
Fixpoint first_key (value : pyval) (items : list (string * pyval)) : option string :=
  match items with
  | nil => None
  | (k, v) :: rest => if py_eq v value then Some k else first_key value rest
  end.

(** The body of [Enum.name(cls, value)]; [self_name] is the dispatch of
    [cls.name]. *)
Definition Enum_name (self_name : EnumClass -> pyval -> res string)
    (cls : EnumClass) (value : pyval) : res string :=
  if class_hasattr cls (py_str value) then
    match value with
    | PStr k => self_name cls (default PNone (class_getattr cls k))
    | _ => Raise TypeError
    end
  else
    match first_key value (class_dict cls) with
    | Some k => Ok (Str.replace_char "_" " " (Str.lower k))
    | None => self_name cls (PInt UNKNOWN)
    end.

(** [NetworkStatus.name(cls, v)]; [super_name] is [super(...).name]. *)
Definition NetworkStatus_name (super_name : pyval -> res string)
    (cls : EnumClass) (v : pyval) : res string :=
  if py_eq v (const cls "UNKNOWN") then Ok "unknown"
  else if py_eq v (const cls "ONLINE") then Ok "up"
  else if py_eq v (const cls "WANT_CONNECTION") then Ok "need connection"
  else if py_eq v (const cls "WANT_DISCONNECT") then Ok "do not need connection"
  else if py_eq v (const cls "LOOKUP_PENDING") then Ok "reference site lookup pending"
  else super_name v.

(** [SuspendReason.name(cls, v)] *)
Definition SuspendReason_name (super_name : pyval -> res string)
    (cls : EnumClass) (v : pyval) : res string :=
  if py_eq v (const cls "UNKNOWN") then Ok "unknown reason"
  else if py_eq v (const cls "BATTERIES") then Ok "on batteries"
  else if py_eq v (const cls "USER_ACTIVE") then Ok "computer is in use"
  else if py_eq v (const cls "USER_REQ") then Ok "user request"
  else if py_eq v (const cls "TIME_OF_DAY") then Ok "time of day"
  else if py_eq v (const cls "BENCHMARKS") then Ok "CPU benchmarks in progress"
  else if py_eq v (const cls "DISK_SIZE") then Ok "need disk space - check preferences"
  else if py_eq v (const cls "NO_RECENT_INPUT") then Ok "no recent user activity"
  else if py_eq v (const cls "INITIAL_DELAY") then Ok "initial delay"
  else if py_eq v (const cls "EXCLUSIVE_APP_RUNNING") then Ok "an exclusive app is running"
  else if py_eq v (const cls "CPU_USAGE") then Ok "CPU is busy"
  else if py_eq v (const cls "NETWORK_QUOTA_EXCEEDED") then Ok "network bandwidth limit exceeded"
  else if py_eq v (const cls "OS") then Ok "requested by operating system"
  else if py_eq v (const cls "WIFI_STATE") then Ok "not connected to WiFi network"
  else if py_eq v (const cls "BATTERY_CHARGING") then Ok "battery is recharging"
  else if py_eq v (const cls "BATTERY_OVERHEATED") then Ok "battery is overheated"
  else super_name v.

(** [RunMode.name(cls, v)] *)
Definition RunMode_name (super_name : pyval -> res string)
    (cls : EnumClass) (v : pyval) : res string :=
  if py_eq v (const cls "AUTO") then Ok "according to preferences"
  else super_name v.

(** [cls.name(v)].  The interpreter bounds the depth of nested calls and
    raises RecursionError beyond it; [depth] is the number of nested
    dispatches of [cls.name] that the bound leaves room for. *)
Fixpoint name (depth : nat) (cls : EnumClass) (v : pyval) : res string :=
  match depth with
  | O => Raise RecursionError
  | Datatypes.S d =>
      let super_name := Enum_name (name d) cls in
      match cls with
      | NetworkStatus => NetworkStatus_name super_name cls v
      | SuspendReason => SuspendReason_name super_name cls v
      | RunMode => RunMode_name super_name cls v
      | Enum | CpuSched | ResultState | Process => super_name v
      end
  end.

(** The integer codes bound in the body of a class. *)
Definition known_codes (cls : EnumClass) : list Z :=
  omap (fun kv => match snd kv with PInt z => Some z | _ => None end) (class_dict cls).

(* ===================================================================== *)
(** ** Structs *)
(* ===================================================================== *)

(** *** VersionInfo *)

Record VersionInfo : Type := { major : Z; minor : Z; release : Z }.

(** The property [_tuple]. *)
Definition _tuple (v : VersionInfo) : Z * Z * Z := (major v, minor v, release v).

(** [==] and [>] on triples of integers: element-wise equality, and the
    order decided by the first position where the triples differ. *)
Definition tuple_eq (a b : Z * Z * Z) : bool :=
  let '(a1, a2, a3) := a in
  let '(b1, b2, b3) := b in
  (a1 =? b1) && (a2 =? b2) && (a3 =? b3).

Definition tuple_gt (a b : Z * Z * Z) : bool :=
  let '(a1, a2, a3) := a in
  let '(b1, b2, b3) := b in
  if negb (a1 =? b1) then a1 >? b1
  else if negb (a2 =? b2) then a2 >? b2
  else a3 >? b3.

(** The right operand of a comparison: a [VersionInfo] or an object of
    another class. *)
Inductive operand : Type :=
| OVersion (v : VersionInfo)
| OOther.

(** The outcome of a rich comparison method: a [bool] or [NotImplemented]. *)
Inductive outcome : Type :=
| Bool (b : bool)
| NotImplemented.

(** [__eq__], [__ne__] and [__gt__] *)
Definition VersionInfo_eq (self : VersionInfo) (other : operand) : bool :=
  match other with
  | OVersion o => tuple_eq (_tuple self) (_tuple o)
  | OOther => false
  end.

Definition VersionInfo_ne (self : VersionInfo) (other : operand) : bool :=
  negb (VersionInfo_eq self other).

Definition VersionInfo_gt (self : VersionInfo) (other : operand) : outcome :=
  match other with
  | OVersion o => Bool (tuple_gt (_tuple self) (_tuple o))
  | OOther => NotImplemented
  end.

(** The methods that [functools.total_ordering] derives from [__gt__]:
    [a < b] is [(not a > b) and (a != b)], [a >= b] is [(a > b) or (a == b)]
    and [a <= b] is [not a > b]. *)
Definition VersionInfo_lt (self : VersionInfo) (other : operand) : outcome :=
  match VersionInfo_gt self other with
  | NotImplemented => NotImplemented
  | Bool op_result => Bool (negb op_result && VersionInfo_ne self other)
  end.

Definition VersionInfo_ge (self : VersionInfo) (other : operand) : outcome :=
  match VersionInfo_gt self other with
  | NotImplemented => NotImplemented
  | Bool op_result => Bool (op_result || VersionInfo_eq self other)
  end.

Definition VersionInfo_le (self : VersionInfo) (other : operand) : outcome :=
  match VersionInfo_gt self other with
  | NotImplemented => NotImplemented
  | Bool op_result => Bool (negb op_result)
  end.

(** The instance attributes set by [VersionInfo.__init__]. *)
Definition VersionInfo_init (v : VersionInfo) : gmap string value :=
  list_to_map
  [("major", VInt (major v)); ("minor", VInt (minor v)); ("release", VInt (release v))].

(** *** The instance attributes set by the other constructors *)

Definition CcStatus_init : gmap string value :=
  list_to_map
  [("network_status", VInt UNKNOWN); ("ams_password_error", VBool false);
   ("manager_must_quit", VBool false); ("task_suspend_reason", VInt UNKNOWN);
   ("task_mode", VInt UNKNOWN); ("task_mode_perm", VInt UNKNOWN);
   ("task_mode_delay", VFloat 0%float); ("network_suspend_reason", VInt UNKNOWN);
   ("network_mode", VInt UNKNOWN); ("network_mode_perm", VInt UNKNOWN);
   ("network_mode_delay", VFloat 0%float); ("gpu_suspend_reason", VInt UNKNOWN);
   ("gpu_mode", VInt UNKNOWN); ("gpu_mode_perm", VInt UNKNOWN);
   ("gpu_mode_delay", VFloat 0%float); ("disallow_attach", VBool false);
   ("simple_gui_only", VBool false)].

Definition Project_init : gmap string value :=
  list_to_map
  [("master_url", VStr ""); ("project_name", VStr ""); ("symstore", VNone);
   ("user_name", VStr ""); ("team_name", VStr ""); ("host_venue", VNone);
   ("email_hash", VStr ""); ("cross_project_id", VStr ""); ("external_cpid", VStr "");
   ("cpid_time", VFloat 0%float); ("user_total_credit", VFloat 0%float);
   ("user_expavg_credit", VFloat 0%float); ("user_create_time", VFloat 0%float);
   ("rpc_seqno", VInt 0); ("userid", VInt 0); ("teamid", VInt 0); ("hostid", VInt 0);
   ("host_total_credit", VFloat 0%float); ("host_expavg_credit", VFloat 0%float);
   ("host_create_time", VFloat 0%float); ("min_rpc_time", VFloat 0%float);
   ("next_rpc_time", VFloat 0%float); ("nrpc_failures", VNone);
   ("master_fetch_failures", VNone); ("rec", VFloat 0%float);
   ("rec_time", VFloat 0%float); ("resource_share", VFloat 0%float);
   ("desired_disk_usage", VFloat 0%float);
   ("duration_correction_factor", VFloat 0%float); ("sched_rpc_pending", VInt 0);
   ("send_time_stats_log", VInt 0); ("send_job_log", VInt 0);
   ("njobs_success", VInt 0); ("njobs_error", VInt 0);
   ("elapsed_time", VFloat 0%float); ("last_rpc_time", VFloat 0%float);
   ("dont_use_dcf", VNone); ("rsc_backoff_time", VNone);
   ("rsc_backoff_interval", VNone); ("dont_request_more_work", VNone);
   ("verify_files_on_app_start", VNone); ("gui_urls", VList nil);
   ("sched_priority", VFloat 0%float);
   ("project_files_downloaded_time", VFloat 0%float); ("project_dir", VStr "");
   ("venue", VNone)].

Definition Result_init : gmap string value :=
  list_to_map
  [("name", VStr ""); ("wu_name", VStr ""); ("version_num", VInt 0);
   ("plan_class", VStr ""); ("project_url", VStr "");
   ("report_deadline", VFloat 0%float); ("received_time", VFloat 0%float);
   ("ready_to_report", VBool false); ("got_server_ack", VBool false);
   ("final_cpu_time", VFloat 0%float); ("final_elapsed_time", VFloat 0%float);
   ("state", VInt 0); ("estimated_cpu_time_remaining", VFloat 0%float);
   ("exit_status", VInt 0); ("suspended_via_gui", VBool false);
   ("project_suspended_via_gui", VBool false); ("edf_scheduled", VBool false);
   ("coproc_missing", VBool false); ("scheduler_wait", VBool false);
   ("scheduler_wait_reason", VStr ""); ("network_wait", VBool false);
   ("resources", VStr ""); ("active_task", VBool false); ("active_task_state", VInt 0);
   ("app_version_num", VInt 0); ("slot", VInt (-1)); ("pid", VInt 0);
   ("scheduler_state", VInt 0); ("checkpoint_cpu_time", VFloat 0%float);
   ("current_cpu_time", VFloat 0%float); ("fraction_done", VFloat 0%float);
   ("elapsed_time", VFloat 0%float); ("swap_size", VInt 0);
   ("working_set_size_smoothed", VFloat 0%float); ("too_large", VBool false);
   ("needs_shmem", VBool false); ("graphics_exec_path", VStr "");
   ("web_graphics_url", VStr ""); ("remote_desktop_addr", VStr "");
   ("slot_path", VStr ""); ("completed_time", VFloat 0%float);
   ("report_immediately", VBool false); ("working_set_size", VInt 0);
   ("page_fault_rate", VFloat 0%float); ("signal", VInt 0); ("app", VNone);
   ("wup", VNone); ("project", VNone); ("avp", VNone); ("progress_rate", VNone);
   ("platform", VNone); ("bytes_sent", VNone); ("bytes_received", VNone)].

(** *** The attributes of the classes *)

(** The classes derived from [_Struct]. *)
Inductive StructClass : Type :=
| VersionInfo_class | CcStatus_class | HostInfo_class | Coproc_class
| Project_class | Result_class.

Fixpoint assoc_attr (name : string) (l : list (string * class_attr)) : option class_attr :=
  match l with
  | nil => None
  | (k, a) :: l' => if String.eqb k name then Some a else assoc_attr name l'
  end.

(** The attributes that every object has from [object] (interpreter 3.11):
    the class of the object, which cannot be set to an element, and the
    special methods. *)
Definition object_attrs : list (string * class_attr) :=
  [("__class__", ClassDescriptor TypeError); ("__delattr__", ClassObject);
   ("__dir__", ClassObject); ("__eq__", ClassObject); ("__format__", ClassObject);
   ("__ge__", ClassObject); ("__getattribute__", ClassObject);
   ("__getstate__", ClassObject); ("__gt__", ClassObject); ("__hash__", ClassObject);
   ("__init__", ClassObject); ("__init_subclass__", ClassObject); ("__le__", ClassObject);
   ("__lt__", ClassObject); ("__ne__", ClassObject); ("__new__", ClassObject);
   ("__reduce__", ClassObject); ("__reduce_ex__", ClassObject); ("__repr__", ClassObject);
   ("__setattr__", ClassObject); ("__sizeof__", ClassObject); ("__str__", ClassObject);
   ("__subclasshook__", ClassObject)].

(** The names bound in the body of [_Struct], with the two descriptors that
    the interpreter gives to a class without base: [__dict__] accepts a
    dictionary only, and [__weakref__] cannot be set. *)
Definition Struct_attrs : list (string * class_attr) :=
  [("__module__", ClassValue (VStr "client"));
   ("__doc__", ClassValue (VStr "
    Base helper class with common methods for all classes derived from
    BOINC's C++ structs.
    "));
   ("parse", ClassObject); ("__str__", ClassObject);
   ("__dict__", ClassDescriptor TypeError);
   ("__weakref__", ClassDescriptor AttributeError)].

(** The names bound in the body of each class; a class without docstring
    binds [__doc__] to [None].  [VersionInfo] has the property [_tuple],
    which has no setter, the methods that [total_ordering] adds, and
    [__hash__] bound to [None] since it defines [__eq__]. *)
Definition own_attrs (c : StructClass) : list (string * class_attr) :=
  match c with
  | VersionInfo_class =>
      [("__module__", ClassValue (VStr "client")); ("__init__", ClassObject);
       ("_tuple", ClassDescriptor AttributeError); ("__eq__", ClassObject);
       ("__ne__", ClassObject); ("__gt__", ClassObject); ("__str__", ClassObject);
       ("__repr__", ClassObject); ("__doc__", ClassValue VNone);
       ("__hash__", ClassValue VNone); ("__lt__", ClassObject); ("__le__", ClassObject);
       ("__ge__", ClassObject)]
  | CcStatus_class =>
      [("__module__", ClassValue (VStr "client")); ("__init__", ClassObject);
       ("__doc__", ClassValue VNone)]
  | HostInfo_class =>
      [("__module__", ClassValue (VStr "client")); ("__init__", ClassObject);
       ("parse", ClassObject); ("__doc__", ClassValue VNone)]
  | Coproc_class =>
      [("__module__", ClassValue (VStr "client"));
       ("__doc__", ClassValue (VStr "
    Represents a set of identical coprocessors on a particular computer.
    Abstract class;
    objects will always be a derived class (COPROC_CUDA, COPROC_ATI)
    Used in both client and server.
    "));
       ("__init__", ClassObject)]
  | Project_class =>
      [("__module__", ClassValue (VStr "client")); ("__init__", ClassObject);
       ("parse", ClassObject); ("__str__", ClassObject); ("__doc__", ClassValue VNone)]
  | Result_class =>
      [("__module__", ClassValue (VStr "client"));
       ("__doc__", ClassValue (VStr ("Also called " ++ dquote ++ "task" ++ dquote
                                     ++ " in some contexts.")));
       ("__init__", ClassObject); ("parse", ClassObject); ("__str__", ClassObject)]
  end.

(** Attribute lookup on the class of an object: the class, then [_Struct],
    then [object]. *)
Definition class_attrs (c : StructClass) (name : string) : option class_attr :=
  assoc_attr name (own_attrs c ++ Struct_attrs ++ object_attrs)%list.

Section Structs.

Context {pyfloat : PyFloat}.

(** [_Struct.parse(cls, xml)] is [setattrs_from_xml(cls(), xml)]. *)
Definition VersionInfo_parse (xml : element) : res (gmap string value) :=
  setattrs_from_xml (class_attrs VersionInfo_class)
    (VersionInfo_init {| major := 0; minor := 0; release := 0 |}) xml ∅.

Definition CcStatus_parse (xml : element) : res (gmap string value) :=
  setattrs_from_xml (class_attrs CcStatus_class) CcStatus_init xml ∅.

(** [Project.parse] *)
Definition Project_parse (xml : element) : res (gmap string value) :=
  setattrs_from_xml (class_attrs Project_class) Project_init xml ∅.

(** [Result.parse], first part: the main parse and the parse of the
    children of [<active_task>]. *)
Definition Result_parse_fields (xml : element) : res (gmap string value) :=
  result <~ setattrs_from_xml (class_attrs Result_class) Result_init xml ∅ ;;
  match find "active_task" xml with
  | None => Ok (<["active_task" := VBool false]> result)
  | Some active_task =>
      setattrs_from_xml (class_attrs Result_class)
        (<["active_task" := VBool true]> result) active_task ∅
  end.

(** [Result.parse], second part: the two assignments made when a CPU time
    is nonzero and the matching elapsed time is zero. *)
Definition Result_old_client (result : gmap string value) : res (gmap string value) :=
  current_cpu_time <~ getattr result "current_cpu_time" ;;
  result <~
    (if negb (eq_zero current_cpu_time) then
       elapsed_time <~ getattr result "elapsed_time" ;;
       if eq_zero elapsed_time then
         current_cpu_time <~ getattr result "current_cpu_time" ;;
         Ok (<["elapsed_time" := current_cpu_time]> result)
       else Ok result
     else Ok result) ;;
  final_cpu_time <~ getattr result "final_cpu_time" ;;
  if negb (eq_zero final_cpu_time) then
    final_elapsed_time <~ getattr result "final_elapsed_time" ;;
    if eq_zero final_elapsed_time then
      final_cpu_time <~ getattr result "final_cpu_time" ;;
      Ok (<["final_elapsed_time" := final_cpu_time]> result)
    else Ok result
  else Ok result.

(** [Result.parse] *)
Definition Result_parse (xml : element) : res (gmap string value) :=
  result <~ Result_parse_fields xml ;;
  Result_old_client result.

End Structs.

(** *** VersionInfo as text *)



(** *** HostInfo and Coproc *)

Definition HostInfo_init : gmap string value :=
  list_to_map
  [("timezone", VInt 0); ("domain_name", VStr ""); ("ip_addr", VStr "");
   ("host_cpid", VStr ""); ("p_ncpus", VInt 0); ("p_vendor", VStr "");
   ("p_model", VStr ""); ("p_features", VStr ""); ("p_fpops", VFloat 0%float);
   ("p_iops", VFloat 0%float); ("p_membw", VFloat 0%float);
   ("p_calculated", VFloat 0%float); ("p_vm_extensions_disabled", VBool false);
   ("m_nbytes", VInt 0); ("m_cache", VInt 0); ("m_swap", VInt 0); ("d_total", VInt 0);
   ("d_free", VInt 0); ("os_name", VStr ""); ("os_version", VStr "");
   ("virtualbox_version", VStr ""); ("product_name", VStr "");
   ("wsl_available", VBool false); ("coprocs", VList nil);
   ("n_usable_coprocs", VInt 0); ("serialnum", VStr "")].

Definition Coproc_init : gmap string value :=
  list_to_map
  [("type", VStr ""); ("count", VInt 0); ("peak_flops", VFloat 0%float);
   ("used", VFloat 0%float); ("have_cuda", VBool false); ("have_cal", VBool false);
   ("have_opencl", VBool false); ("available_ram", VInt 0);
   ("specified_in_config", VBool false); ("req_secs", VFloat 0%float);
   ("req_instances", VFloat 0%float); ("estimated_delay", VInt 0);
   ("opencl_device_count", VInt 0); ("last_print_time", VFloat 0%float)].

Section HostInfo.

Context {pyfloat : PyFloat}.

(** [Coproc.parse] *)
Definition Coproc_parse (xml : element) : res (gmap string value) :=
  setattrs_from_xml (class_attrs Coproc_class) Coproc_init xml ∅.

(** The items that [for c in v] visits: those of a list, or the children of
    an element; other values of an attribute are not iterated. *)
Definition iterate (v : value) : res (list element) :=
  match v with
  | VList l => Ok l
  | VElem e => Ok (children e)
  | VNone | VBool _ | VInt _ | VFloat _ | VStr _ => Raise TypeError
  end.

(** The loop [for c in hostinfo.coprocs: aux.append(Coproc.parse(c))]. *)
Fixpoint parse_coprocs (items : list element) (aux : list (gmap string value))
    : res (list (gmap string value)) :=
  match items with
  | nil => Ok aux
  | c :: rest =>
      coproc <~ Coproc_parse c ;;
      parse_coprocs rest (aux ++ [coproc])
  end.

(** [HostInfo.parse]: the object decoded from [xml], together with the list
    of [Coproc] objects that the method assigns to its attribute [coprocs]
    in the end. *)
Definition HostInfo_parse (xml : element)
    : res (gmap string value * list (gmap string value)) :=
  hostinfo <~ setattrs_from_xml (class_attrs HostInfo_class) HostInfo_init xml ∅ ;;
  coprocs <~ getattr hostinfo "coprocs" ;;
  items <~ iterate coprocs ;;
  aux <~ parse_coprocs items [] ;;
  Ok (hostinfo, aux).

End HostInfo.

(* ===================================================================== *)
(** ** The transport, the password file and the session state *)
(* ===================================================================== *)

Definition GUI_RPC_PASSWD_FILE : string := "/etc/boinc-client/gui_rpc_auth.cfg".

(** The interface of the transport object [rpc.Rpc]: [connect] and [call]
    raise socket.error on a connection or I/O problem; [call] returns the
    root element of the reply. *)
Class Rpc (T : Type) : Type := {
  rpc_connect : T -> string -> Z -> res unit * T;
  rpc_call : T -> string -> res element * T;
  rpc_disconnect : T -> T
}.

(** The attributes of a [BoincClient] instance. *)
Record BoincClient (T : Type) : Type := mkBoincClient {
  hostname : string;
  port : Z;
  passwd : option string;
  rpc : T;
  version : option (gmap string value);
  authorized : bool;
  connected : bool
}.

Arguments mkBoincClient {T}.
Arguments hostname {T}.
Arguments port {T}.
Arguments passwd {T}.
Arguments rpc {T}.
Arguments version {T}.
Arguments authorized {T}.
Arguments connected {T}.

(** What the session does to the outside, in order. *)
Inductive event : Type :=
| EvConnect (host : string) (port : Z)
| EvCall (request : string)
| EvDisconnect
| EvOpen (path : string).

(** The password file as [open(GUI_RPC_PASSWD_FILE, "r")] and [f.read()]
    find it: opening or reading it raises IOError; or its bytes are no text
    in the encoding of the locale, and reading raises UnicodeDecodeError; or
    it holds a text, given here as it is stored, before the newlines are
    translated. *)
Inductive file_content : Type :=
| Unreadable
| Undecodable
| Text (stored : string).

(** The session object together with its surroundings: the password file
    and the events so far. *)
Record world (T : Type) : Type := mkWorld {
  self : BoincClient T;
  passwd_file : file_content;
  trace : list event
}.

Arguments mkWorld {T}.
Arguments self {T}.
Arguments passwd_file {T}.
Arguments trace {T}.

(** [BoincClient.__init__], for a host string already split at its first
    colon into [hostname] and [port]. *)
Definition BoincClient_init {T : Type} (hostname : string) (port : Z)
    (passwd : option string) (rpc : T) : BoincClient T :=
  mkBoincClient hostname port passwd rpc None false false.

Section Client.

Context {pyfloat : PyFloat} {T : Type} {transport : Rpc T}.

(** Computations on the world that return a value or raise. *)
Definition M (A : Type) : Type := world T -> res A * world T.

Definition ret {A : Type} (a : A) : M A := fun w => (Ok a, w).

Definition bind {A B : Type} (m : M A) (k : A -> M B) : M B :=
  fun w =>
    match m w with
    | (Ok a, w') => k a w'
    | (Raise e, w') => (Raise e, w')
    end.

Notation "x <- m ;; k" := (bind m (fun x => k))
  (at level 100, m at next level, right associativity).
Notation "m ;;; k" := (bind m (fun _ => k))
  (at level 100, right associativity).

(** A value or an exception computed without effect. *)
Definition lift {A : Type} (r : res A) : M A := fun w => (r, w).

(** [try: body except socket.error: handler] *)
Definition try_except_socket_error {A : Type} (body handler : M A) : M A :=
  fun w =>
    match body w with
    | (Raise SocketError, w') => handler w'
    | r => r
    end.

Definition get {A : Type} (field : BoincClient T -> A) : M A :=
  fun w => (Ok (field (self w)), w).

Definition update (f : BoincClient T -> BoincClient T) : M unit :=
  fun w => (Ok tt, mkWorld (f (self w)) (passwd_file w) (trace w)).

Definition set_rpc (t : T) (c : BoincClient T) : BoincClient T :=
  mkBoincClient (hostname c) (port c) (passwd c) t (version c) (authorized c) (connected c).

Definition set_version (v : gmap string value) (c : BoincClient T) : BoincClient T :=
  mkBoincClient (hostname c) (port c) (passwd c) (rpc c) (Some v) (authorized c) (connected c).

Definition set_authorized (b : bool) (c : BoincClient T) : BoincClient T :=
  mkBoincClient (hostname c) (port c) (passwd c) (rpc c) (version c) b (connected c).

Definition set_connected (b : bool) (c : BoincClient T) : BoincClient T :=
  mkBoincClient (hostname c) (port c) (passwd c) (rpc c) (version c) (authorized c) b.

Definition log (ev : event) : M unit :=
  fun w => (Ok tt, mkWorld (self w) (passwd_file w) (trace w ++ [ev])).

(** [self.rpc.connect(host, port)], [self.rpc.call(request)] and
    [self.rpc.disconnect()] *)
Definition self_rpc_connect (host : string) (p : Z) : M unit :=
  log (EvConnect host p) ;;;
  fun w =>
    let '(r, t) := rpc_connect (rpc (self w)) host p in
    (r, mkWorld (set_rpc t (self w)) (passwd_file w) (trace w)).

Definition self_rpc_call (request : string) : M element :=
  log (EvCall request) ;;;
  fun w =>
    let '(r, t) := rpc_call (rpc (self w)) request in
    (r, mkWorld (set_rpc t (self w)) (passwd_file w) (trace w)).

Definition self_rpc_disconnect : M unit :=
  log EvDisconnect ;;;
  update (fun c => set_rpc (rpc_disconnect (rpc c)) c).

(** [read_gui_rpc_password()]: the file is opened in text mode and read;
    the result is its text without its last newline, or [None] when the
    handler of IOError is reached.  UnicodeDecodeError is no IOError and
    leaves the function. *)
Definition read_gui_rpc_password : M (option string) :=
  log (EvOpen GUI_RPC_PASSWD_FILE) ;;;
  fun w =>
    match passwd_file w with
    | Text stored =>
        let buf := Str.universal_newlines stored in
        if Str.endswith_char "010"%char buf
        then (Ok (Some (Str.drop_last buf)), w)
        else (Ok (Some buf), w)
    | Undecodable => (Raise UnicodeDecodeError, w)
    | Unreadable => (Ok None, w)
    end.

(** ["%s" % v] for a string or [None]. *)
Definition format_s (v : option string) : string :=
  match v with
  | Some s => s
  | None => "None"
  end.

(** The digest [hashlib.md5(inputStr.encode("utf-8")).hexdigest().lower()]
    of [inputStr = "%s%s" % (nonce, password)]. *)
Definition nonce_hash (nonce password : option string) : string :=
  let inputStr := format_s nonce ++ format_s password in
  Str.lower (MD5.hexdigest (Str.encode_utf8 inputStr)).

(** [BoincClient.authorize(password)] *)
Definition authorize (password : option string) : M bool :=
  host <- get hostname ;;
  password <-
    (match password with
     | None =>
         if negb (Str.truthy host) then
           p <- read_gui_rpc_password ;;
           ret (Some (match p with
                      | Some s => if Str.truthy s then s else ""
                      | None => ""
                      end))
         else ret password
     | Some _ => ret password
     end) ;;
  auth1 <- self_rpc_call "<auth1/>" ;;
  let nonce := text auth1 in
  let hash := nonce_hash nonce password in
  reply <- self_rpc_call ("<auth2><nonce_hash>" ++ hash ++ "</nonce_hash></auth2>") ;;
  if String.eqb (tag reply) "authorized" then ret true else ret false.

(** [BoincClient.exchange_versions()] *)
Definition exchange_versions : M (gmap string value) :=
  reply <- self_rpc_call "<exchange_versions/>" ;;
  lift (VersionInfo_parse reply).

(** [BoincClient.connect()] *)
Definition connect : M unit :=
  host <- get hostname ;;
  p <- get port ;;
  opened <-
    try_except_socket_error
      (self_rpc_connect host p ;;;
       update (set_connected true) ;;;
       ret true)
      (update (set_connected false) ;;;
       ret false) ;;
  if opened : bool then
    pw <- get passwd ;;
    a <- authorize pw ;;
    update (set_authorized a) ;;;
    v <- exchange_versions ;;
    update (set_version v)
  else ret tt.

(** [BoincClient.disconnect()] *)
Definition disconnect : M unit := self_rpc_disconnect.

(** [BoincClient.get_cc_status()]; the result is [None] when the method
    ends without a [return]. *)
Definition get_cc_status : M (option (gmap string value)) :=
  c <- get connected ;;
  (if negb c then connect else ret tt) ;;;
  try_except_socket_error
    (reply <- self_rpc_call "<get_cc_status/>" ;;
     status <- lift (CcStatus_parse reply) ;;
     ret (Some status))
    (update (set_connected false) ;;;
     ret None).

(** The loop [for item in list(reply): results.append(parse(item))]. *)
Fixpoint parse_items (parse : element -> res (gmap string value)) (items : list element)
    (results : list (gmap string value)) : res (list (gmap string value)) :=
  match items with
  | nil => Ok results
  | item :: rest =>
      r <~ parse item ;;
      parse_items parse rest (results ++ [r])
  end.

(** [BoincClient.get_results(active_only)] *)
Definition get_results (active_only : bool) : M (list (gmap string value)) :=
  reply <- self_rpc_call
    ("<get_results><active_only>" ++ (if active_only then "1" else "0")
     ++ "</active_only></get_results>") ;;
  if negb (String.eqb (tag reply) "results") then ret []
  else lift (parse_items Result_parse (children reply) []).

(** [BoincClient.get_projects()] *)
Definition get_projects : M (list (gmap string value)) :=
  reply <- self_rpc_call "<get_project_status/>" ;;
  if negb (element_truthy reply) || negb (String.eqb (tag reply) "projects") then ret []
  else lift (parse_items Project_parse (children reply) []).

(** [BoincClient.run_benchmarks()] and [BoincClient.quit()] *)
Definition run_benchmarks : M bool :=
  reply <- self_rpc_call "<run_benchmarks/>" ;;
  ret (String.eqb (tag reply) "success").

Definition quit : M bool :=
  reply <- self_rpc_call "<quit/>" ;;
  if String.eqb (tag reply) "success" then
    update (set_connected false) ;;;
    ret true
  else ret false.

End Client.

(** ** The session: the other methods *)

Section ClientMethods.

Context {pyfloat : PyFloat} {T : Type} {transport : Rpc T}.

Notation "x <- m ;; k" := (@bind T _ _ m (fun x => k))
  (at level 100, m at next level, right associativity).
Notation "m ;;; k" := (@bind T _ _ m (fun _ => k))
  (at level 100, right associativity).

(** [BoincClient.__init__(host, passwd)] with the transport object [t]:
    the host is split at its first colon, and the text after the colon is
    the port. *)
Definition BoincClient_new (host : string) (passwd : option string) (t : T)
    : res (BoincClient T) :=
  let host := Str.split_colon host in
  port <~
    (match snd host with
     | Some p =>
         match Str.to_int p with
         | Some n => Ok n
         | None => Raise ValueError
         end
     | None => Ok 0
     end) ;;
  Ok (mkBoincClient (fst host) port passwd t None false false).

(** [BoincClient.get_host_info()] *)
Definition get_host_info : @M T (gmap string value * list (gmap string value)) :=
  reply <- self_rpc_call "<get_host_info/>" ;;
  lift (HostInfo_parse reply).

(** [BoincClient.get_tasks()] and the properties [tasks], [results] and
    [results_active]. *)
Definition get_tasks : @M T (list (gmap string value)) := get_results false.

Definition results : @M T (list (gmap string value)) := get_results false.

Definition results_active : @M T (list (gmap string value)) := get_results true.

(** [BoincClient.set_mode(component, mode, duration)]; [depth] bounds the
    nested calls of [RunMode.name] as in [name]. *)
Definition set_mode (depth : nat) (component : string) (mode : pyval) (duration : float)
    : @M T bool :=
  let component := Str.replace "cpu" "run" component in
  let component := Str.replace "net" "network" component in
  try_except_socket_error
    (label <- lift (name depth RunMode mode) ;;
     reply <- self_rpc_call
       ("<set_" ++ component ++ "_mode>"
        ++ "<" ++ Str.lower label ++ "/><duration>" ++ Str.format_f duration ++ "</duration>"
        ++ "</set_" ++ component ++ "_mode>") ;;
     ret (String.eqb (tag reply) "success"))
    (ret false).

(** [set_run_mode], [set_gpu_mode] and [set_network_mode] *)
Definition set_run_mode (depth : nat) (mode : pyval) (duration : float) : @M T bool :=
  set_mode depth "cpu" mode duration.

Definition set_gpu_mode (depth : nat) (mode : pyval) (duration : float) : @M T bool :=
  set_mode depth "gpu" mode duration.

Definition set_network_mode (depth : nat) (mode : pyval) (duration : float) : @M T bool :=
  set_mode depth "net" mode duration.

End ClientMethods.

(* ===================================================================== *)
(** ** Instances used to evaluate the model on concrete inputs *)
(* ===================================================================== *)

Module Sample.

(** The value of a string of decimal digits. *)
Fixpoint digits (s : string) (acc : Z) : option Z :=
  match s with
  | EmptyString => Some acc
  | String c s' =>
      let n := Z.of_N (N_of_ascii c) in
      if (48 <=? n) && (n <=? 57) then digits s' (10 * acc + (n - 48)) else None
  end.

(** Splits a string at its first dot. *)
Fixpoint split_dot (s : string) : string * option string :=
  match s with
  | EmptyString => (EmptyString, None)
  | String c s' =>
      if Ascii.eqb c "."%char then (EmptyString, Some s')
      else let '(a, b) := split_dot s' in (String c a, b)
  end.

(** [float(s)] on the plain decimals [ddd] and [ddd.ddd] of at most fifteen
    digits, where it is one correctly rounded division; every other string
    is rejected. *)
Definition decimal_float (s : string) : option float :=
  let '(ip, fp) := split_dot s in
  let fp := default EmptyString fp in
  let n := (String.length ip + String.length fp)%nat in
  if (0 <? Z.of_nat n) && (Z.of_nat n <=? 15) then
    match digits (ip ++ fp) 0 with
    | Some m =>
        Some (PrimFloat.div (PrimFloat.of_uint63 (Uint63.of_Z m))
                (PrimFloat.of_uint63 (Uint63.of_Z (10 ^ Z.of_nat (String.length fp)))))
    | None => None
    end
  else None.

#[export] Instance decimal : PyFloat := decimal_float.

(** A transport that plays a script: the outcome of [connect] and the
    outcomes of the successive calls; a call beyond the script fails. *)
Record script : Type := mkScript {
  on_connect : res unit;
  replies : list (res element)
}.

#[export] Instance scripted : Rpc script := {
  rpc_connect t _ _ := (on_connect t, t);
  rpc_call t _ :=
    match replies t with
    | r :: rest => (r, mkScript (on_connect t) rest)
    | nil => (Raise SocketError, t)
    end;
  rpc_disconnect t := t
}.

(** A world around a fresh client. *)
Definition fresh (hostname : string) (passwd : option string) (file : file_content)
    (t : script)
    : world script :=
  mkWorld (BoincClient_init hostname 0 passwd t) file [].

End Sample.

(* ===================================================================== *)
(** * The vocabulary of the statements *)
(* ===================================================================== *)

(** ** Comparisons *)

(** The order on triples that [>] computes. *)
Definition lex_gt (a b : Z * Z * Z) : Prop :=
  let '(a1, a2, a3) := a in
  let '(b1, b2, b3) := b in
  a1 > b1 \/ (a1 = b1 /\ (a2 > b2 \/ (a2 = b2 /\ a3 > b3))).

(** The versions 1.2.3, 1.3.0 and 2.0.0. *)
Definition v123 : VersionInfo := {| major := 1; minor := 2; release := 3 |}.
Definition v130 : VersionInfo := {| major := 1; minor := 3; release := 0 |}.
Definition v200 : VersionInfo := {| major := 2; minor := 0; release := 0 |}.

(** ** Enumerations *)

(** The classes whose [name] has a branch for [UNKNOWN]. *)
Definition names_UNKNOWN (cls : EnumClass) : bool :=
  match cls with
  | Enum | NetworkStatus | SuspendReason => true
  | RunMode | CpuSched | ResultState | Process => false
  end.

(** ** The decoder *)

(** The class of a value as the [isinstance] tests of the decoder see it;
    [None] and an element both fall through to the last case. *)
Definition kind (v : value) : nat :=
  match v with
  | VNone | VElem _ => 0
  | VBool _ => 1
  | VInt _ => 2
  | VFloat _ => 3
  | VStr _ => 4
  | VList _ => 5
  end.

(** The class, in the same sense, of what [getattr] finds; an object of the
    class that is no value, and the value of a descriptor, fall through to
    the last case. *)
Definition attr_kind (a : attribute) : nat :=
  match a with
  | InstanceAttr v | ClassAttr (ClassValue v) => kind v
  | ClassAttr ClassObject | ClassAttr (ClassDescriptor _) => 0
  end.

(** The exception that an assignment to the attribute raises, if any. *)
Definition attr_raises (a : attribute) : option exn :=
  match a with
  | ClassAttr (ClassDescriptor raised) => Some raised
  | InstanceAttr _ | ClassAttr (ClassValue _) | ClassAttr ClassObject => None
  end.

(** The children of [xml] whose tag is [k], in document order. *)
Definition children_tagged (k : string) (xml : element) : list element :=
  List.filter (fun c => String.eqb (tag c) k) (children xml).

(** The elements that [Result.parse] hands to the decoder under the tag
    [k]: the children of [xml] tagged [k], then those of its first child
    [<active_task>], if any. *)
Definition Result_children_tagged (k : string) (xml : element) : list element :=
  children_tagged k xml ++
  match find "active_task" xml with
  | Some active_task => children_tagged k active_task
  | None => []
  end.

(** ** The session *)

(** The request of the second step of the handshake. *)
Definition auth2_request (hash : string) : string :=
  "<auth2><nonce_hash>" ++ hash ++ "</nonce_hash></auth2>".

(** The test of [authorize] before it reads the password file,
    [password is None and not self.hostname]: no password is given and the
    host name is the empty string.  "localhost" and "127.0.0.1" are host
    names like any other here. *)
Definition consults_file (host : string) (password : option string) : bool :=
  match password, host with
  | None, EmptyString => true
  | _, _ => false
  end.

(** The text of the password file as text mode gives it, less one trailing
    newline. *)
Definition password_text (stored : string) : string :=
  let buf := Str.universal_newlines stored in
  if Str.endswith_char "010"%char buf then Str.drop_last buf else buf.

(** The password that [authorize] hashes: an explicit password as it is;
    when the file is read, its text less one trailing newline, or the
    empty string when the file cannot be read, unless reading raises;
    otherwise [None]. *)
Definition resolved_password (host : string) (password : option string)
    (file : file_content) : res (option string) :=
  match password, host with
  | Some p, _ => Ok (Some p)
  | None, EmptyString =>
      match file with
      | Text stored => Ok (Some (password_text stored))
      | Undecodable => Raise UnicodeDecodeError
      | Unreadable => Ok (Some "")
      end
  | None, String _ _ => Ok None
  end.

(** The world after a call that left the transport in state [t]. *)
Definition called {T : Type} (w : world T) (evs : list event) (t : T) : world T :=
  mkWorld (set_rpc t (self w)) (passwd_file w) (trace w ++ evs).

(** The client with [connected] set. *)
Definition with_connected {T : Type} (b : bool) (w : world T) : world T :=
  mkWorld (set_connected b (self w)) (passwd_file w) (trace w).

(** The events that are calls on the transport. *)
Definition is_call (ev : event) : Prop :=
  match ev with
  | EvCall _ => True
  | _ => False
  end.

(** The two calls of [authorize], once the password is known. *)
Definition handshake {T : Type} {transport : Rpc T} (pw : option string) : @M T bool :=
  fun w0 =>
    match self_rpc_call "<auth1/>" w0 with
    | (Ok auth1, w1) =>
        match self_rpc_call (auth2_request (nonce_hash (text auth1) pw)) w1 with
        | (Ok reply, w2) => (Ok (String.eqb (tag reply) "authorized"), w2)
        | (Raise e, w2) => (Raise e, w2)
        end
    | (Raise e, w1) => (Raise e, w1)
    end.

Arguments nonce_hash : simpl never.

(** ** Inputs on which the statements are evaluated *)

(** The value of a result that is known not to raise. *)
Definition is_ok {A : Type} (r : res A) : bool :=
  match r with
  | Ok _ => true
  | Raise _ => false
  end.

Definition ok_or {A : Type} (d : A) (r : res A) : A :=
  match r with
  | Ok a => a
  | Raise _ => d
  end.

Definition sample_result : element :=
  Element "result" None
    [Element "name" (Some "task_1") [];
     Element "platform" (Some "x86_64-pc-linux-gnu") [];
     Element "final_cpu_time" (Some "0") [];
     Element "active_task" None
       [Element "current_cpu_time" (Some "42.0") [];
        Element "elapsed_time" (Some "0") []]].

Definition sample_results : element :=
  Element "results" None [sample_result; Element "result" None []].

Definition sample_project : element :=
  Element "project" None
    [Element "master_url" (Some "http://example.org/") [];
     Element "symstore" (Some "store") [];
     Element "venue" None []].

Definition nonce_abc : element := Element "nonce" (Some "abc") [].
Definition reply_authorized : element := Element "authorized" None [].
Definition reply_version : element :=
  Element "server_version" None
    [Element "major" (Some "7") []; Element "minor" (Some "16") [];
     Element "release" (Some "6") []].

Definition sample_status : element :=
  Element "cc_status" None
    [Element "network_status" (Some "0") []; Element "task_mode" (Some "2") []].

Definition sample_session (replies : list (res element)) : Sample.script :=
  Sample.mkScript (Ok tt) replies.


(** ** The decoder, continued *)

(** [hasattr(obj, c.tag)] *)
Definition has_attr (cls : string -> option class_attr) (obj : gmap string value)
    (c : element) : bool :=
  match find_attr cls obj (tag c) with
  | Some _ => true
  | None => false
  end.

(** Two objects of a class under whose names [getattr] finds values of the
    same class, with the same outcome of an assignment. *)
Definition same_shape (cls : string -> option class_attr) (o1 o2 : gmap string value)
    : Prop :=
  forall k,
    (fun a => (attr_kind a, attr_raises a)) <$> find_attr cls o1 k =
    (fun a => (attr_kind a, attr_raises a)) <$> find_attr cls o2 k.

(** The names under which a child of [xml] is tagged. *)
Definition child_tags (xml : element) : list string := List.map tag (children xml).

(** ** The session, continued *)

(** Two clients that differ at most by the state of their transport. *)
Definition same_client {T : Type} (c c' : BoincClient T) : Prop :=
  hostname c' = hostname c /\ port c' = port c /\ passwd c' = passwd c /\
  version c' = version c /\ authorized c' = authorized c /\ connected c' = connected c.

(** A method that leaves the attributes of the client and the password
    file as they are, the transport apart. *)
Definition keeps_flags {T A : Type} (m : @M T A) (w : world T) : Prop :=
  same_client (self w) (self (snd (m w))) /\ passwd_file (snd (m w)) = passwd_file w.

(** The world with another content of the password file. *)
Definition with_file {T : Type} (file : file_content) (w : world T) : world T :=
  mkWorld (self w) file (trace w).

(** The component named in the request of [set_mode]. *)
Definition component_tag (component : string) : string :=
  Str.replace "net" "network" (Str.replace "cpu" "run" component).

(** The element that names the mode in the request, for the modes 1 to 4. *)
Definition mode_label (z : Z) : string :=
  if z =? 1 then "always"
  else if z =? 2 then "according to preferences"
  else if z =? 3 then "never"
  else "restore".

Definition set_mode_request (component label : string) (duration : float) : string :=
  "<set_" ++ component ++ "_mode>"
  ++ "<" ++ label ++ "/><duration>" ++ Str.format_f duration ++ "</duration>"
  ++ "</set_" ++ component ++ "_mode>".

(** Whether the character [c] occurs in [s]. *)
Fixpoint has_char (c : ascii) (s : string) : bool :=
  match s with
  | EmptyString => false
  | String a s' => Ascii.eqb a c || has_char c s'
  end.

(* ===================================================================== *)
(** * Properties *)
(* ===================================================================== *)

(** ** VersionInfo: the comparison methods *)

(** Case analysis on every integer test met in the goal or in a hypothesis. *)
Ltac z_cases :=
  repeat match goal with
  | H : context [_ =? _] |- _ => revert H
  | H : context [_ >? _] |- _ => revert H
  end;
  repeat match goal with
  | |- context [?x =? ?y] => destruct (Z.eqb_spec x y)
  | |- context [?x >? ?y] => destruct (Z.gtb_spec x y)
  end;
  simpl in *; intros; try congruence; try lia.

Lemma tuple_gt_spec (a b : Z * Z * Z) : tuple_gt a b = true <-> lex_gt a b.
Proof.
  destruct a as [[a1 a2] a3], b as [[b1 b2] b3]. unfold tuple_gt, lex_gt.
  destruct (Z.eqb_spec a1 b1); destruct (Z.eqb_spec a2 b2); simpl;
    rewrite <- Zgt_is_gt_bool; lia.
Qed.

Lemma tuple_eq_spec (a b : Z * Z * Z) : tuple_eq a b = true <-> a = b.
Proof.
  destruct a as [[a1 a2] a3], b as [[b1 b2] b3]. unfold tuple_eq.
  rewrite !andb_true_iff, !Z.eqb_eq. split.
  - now intros [[-> ->] ->].
  - now intros [= -> -> ->].
Qed.

Lemma tuple_inj (a b : VersionInfo) : _tuple a = _tuple b <-> a = b.
Proof.
  destruct a, b. unfold _tuple. simpl.
  split; [now intros [= -> -> ->] | now intros [= -> -> ->]].
Qed.

Lemma VersionInfo_eq_iff (a b : VersionInfo) :
  VersionInfo_eq a (OVersion b) = true <-> a = b.
Proof. unfold VersionInfo_eq. now rewrite tuple_eq_spec, tuple_inj. Qed.

Lemma VersionInfo_gt_iff (a b : VersionInfo) :
  VersionInfo_gt a (OVersion b) = Bool true <-> lex_gt (_tuple a) (_tuple b).
Proof.
  unfold VersionInfo_gt. rewrite <- tuple_gt_spec.
  split; intros H; congruence.
Qed.

Lemma VersionInfo_le_iff (a b : VersionInfo) :
  VersionInfo_le a (OVersion b) = Bool true <-> ~ lex_gt (_tuple a) (_tuple b).
Proof.
  unfold VersionInfo_le, VersionInfo_gt. rewrite <- tuple_gt_spec.
  destruct (tuple_gt (_tuple a) (_tuple b)); simpl; split; congruence.
Qed.

Lemma lex_gt_flip (a b : Z * Z * Z) : ~ lex_gt a b /\ a <> b <-> lex_gt b a.
Proof.
  destruct a as [[a1 a2] a3], b as [[b1 b2] b3]. unfold lex_gt. split.
  - intros [Hg Hne].
    assert (Hn : ~ (a1 = b1 /\ a2 = b2 /\ a3 = b3))
      by (intros (-> & -> & ->); now apply Hne).
    lia.
  - intros H. split; [lia |]. intros [= -> -> ->]. lia.
Qed.

Lemma VersionInfo_lt_iff (a b : VersionInfo) :
  VersionInfo_lt a (OVersion b) = Bool true <-> lex_gt (_tuple b) (_tuple a).
Proof.
  unfold VersionInfo_lt, VersionInfo_ne, VersionInfo_gt, VersionInfo_eq.
  rewrite <- lex_gt_flip, <- tuple_gt_spec, <- tuple_eq_spec.
  destruct (tuple_gt (_tuple a) (_tuple b)), (tuple_eq (_tuple a) (_tuple b)); simpl;
    split; intros H; try congruence; try (destruct H; congruence).
  split; congruence.
Qed.

Lemma VersionInfo_gt_trans (a b c : VersionInfo) :
  VersionInfo_gt a (OVersion b) = Bool true ->
  VersionInfo_gt b (OVersion c) = Bool true ->
  VersionInfo_gt a (OVersion c) = Bool true.
Proof.
  rewrite !VersionInfo_gt_iff.
  destruct a as [a1 a2 a3], b as [b1 b2 b3], c as [c1 c2 c3].
  unfold _tuple, lex_gt. simpl. lia.
Qed.

Lemma VersionInfo_trichotomy (a b : VersionInfo) :
  (VersionInfo_lt a (OVersion b) = Bool true /\ VersionInfo_eq a (OVersion b) = false /\
   VersionInfo_gt a (OVersion b) = Bool false) \/
  (VersionInfo_lt a (OVersion b) = Bool false /\ VersionInfo_eq a (OVersion b) = true /\
   VersionInfo_gt a (OVersion b) = Bool false) \/
  (VersionInfo_lt a (OVersion b) = Bool false /\ VersionInfo_eq a (OVersion b) = false /\
   VersionInfo_gt a (OVersion b) = Bool true).
Proof.
  unfold VersionInfo_lt, VersionInfo_ne, VersionInfo_gt, VersionInfo_eq.
  pose proof (tuple_gt_spec (_tuple a) (_tuple b)) as Hgt.
  pose proof (tuple_eq_spec (_tuple a) (_tuple b)) as Heq.
  destruct (tuple_gt (_tuple a) (_tuple b)), (tuple_eq (_tuple a) (_tuple b)); simpl;
    [exfalso | now right; right | now right; left | now left].
  destruct Hgt as [Hgt _], Heq as [Heq _].
  specialize (Hgt eq_refl). rewrite (Heq eq_refl) in Hgt.
  destruct (_tuple b) as [[b1 b2] b3]. unfold lex_gt in Hgt. lia.
Qed.

(** C9.  The comparison of [VersionInfo] objects is a total order on the
    triples (major, minor, release): [==] is reflexive and is equality of
    the triples; [<] is transitive and so are [>] and [<=]; [<=] is
    antisymmetric and total, and of [<], [==], [>] exactly one holds;
    (1,2,3) < (1,3,0) < (2,0,0) and (1,2,3) == (1,2,3); against an object of
    another class the ordering methods answer [NotImplemented] and [==]
    answers false. *)
Theorem VersionInfo_total_order (a b c : VersionInfo) :
  VersionInfo_eq a (OVersion a) = true /\
  (VersionInfo_eq a (OVersion b) = true <-> _tuple a = _tuple b) /\
  (VersionInfo_lt a (OVersion b) = Bool true ->
   VersionInfo_lt b (OVersion c) = Bool true ->
   VersionInfo_lt a (OVersion c) = Bool true) /\
  (VersionInfo_gt a (OVersion b) = Bool true ->
   VersionInfo_gt b (OVersion c) = Bool true ->
   VersionInfo_gt a (OVersion c) = Bool true) /\
  (VersionInfo_le a (OVersion b) = Bool true ->
   VersionInfo_le b (OVersion c) = Bool true ->
   VersionInfo_le a (OVersion c) = Bool true) /\
  (VersionInfo_le a (OVersion b) = Bool true ->
   VersionInfo_le b (OVersion a) = Bool true -> a = b) /\
  (VersionInfo_le a (OVersion b) = Bool true \/ VersionInfo_le b (OVersion a) = Bool true) /\
  ((VersionInfo_lt a (OVersion b) = Bool true /\ VersionInfo_eq a (OVersion b) = false /\
    VersionInfo_gt a (OVersion b) = Bool false) \/
   (VersionInfo_lt a (OVersion b) = Bool false /\ VersionInfo_eq a (OVersion b) = true /\
    VersionInfo_gt a (OVersion b) = Bool false) \/
   (VersionInfo_lt a (OVersion b) = Bool false /\ VersionInfo_eq a (OVersion b) = false /\
    VersionInfo_gt a (OVersion b) = Bool true)) /\
  VersionInfo_lt v123 (OVersion v130) = Bool true /\
  VersionInfo_lt v130 (OVersion v200) = Bool true /\
  VersionInfo_eq v123 (OVersion v123) = true /\
  VersionInfo_gt a OOther = NotImplemented /\
  VersionInfo_lt a OOther = NotImplemented /\
  VersionInfo_ge a OOther = NotImplemented /\
  VersionInfo_le a OOther = NotImplemented /\
  VersionInfo_eq a OOther = false /\
  VersionInfo_ne a OOther = true.
Proof.
  split; [now apply VersionInfo_eq_iff |].
  split; [now rewrite VersionInfo_eq_iff, tuple_inj |].
  split.
  { rewrite !VersionInfo_lt_iff, <- !VersionInfo_gt_iff.
    intros H1 H2. exact (VersionInfo_gt_trans c b a H2 H1). }
  split; [apply VersionInfo_gt_trans |].
  split.
  { rewrite !VersionInfo_le_iff.
    destruct a as [a1 a2 a3], b as [b1 b2 b3], c as [c1 c2 c3].
    unfold _tuple, lex_gt. simpl. lia. }
  split.
  { rewrite !VersionInfo_le_iff. intros H1 H2. apply tuple_inj.
    destruct a as [a1 a2 a3], b as [b1 b2 b3]. unfold _tuple, lex_gt in *. simpl in *.
    assert (a1 = b1 /\ a2 = b2 /\ a3 = b3) as (-> & -> & ->) by lia. reflexivity. }
  split.
  { rewrite !VersionInfo_le_iff.
    destruct a as [a1 a2 a3], b as [b1 b2 b3]. unfold _tuple, lex_gt. simpl. lia. }
  split; [apply VersionInfo_trichotomy |].
  repeat split.
Qed.

Lemma VersionInfo_total_order_witness :
  VersionInfo_lt v123 (OVersion v200) = Bool true.
Proof.
  destruct (VersionInfo_total_order v123 v130 v200) as (_ & _ & Htrans & _).
  apply Htrans; reflexivity.
Defined.

(** ** parse_bool *)

Example parse_bool_examples :
  parse_bool (Element "x" None nil) = true /\
  parse_bool (Element "x" (Some "0") nil) = false /\
  parse_bool (Element "x" (Some "False") nil) = false /\
  parse_bool (Element "x" (Some " FALSE  ") nil) = false /\
  parse_bool (Element "x" (Some "1") nil) = true /\
  parse_bool (Element "x" (Some " ") nil) = true.
Proof. repeat split; reflexivity. Qed.

(** The text "" is neither "0" nor "false" after trimming and lowercasing,
    and [parse_bool] answers false on it. *)
Lemma parse_bool_empty_text :
  parse_bool (Element "x" (Some "") nil) = false /\
  Str.lower (Str.strip "") <> "0" /\
  Str.lower (Str.strip "") <> "false".
Proof. repeat split; discriminate. Qed.

(** C2, amended.  [parse_bool] answers true when the text is missing;
    on a text it answers false exactly when the text is empty or, trimmed
    and lowercased, is "0" or "false", and true on every other text. *)
Theorem parse_bool_spec (e : element) :
  (text e = None -> parse_bool e = true) /\
  (forall t, text e = Some t ->
     (parse_bool e = false <->
        t = "" \/ Str.lower (Str.strip t) = "0" \/ Str.lower (Str.strip t) = "false") /\
     (parse_bool e = true <->
        t <> "" /\ Str.lower (Str.strip t) <> "0" /\ Str.lower (Str.strip t) <> "false")).
Proof.
  unfold parse_bool. split.
  - now intros ->.
  - intros t ->.
    destruct (String.eqb_spec (Str.lower (Str.strip t)) "0") as [H0 | H0];
      destruct (String.eqb_spec (Str.lower (Str.strip t)) "false") as [Hf | Hf];
      destruct t as [| c t']; simpl; intuition congruence.
Qed.

Lemma parse_bool_spec_witness :
  parse_bool (Element "x" (Some "False") nil) = false /\
  parse_bool (Element "x" None nil) = true.
Proof.
  destruct (parse_bool_spec (Element "x" (Some "False") nil)) as [_ H].
  destruct (H "False" eq_refl) as [[_ Hfalse] _].
  split.
  - apply Hfalse. right. right. reflexivity.
  - apply (parse_bool_spec (Element "x" None nil)). reflexivity.
Defined.

(** ** Enumerations: the name of a code *)

Example name_examples :
  name 3 NetworkStatus (PInt 0) = Ok "up" /\
  name 3 NetworkStatus (PInt UNKNOWN) = Ok "unknown" /\
  name 3 NetworkStatus (PInt 7) = Ok "unknown" /\
  name 3 SuspendReason (PInt 64) = Ok "cpu throttle" /\
  name 3 SuspendReason (PInt 3) = Ok "unknown reason" /\
  name 3 RunMode (PInt 2) = Ok "according to preferences" /\
  name 3 RunMode (PInt 1) = Ok "always" /\
  name 3 RunMode (PStr "NEVER") = Ok "never" /\
  name 3 CpuSched (PInt 1) = Ok "preempted" /\
  name 3 ResultState (PInt 4) = Ok "files uploading" /\
  name 3 Process (PInt 9) = Ok "suspended" /\
  name 1000 Process (PInt 2) = Raise RecursionError.
Proof. repeat split; vm_compute; reflexivity. Qed.

(** The decimal numeral of an integer is not the name of an attribute. *)
Lemma class_hasattr_of_Z (cls : EnumClass) (z : Z) :
  class_hasattr cls (py_str (PInt z)) = false.
Proof.
  unfold py_str, Str.of_Z, NilZero.string_of_int.
  destruct (Z.to_int z) as [d | d]; destruct d; destruct cls; reflexivity.
Qed.

Lemma first_key_unknown (cls : EnumClass) (z : Z) :
  ~ In z (known_codes cls) -> first_key (PInt z) (class_dict cls) = None.
Proof.
  intros Hz. destruct cls; cbn -[Z.eqb] in *; z_cases; intuition congruence.
Qed.

Lemma first_key_UNKNOWN (cls : EnumClass) :
  cls <> Enum -> first_key (PInt UNKNOWN) (class_dict cls) = None.
Proof. destruct cls; intros H; try reflexivity. congruence. Qed.

(** Past the [hasattr] test and the loop, [Enum.name] on a code that the
    class does not bind calls [cls.name(Enum.UNKNOWN)]. *)
Lemma Enum_name_unknown (self_name : EnumClass -> pyval -> res string) cls z :
  ~ In z (known_codes cls) ->
  Enum_name self_name cls (PInt z) = self_name cls (PInt UNKNOWN).
Proof.
  intros Hz. unfold Enum_name.
  now rewrite class_hasattr_of_Z, first_key_unknown.
Qed.

(** The label of [UNKNOWN] where [name] has one. *)
Lemma name_UNKNOWN_label (depth : nat) (cls : EnumClass) :
  names_UNKNOWN cls = true ->
  name (S depth) cls (PInt UNKNOWN) =
    Ok (match cls with
        | SuspendReason => "unknown reason"
        | _ => "unknown"
        end).
Proof. destruct cls; intros H; try discriminate; reflexivity. Qed.

(** In [NetworkStatus] and [SuspendReason] (and in [Enum] itself) a code
    outside the known set has the label of [UNKNOWN], as soon as two nested
    calls are allowed. *)
Lemma name_unknown_code_handled (depth : nat) (cls : EnumClass) (z : Z) :
  names_UNKNOWN cls = true ->
  ~ In z (known_codes cls) ->
  name (S (S depth)) cls (PInt z) = name (S (S depth)) cls (PInt UNKNOWN).
Proof.
  intros Hcls Hz.
  rewrite (name_UNKNOWN_label (S depth) cls Hcls).
  destruct (Z.eq_dec z UNKNOWN) as [-> | Hne].
  - now apply name_UNKNOWN_label.
  - assert (Hs : Enum_name (name (S depth)) cls (PInt z)
                 = name (S depth) cls (PInt UNKNOWN))
      by now apply Enum_name_unknown.
    rewrite (name_UNKNOWN_label depth cls Hcls) in Hs.
    unfold UNKNOWN in Hne.
    destruct cls; try discriminate; simpl in Hz;
      change (name (S (S depth)) ?c ?v) with
        (match c with
         | NetworkStatus => NetworkStatus_name (Enum_name (name (S depth)) c) c v
         | SuspendReason => SuspendReason_name (Enum_name (name (S depth)) c) c v
         | RunMode => RunMode_name (Enum_name (name (S depth)) c) c v
         | _ => Enum_name (name (S depth)) c v
         end); cbv iota.
    + simpl in Hz. intuition congruence.
    + unfold NetworkStatus_name, const; simpl. z_cases; intuition congruence.
    + unfold SuspendReason_name, const; simpl. z_cases; intuition congruence.
Qed.

(** In [RunMode], [CpuSched], [ResultState] and [Process], [name] has no
    branch for [UNKNOWN] and the class does not bind it: on a code outside
    the known set the lookup calls itself on [UNKNOWN] again and again, and
    raises RecursionError whatever the depth allowed. *)
Lemma name_unknown_code_unhandled (depth : nat) (cls : EnumClass) (z : Z) :
  names_UNKNOWN cls = false ->
  ~ In z (known_codes cls) ->
  name depth cls (PInt z) = Raise RecursionError.
Proof.
  intros Hcls Hz.
  assert (HU : forall d, name d cls (PInt UNKNOWN) = Raise RecursionError).
  { induction d as [| d IH]; [reflexivity |].
    destruct cls; try discriminate; simpl;
      unfold RunMode_name, Enum_name; simpl; exact IH. }
  destruct depth as [| d]; [reflexivity |].
  destruct cls; try discriminate; simpl.
  - unfold RunMode_name, const. simpl in *.
    destruct (Z.eqb_spec z 2); [intuition congruence |].
    rewrite Enum_name_unknown by (simpl; intuition congruence). apply HU.
  - rewrite Enum_name_unknown by exact Hz. apply HU.
  - rewrite Enum_name_unknown by exact Hz. apply HU.
  - rewrite Enum_name_unknown by exact Hz. apply HU.
Qed.

(** C1, at a failing input.  [CpuSched.name(99)] raises RecursionError
    whatever the depth of calls allowed, and so do [RunMode.name],
    [ResultState.name] and [Process.name] on 99 and on [UNKNOWN] itself;
    [NetworkStatus.name(99)] and [SuspendReason.name(99)] are the labels of
    [UNKNOWN]. *)
Theorem name_unknown_code_RecursionError (depth : nat) :
  name depth CpuSched (PInt 99) = Raise RecursionError /\
  name depth RunMode (PInt 99) = Raise RecursionError /\
  name depth ResultState (PInt 99) = Raise RecursionError /\
  name depth Process (PInt 99) = Raise RecursionError /\
  name depth CpuSched (PInt UNKNOWN) = Raise RecursionError /\
  name depth RunMode (PInt UNKNOWN) = Raise RecursionError /\
  name (S (S depth)) NetworkStatus (PInt 99) = Ok "unknown" /\
  name (S (S depth)) SuspendReason (PInt 99) = Ok "unknown reason".
Proof.
  assert (H99 : forall cls, names_UNKNOWN cls = true -> ~ In 99 (known_codes cls))
    by (intros [] H; try discriminate; simpl; lia).
  repeat apply conj;
    try (apply name_unknown_code_unhandled; [reflexivity | simpl; unfold UNKNOWN; lia]).
  - rewrite name_unknown_code_handled by (try apply H99; reflexivity).
    now rewrite name_UNKNOWN_label.
  - rewrite name_unknown_code_handled by (try apply H99; reflexivity).
    now rewrite name_UNKNOWN_label.
Qed.

(** ** The generic decoder *)

Section DecoderSteps.

Context {pyfloat : PyFloat}.

Variable cls : string -> option class_attr.

Lemma for_each_invariant {A St : Type} (P : St -> Prop) (body : St -> A -> res St)
    (items : list A) :
  (forall s x s', P s -> body s x = Ok s' -> P s') ->
  forall st st', P st -> for_each body items st = Ok st' -> P st'.
Proof.
  intros Hbody. induction items as [| x rest IH]; simpl; intros st st' HP H.
  - now injection H as <-.
  - destruct (body st x) as [s1 | ex] eqn:Hb; simpl in H; [| discriminate].
    eapply IH; [| exact H]. eauto.
Qed.

Lemma infer_attrfunc_result_kind (attr v : value) (e : element) :
  infer_attrfunc attr e = Ok v -> kind v = kind attr.
Proof.
  destruct attr; simpl; unfold res_map, res_bind;
    repeat match goal with
    | |- context [match ?r with Ok _ => _ | Raise _ => _ end] => destruct r
    end; intros H; try discriminate; now injection H as <-.
Qed.

(** One step of the loop, spelled out. *)
Lemma setattr_from_child_eq (obj : gmap string value) (e : element) :
  setattr_from_child cls ∅ obj e =
    match find_attr cls obj (tag e) with
    | Some a => v <~ attr_attrfunc a e ;; setattr a obj (tag e) v
    | None => Ok obj
    end.
Proof. unfold setattr_from_child. now rewrite lookup_empty. Qed.

Lemma find_attr_instance (obj : gmap string value) (k : string) (v : value) :
  obj !! k = Some v -> find_attr cls obj k = Some (InstanceAttr v).
Proof. unfold find_attr. now intros ->. Qed.

(** One step on a child whose tag names an attribute of the instance. *)
Lemma setattr_from_child_instance (obj : gmap string value) (e : element) (attr : value) :
  obj !! tag e = Some attr ->
  setattr_from_child cls ∅ obj e =
    res_map (fun v => <[tag e := v]> obj) (infer_attrfunc attr e).
Proof.
  intros H. now rewrite setattr_from_child_eq, (find_attr_instance _ _ _ H).
Qed.

(** One step leaves the attributes under the other names as they are. *)
Lemma setattr_from_child_frame (obj obj' : gmap string value) (e : element) :
  setattr_from_child cls ∅ obj e = Ok obj' ->
  forall k, tag e <> k -> obj' !! k = obj !! k.
Proof.
  rewrite setattr_from_child_eq.
  destruct (find_attr cls obj (tag e)) as [a |]; [| now intros [= <-]].
  destruct (attr_attrfunc a e) as [v |]; [| discriminate]. cbn [res_bind].
  unfold setattr.
  destruct a as [v0 | [v0 | | raised]]; intros H k Hne; try discriminate;
    injection H as <-; now rewrite lookup_insert_ne.
Qed.

(** Without custom functions, the decoder keeps every attribute and the
    class of its value. *)
Lemma setattr_from_child_kind (obj obj' : gmap string value) (e : element) :
  setattr_from_child cls ∅ obj e = Ok obj' ->
  forall k v, obj !! k = Some v -> exists v', obj' !! k = Some v' /\ kind v' = kind v.
Proof.
  intros H k v Hk. destruct (decide (tag e = k)) as [<- | Hne].
  - rewrite (setattr_from_child_instance _ _ _ Hk) in H.
    unfold res_map, res_bind in H.
    destruct (infer_attrfunc v e) as [x |] eqn:Hx; [| discriminate].
    injection H as <-. rewrite lookup_insert_eq. exists x. split; [reflexivity |].
    exact (infer_attrfunc_result_kind _ _ _ Hx).
  - rewrite (setattr_from_child_frame _ _ _ H k Hne). eauto.
Qed.

Lemma setattrs_from_xml_kind (obj obj' : gmap string value) (xml : element) :
  setattrs_from_xml cls obj xml ∅ = Ok obj' ->
  forall k v, obj !! k = Some v -> exists v', obj' !! k = Some v' /\ kind v' = kind v.
Proof.
  intros H k v Hk. unfold setattrs_from_xml in H.
  apply (for_each_invariant (fun o => exists v', o !! k = Some v' /\ kind v' = kind v)
           _ _) with (st := obj) (st' := obj') in H; eauto.
  intros s x s' (v1 & Hv1 & Hk1) Hs.
  destruct (setattr_from_child_kind _ _ _ Hs k v1 Hv1) as (v2 & Hv2 & Hk2).
  exists v2. split; [exact Hv2 | congruence].
Qed.

(** One child whose tag names an attribute that holds [None], or an element
    stored earlier: the attribute becomes the child itself. *)
Lemma setattr_from_child_unset (obj : gmap string value) (e : element) (v : value) :
  obj !! tag e = Some v -> kind v = 0%nat ->
  setattr_from_child cls ∅ obj e = Ok (<[tag e := VElem e]> obj).
Proof.
  intros Hv Hk. rewrite (setattr_from_child_instance _ _ _ Hv).
  destruct v; try discriminate; reflexivity.
Qed.

Lemma for_each_unset (k : string) (items : list element) :
  forall (obj obj' : gmap string value) (v : value),
  obj !! k = Some v -> kind v = 0%nat ->
  for_each (setattr_from_child cls ∅) items obj = Ok obj' ->
  obj' !! k =
    Some (match last (List.filter (fun c => String.eqb (tag c) k) items) with
          | Some e => VElem e
          | None => v
          end).
Proof.
  induction items as [| x rest IH]; simpl; intros obj obj' v Hv Hk H.
  - injection H as <-. exact Hv.
  - destruct (setattr_from_child cls ∅ obj x) as [o1 | ex] eqn:Hx; simpl in H;
      [| discriminate].
    destruct (String.eqb_spec (tag x) k) as [Heq | Hne].
    + subst k. rewrite (setattr_from_child_unset obj x v Hv Hk) in Hx.
      injection Hx as <-.
      rewrite (IH _ _ (VElem x) (lookup_insert_eq _ _ _) eq_refl H).
      rewrite last_cons. now destruct (last (List.filter _ rest)).
    + assert (Ho1 : o1 !! k = Some v)
        by (rewrite (setattr_from_child_frame _ _ _ Hx k Hne); exact Hv).
      exact (IH _ _ v Ho1 Hk H).
Qed.

End DecoderSteps.

Section DecoderProperties.

Context {pyfloat : PyFloat}.

(** The fields of [Result] that the shim reads are floats after the parse
    of the fields. *)
Lemma Result_parse_fields_kind (xml : element) (r0 : gmap string value) :
  Result_parse_fields xml = Ok r0 ->
  forall k v, Result_init !! k = Some v -> exists v', r0 !! k = Some v' /\ kind v' = kind v.
Proof.
  unfold Result_parse_fields. intros H k v Hk.
  destruct (setattrs_from_xml (class_attrs Result_class) Result_init xml ∅) as [r1 | ex] eqn:H1; simpl in H;
    [| discriminate].
  destruct (setattrs_from_xml_kind _ _ _ _ H1 k v Hk) as (v1 & Hv1 & Hk1).
  assert (Hact : forall b, exists v2,
            <["active_task" := VBool b]> r1 !! k = Some v2 /\ kind v2 = kind v).
  { intros b. destruct (decide ("active_task" = k)) as [<- | Hne].
    - rewrite lookup_insert_eq. exists (VBool b). split; [reflexivity |].
      vm_compute in Hk. now injection Hk as <-.
    - rewrite lookup_insert_ne by exact Hne. eauto. }
  destruct (find "active_task" xml) as [active_task |].
  - destruct (Hact true) as (v2 & Hv2 & Hk2).
    destruct (setattrs_from_xml_kind _ _ _ _ H k v2 Hv2) as (v3 & Hv3 & Hk3).
    exists v3. split; [exact Hv3 | congruence].
  - injection H as <-. apply Hact.
Qed.

Lemma Result_init_times :
  Result_init !! "current_cpu_time" = Some (VFloat 0) /\
  Result_init !! "elapsed_time" = Some (VFloat 0) /\
  Result_init !! "final_cpu_time" = Some (VFloat 0) /\
  Result_init !! "final_elapsed_time" = Some (VFloat 0).
Proof. vm_compute. repeat split. Qed.

Lemma float_field (r : gmap string value) (k : string) :
  (exists v', r !! k = Some v' /\ kind v' = 3%nat) -> exists f, r !! k = Some (VFloat f).
Proof. intros (v' & Hv & Hk). destruct v'; try discriminate. eauto. Qed.

(** The two assignments of [Result.parse] on an object whose four time
    fields are floats. *)
Lemma Result_old_client_floats (r0 : gmap string value) (cpu el fcpu fel : float) :
  r0 !! "current_cpu_time" = Some (VFloat cpu) ->
  r0 !! "elapsed_time" = Some (VFloat el) ->
  r0 !! "final_cpu_time" = Some (VFloat fcpu) ->
  r0 !! "final_elapsed_time" = Some (VFloat fel) ->
  Result_old_client r0 =
    Ok (let r1 := if negb (PrimFloat.eqb cpu 0) && PrimFloat.eqb el 0
                  then <["elapsed_time" := VFloat cpu]> r0 else r0 in
        if negb (PrimFloat.eqb fcpu 0) && PrimFloat.eqb fel 0
        then <["final_elapsed_time" := VFloat fcpu]> r1 else r1).
Proof.
  intros Hcpu Hel Hfcpu Hfel.
  assert (Hfcpu' : forall v, <["elapsed_time" := v]> r0 !! "final_cpu_time"
                             = Some (VFloat fcpu))
    by (intros v; now rewrite lookup_insert_ne).
  assert (Hfel' : forall v, <["elapsed_time" := v]> r0 !! "final_elapsed_time"
                            = Some (VFloat fel))
    by (intros v; now rewrite lookup_insert_ne).
  unfold Result_old_client, getattr, res_bind.
  rewrite Hcpu. unfold eq_zero.
  destruct (PrimFloat.eqb cpu 0); cbv [negb andb].
  - rewrite Hfcpu.
    destruct (PrimFloat.eqb fcpu 0); cbv [negb andb]; [reflexivity |].
    rewrite Hfel.
    destruct (PrimFloat.eqb fel 0); reflexivity.
  - rewrite Hel.
    destruct (PrimFloat.eqb el 0).
    + rewrite Hfcpu'.
      destruct (PrimFloat.eqb fcpu 0); cbv [negb andb]; [reflexivity |].
      rewrite Hfel'.
      destruct (PrimFloat.eqb fel 0); reflexivity.
    + rewrite Hfcpu.
      destruct (PrimFloat.eqb fcpu 0); cbv [negb andb]; [reflexivity |].
      rewrite Hfel.
      destruct (PrimFloat.eqb fel 0); reflexivity.
Qed.

(** [Result.parse] returns whenever the parse of the fields does, and the
    two assignments leave the other fields as they are. *)
Lemma Result_parse_run (xml : element) (r0 : gmap string value) :
  Result_parse_fields xml = Ok r0 ->
  exists r,
    Result_parse xml = Ok r /\
    (forall k, k <> "elapsed_time" -> k <> "final_elapsed_time" -> r !! k = r0 !! k).
Proof.
  intros H0.
  pose proof (Result_parse_fields_kind xml r0 H0) as Hkind.
  destruct Result_init_times as (I1 & I2 & I3 & I4).
  destruct (float_field r0 _ (Hkind _ _ I1)) as [cpu Hcpu].
  destruct (float_field r0 _ (Hkind _ _ I2)) as [el Hel].
  destruct (float_field r0 _ (Hkind _ _ I3)) as [fcpu Hfcpu].
  destruct (float_field r0 _ (Hkind _ _ I4)) as [fel Hfel].
  eexists. split.
  { unfold Result_parse. rewrite H0. cbn [res_bind].
    apply (Result_old_client_floats r0 cpu el fcpu fel); assumption. }
  cbv zeta. intros k Hk1 Hk2.
  destruct (negb (PrimFloat.eqb cpu 0) && PrimFloat.eqb el 0);
    destruct (negb (PrimFloat.eqb fcpu 0) && PrimFloat.eqb fel 0);
    repeat rewrite lookup_insert_ne by congruence; reflexivity.
Qed.

(** A field of [Result] that the constructor sets to [None] holds, after
    [Result.parse], the last element handed to the decoder under its tag. *)
Lemma Result_parse_unset_default (xml : element) (r : gmap string value) (k : string)
    (e : element) :
  Result_init !! k = Some VNone ->
  Result_parse xml = Ok r ->
  last (Result_children_tagged k xml) = Some e ->
  r !! k = Some (VElem e).
Proof.
  intros Hk Hr He.
  assert (Hne : k <> "elapsed_time" /\ k <> "final_elapsed_time" /\ k <> "active_task").
  { repeat split; intros ->; vm_compute in Hk; discriminate. }
  destruct Hne as (Hne1 & Hne2 & Hne3).
  unfold Result_parse in Hr.
  destruct (Result_parse_fields xml) as [r0 | ex] eqn:H0; [| discriminate].
  destruct (Result_parse_run xml r0 H0) as (r' & Hr' & Hkeep).
  unfold Result_parse in Hr'. rewrite H0 in Hr'. cbn [res_bind] in Hr, Hr'.
  rewrite Hr in Hr'. injection Hr' as <-.
  rewrite (Hkeep k Hne1 Hne2). clear Hkeep Hr.
  unfold Result_parse_fields in H0.
  destruct (setattrs_from_xml (class_attrs Result_class) Result_init xml ∅) as [r1 | ex] eqn:H1; [| discriminate].
  cbn [res_bind] in H0.
  pose proof (for_each_unset _ k (children xml) Result_init r1 VNone Hk eq_refl H1) as Hr1.
  fold (children_tagged k xml) in Hr1.
  unfold Result_children_tagged in He.
  destruct (find "active_task" xml) as [active_task |].
  - assert (Hins : <["active_task" := VBool true]> r1 !! k
                   = Some (match last (children_tagged k xml) with
                           | Some x => VElem x
                           | None => VNone
                           end))
      by (rewrite lookup_insert_ne by congruence; exact Hr1).
    assert (Hkind0 : kind (match last (children_tagged k xml) with
                           | Some x => VElem x
                           | None => VNone
                           end) = 0%nat)
      by now destruct (last (children_tagged k xml)).
    pose proof (for_each_unset _ k (children active_task) _ r0 _ Hins Hkind0 H0) as Hr0.
    fold (children_tagged k active_task) in Hr0.
    rewrite Hr0. rewrite last_app in He.
    destruct (last (children_tagged k active_task)); [congruence |].
    now rewrite He.
  - injection H0 as <-. rewrite lookup_insert_ne by congruence.
    rewrite app_nil_r in He. now rewrite Hr1, He.
Qed.

(** C10.  Let an attribute [k] of the object hold [None].  When the decoder
    succeeds on [xml], the attribute holds the last child of [xml] tagged
    [k], as the element itself, whatever the text of that child; it still
    holds [None] when no child is tagged [k].  In particular
    [Project.parse] and [Result.parse] store in this way the elements tagged
    with a field that the constructor sets to [None] (symstore, venue,
    platform and the like). *)
Theorem setattrs_from_xml_unset_default (cls : string -> option class_attr)
    (obj obj' : gmap string value) (xml : element) (k : string) :
  obj !! k = Some VNone ->
  setattrs_from_xml cls obj xml ∅ = Ok obj' ->
  (forall e, last (children_tagged k xml) = Some e -> obj' !! k = Some (VElem e)) /\
  (last (children_tagged k xml) = None -> obj' !! k = Some VNone) /\
  (obj = Project_init -> forall p e,
     Project_parse xml = Ok p -> last (children_tagged k xml) = Some e ->
     p !! k = Some (VElem e)) /\
  (obj = Result_init -> forall r e,
     Result_parse xml = Ok r -> last (Result_children_tagged k xml) = Some e ->
     r !! k = Some (VElem e)).
Proof.
  intros Hk H. unfold setattrs_from_xml in H.
  pose proof (for_each_unset cls k (children xml) obj obj' VNone Hk eq_refl H) as Hlast.
  unfold children_tagged. repeat apply conj.
  - intros e He. now rewrite He in Hlast.
  - intros He. now rewrite He in Hlast.
  - intros -> p e Hp He. unfold Project_parse, setattrs_from_xml in Hp.
    pose proof (for_each_unset _ k (children xml) Project_init p VNone Hk eq_refl Hp)
      as Hp'.
    now rewrite He in Hp'.
  - intros -> r e Hr He. exact (Result_parse_unset_default xml r k e Hk Hr He).
Qed.

(** C3.  When the parse of the fields of a [Result] succeeds with [r0],
    [Result.parse] returns [r0] with two fields adjusted: [elapsed_time] is
    [current_cpu_time] when [current_cpu_time] is nonzero and
    [elapsed_time] is zero, and [final_elapsed_time] is [final_cpu_time]
    when [final_cpu_time] is nonzero and [final_elapsed_time] is zero; each
    adjustment looks at its own pair only, and no other field changes. *)
Theorem Result_parse_old_client_shim (xml : element) (r0 : gmap string value) :
  Result_parse_fields xml = Ok r0 ->
  exists (cpu elapsed fcpu felapsed : float) (r : gmap string value),
    r0 !! "current_cpu_time" = Some (VFloat cpu) /\
    r0 !! "elapsed_time" = Some (VFloat elapsed) /\
    r0 !! "final_cpu_time" = Some (VFloat fcpu) /\
    r0 !! "final_elapsed_time" = Some (VFloat felapsed) /\
    Result_parse xml = Ok r /\
    r !! "elapsed_time" =
      Some (VFloat (if negb (PrimFloat.eqb cpu 0) && PrimFloat.eqb elapsed 0
                    then cpu else elapsed)) /\
    r !! "final_elapsed_time" =
      Some (VFloat (if negb (PrimFloat.eqb fcpu 0) && PrimFloat.eqb felapsed 0
                    then fcpu else felapsed)) /\
    (forall k, k <> "elapsed_time" -> k <> "final_elapsed_time" -> r !! k = r0 !! k).
Proof.
  intros H0.
  pose proof (Result_parse_fields_kind xml r0 H0) as Hkind.
  destruct Result_init_times as (I1 & I2 & I3 & I4).
  destruct (float_field r0 _ (Hkind _ _ I1)) as [cpu Hcpu].
  destruct (float_field r0 _ (Hkind _ _ I2)) as [el Hel].
  destruct (float_field r0 _ (Hkind _ _ I3)) as [fcpu Hfcpu].
  destruct (float_field r0 _ (Hkind _ _ I4)) as [fel Hfel].
  clear I1 I2 I3 I4.
  exists cpu, el, fcpu, fel. eexists.
  split; [exact Hcpu |]. split; [exact Hel |]. split; [exact Hfcpu |].
  split; [exact Hfel |].
  split.
  { unfold Result_parse. rewrite H0. cbn [res_bind].
    apply (Result_old_client_floats r0 cpu el fcpu fel); assumption. }
  cbv zeta.
  destruct (negb (PrimFloat.eqb cpu 0) && PrimFloat.eqb el 0);
    destruct (negb (PrimFloat.eqb fcpu 0) && PrimFloat.eqb fel 0);
    repeat apply conj;
    try (intros k Hk1 Hk2);
    repeat first [ rewrite lookup_insert_eq | rewrite lookup_insert_ne by congruence ];
    auto.
Qed.

End DecoderProperties.

(** ** The session *)

(** The test suite of RFC 1321, and a message of more than one block. *)
Example md5_test_suite :
  MD5.hexdigest (Str.encode_utf8 "") = "d41d8cd98f00b204e9800998ecf8427e" /\
  MD5.hexdigest (Str.encode_utf8 "a") = "0cc175b9c0f1b6a831c399e269772661" /\
  MD5.hexdigest (Str.encode_utf8 "abc") = "900150983cd24fb0d6963f7d28e17f72" /\
  MD5.hexdigest (Str.encode_utf8 "message digest") = "f96b697d7cb7938d525a2f31aaf161d0" /\
  MD5.hexdigest (Str.encode_utf8 "abcdefghijklmnopqrstuvwxyz")
    = "c3fcd3d76192e4007dfb496cca67e13b" /\
  MD5.hexdigest (Str.encode_utf8
    "12345678901234567890123456789012345678901234567890123456789012345678901234567890")
    = "57edf4a22be3c955ac49da2e2107b67a".
Proof. repeat split; vm_compute; reflexivity. Qed.

(** The digest is made of sixteen bytes, and its hexadecimal form of the
    characters 0..9 and a..f, which [lower] leaves as they are. *)
Lemma le_bytes_range (n : nat) (x : Z) :
  Forall (fun b => 0 <= b < 256) (MD5.le_bytes n x).
Proof.
  revert x. induction n as [| n IH]; intros x; simpl; constructor.
  - apply Z.mod_pos_bound. lia.
  - apply IH.
Qed.

Lemma digest_range (msg : list Z) : Forall (fun b => 0 <= b < 256) (MD5.digest msg).
Proof.
  unfold MD5.digest. destruct (fold_left _ _ _) as [a b c d].
  rewrite !Forall_app. repeat split; apply le_bytes_range.
Qed.

Lemma hex_digit_lower (x : Z) :
  0 <= x < 16 -> Str.lower_char (MD5.hex_digit x) = MD5.hex_digit x.
Proof.
  intros Hx.
  assert (H : x = 0 \/ x = 1 \/ x = 2 \/ x = 3 \/ x = 4 \/ x = 5 \/ x = 6 \/ x = 7 \/
              x = 8 \/ x = 9 \/ x = 10 \/ x = 11 \/ x = 12 \/ x = 13 \/ x = 14 \/ x = 15)
    by lia.
  repeat (destruct H as [-> | H]; [reflexivity |]). now subst.
Qed.

Lemma hex_lower (bs : list Z) :
  Forall (fun b => 0 <= b < 256) bs -> Str.lower (MD5.hex bs) = MD5.hex bs.
Proof.
  induction 1 as [| b bs Hb _ IH]; simpl; [reflexivity |].
  rewrite IH, !hex_digit_lower; [reflexivity | |].
  - apply Z.mod_pos_bound. lia.
  - split; [apply Z.div_pos; lia | apply Z.div_lt_upper_bound; lia].
Qed.

Lemma nonce_hash_md5 (nonce password : string) :
  nonce_hash (Some nonce) (Some password) =
    MD5.hexdigest (Str.encode_utf8 (nonce ++ password)).
Proof. unfold nonce_hash, MD5.hexdigest. simpl format_s. apply hex_lower, digest_range. Qed.

(** ** Reading in text mode *)

Lemma endswith_drop_last (a : ascii) (s : string) :
  Str.endswith_char a s = true -> s = Str.drop_last s ++ String a "".
Proof.
  induction s as [| c s IH]; [discriminate |].
  destruct s as [| c' s'].
  - simpl. intros H. apply Ascii.eqb_eq in H. now subst.
  - intros H. change (String c (String c' s')
                      = String c (Str.drop_last (String c' s') ++ String a "")).
    f_equal. now apply IH.
Qed.

(** The text read holds no carriage return. *)
Lemma universal_newlines_no_cr (s : string) :
  has_char "013" (Str.universal_newlines s) = false.
Proof.
  assert (H : has_char "013" (Str.universal_newlines s) = false /\
              forall c, has_char "013" (Str.universal_newlines (String c s)) = false).
  { induction s as [| a s [IH1 IH2]].
    - split; [reflexivity |]. intros c. cbn [Str.universal_newlines].
      destruct (Ascii.eqb c "013") eqn:Hc; cbn [has_char]; [reflexivity |].
      now rewrite Hc.
    - split; [apply IH2 |]. intros c.
      change (Str.universal_newlines (String c (String a s)))
        with (if Ascii.eqb c "013"
              then String "010" (if Ascii.eqb a "010" then Str.universal_newlines s
                                 else Str.universal_newlines (String a s))
              else String c (Str.universal_newlines (String a s))).
      destruct (Ascii.eqb c "013") eqn:Hc; cbn [has_char].
      + destruct (Ascii.eqb a "010"); [exact IH1 | apply IH2].
      + rewrite Hc. apply IH2. }
  exact (proj1 H).
Qed.



Section ClientProperties.

Context {pyfloat : PyFloat} {T : Type} {transport : Rpc T}.

Implicit Types (w : world T) (t : T).

Lemma world_eta w : mkWorld (self w) (passwd_file w) (trace w) = w.
Proof. now destruct w. Qed.

Lemma called_nil w : called w [] (rpc (self w)) = w.
Proof. unfold called. rewrite app_nil_r. now destruct w as [[] ? ?]. Qed.

Lemma called_called w (evs1 evs2 : list event) t1 t2 :
  called (called w evs1 t1) evs2 t2 = called w (evs1 ++ evs2) t2.
Proof. unfold called. simpl. now rewrite app_assoc. Qed.

Lemma self_rpc_call_eq w (request : string) :
  self_rpc_call request w =
    (fst (rpc_call (rpc (self w)) request),
     called w [EvCall request] (snd (rpc_call (rpc (self w)) request))).
Proof.
  unfold self_rpc_call, bind, log, called. simpl.
  now destruct (rpc_call (rpc (self w)) request).
Qed.

Lemma self_rpc_call_run w (request : string) (r : res element) t :
  rpc_call (rpc (self w)) request = (r, t) ->
  self_rpc_call request w = (r, called w [EvCall request] t).
Proof. intros H. now rewrite self_rpc_call_eq, H. Qed.

Lemma self_rpc_connect_run w (host : string) (p : Z) (r : res unit) t :
  rpc_connect (rpc (self w)) host p = (r, t) ->
  self_rpc_connect host p w = (r, called w [EvConnect host p] t).
Proof.
  intros H. unfold self_rpc_connect, bind, log, called. simpl. now rewrite H.
Qed.

Lemma handshake_eq (pw : option string) w0 :
  bind (self_rpc_call "<auth1/>")
    (fun auth1 =>
       bind (self_rpc_call
               ("<auth2><nonce_hash>" ++ nonce_hash (text auth1) pw ++ "</nonce_hash></auth2>"))
         (fun reply => if String.eqb (tag reply) "authorized" then ret true else ret false))
    w0
  = handshake pw w0.
Proof.
  unfold handshake, bind at 1.
  destruct (self_rpc_call "<auth1/>" w0) as [[auth1 | e] w1]; [| reflexivity].
  unfold bind at 1, auth2_request.
  destruct (self_rpc_call _ w1) as [[reply | e] w2]; [| reflexivity].
  unfold ret. now destruct (String.eqb (tag reply) "authorized").
Qed.

(** [authorize] resolves the password, reading the file when it has to,
    and then runs the two calls; an exception raised while the file is read
    leaves the method before any call. *)
Lemma authorize_unfold w (password : option string) :
  authorize password w =
    match resolved_password (hostname (self w)) password (passwd_file w) with
    | Ok pw =>
        handshake pw
          (called w (if consults_file (hostname (self w)) password
                     then [EvOpen GUI_RPC_PASSWD_FILE] else []) (rpc (self w)))
    | Raise e =>
        (Raise e,
         called w (if consults_file (hostname (self w)) password
                   then [EvOpen GUI_RPC_PASSWD_FILE] else []) (rpc (self w)))
    end.
Proof.
  assert (Hw : forall evs, called w evs (rpc (self w))
                           = mkWorld (self w) (passwd_file w) (trace w ++ evs)).
  { intros evs. unfold called. now destruct w as [[] ? ?]. }
  unfold authorize, bind at 1, get. unfold consults_file, resolved_password.
  destruct password as [p |].
  - unfold bind at 1, ret. rewrite handshake_eq, Hw, app_nil_r. now rewrite world_eta.
  - destruct (hostname (self w)) as [| c host]; simpl Str.truthy; cbv [negb].
    + rewrite Hw.
      unfold bind at 1, bind at 1, read_gui_rpc_password, bind at 1, log, ret.
      simpl self. simpl passwd_file. simpl trace.
      destruct (passwd_file w) as [| | stored] eqn:Hfile.
      * now rewrite handshake_eq.
      * reflexivity.
      * unfold password_text. cbv zeta.
        destruct (Str.endswith_char "010" (Str.universal_newlines stored));
          rewrite handshake_eq.
        -- now destruct (Str.drop_last (Str.universal_newlines stored)).
        -- now destruct (Str.universal_newlines stored).
    + unfold bind at 1, ret. rewrite handshake_eq, Hw, app_nil_r. now rewrite world_eta.
Qed.

(** [authorize] when the password is resolved and both calls are
    answered. *)
Lemma authorize_run w (password pw : option string) (auth1 reply : element) t1 t2 :
  let opened := if consults_file (hostname (self w)) password
                then [EvOpen GUI_RPC_PASSWD_FILE] else [] in
  resolved_password (hostname (self w)) password (passwd_file w) = Ok pw ->
  rpc_call (rpc (self w)) "<auth1/>" = (Ok auth1, t1) ->
  rpc_call t1 (auth2_request (nonce_hash (text auth1) pw)) = (Ok reply, t2) ->
  authorize password w =
    (Ok (String.eqb (tag reply) "authorized"),
     called w (opened ++ [EvCall "<auth1/>";
                          EvCall (auth2_request (nonce_hash (text auth1) pw))]) t2).
Proof.
  intros opened Hpw H1 H2. rewrite authorize_unfold, Hpw. fold opened.
  unfold handshake.
  rewrite (self_rpc_call_run _ _ (Ok auth1) t1) by exact H1.
  rewrite (self_rpc_call_run _ _ (Ok reply) t2) by exact H2.
  now rewrite !called_called.
Qed.

(** Whatever the answers, [authorize] adds to the trace the opening of the
    password file when the test of the method selects it, and then calls
    only. *)
Lemma authorize_trace w (password : option string) :
  exists calls,
    trace (snd (authorize password w)) =
      (trace w ++ (if consults_file (hostname (self w)) password
                   then [EvOpen GUI_RPC_PASSWD_FILE] else []) ++ calls)%list /\
    Forall is_call calls.
Proof.
  rewrite authorize_unfold.
  destruct (resolved_password _ _ _) as [pw | e].
  - unfold handshake. rewrite self_rpc_call_eq.
    destruct (fst (rpc_call _ "<auth1/>")) as [auth1 | e].
    + rewrite self_rpc_call_eq, called_called.
      exists [EvCall "<auth1/>"; EvCall (auth2_request (nonce_hash (text auth1) pw))].
      split; [| repeat constructor].
      destruct (fst (rpc_call _ (auth2_request _))); simpl; now rewrite <- !app_assoc.
    + exists [EvCall "<auth1/>"]. split; [| repeat constructor].
      simpl. now rewrite <- !app_assoc.
  - exists []. split; [| constructor]. simpl. now rewrite app_nil_r.
Qed.

(** C4.  With an explicit password [pw] and a first reply whose text is
    [nonce], the request of the second call carries the hexadecimal MD5 of
    the bytes of [nonce ++ pw], in lowercase, and [authorize] returns true
    exactly when the tag of the second reply is "authorized"; for the nonce
    "abc" and the password "pw" the digest is that of "abcpw". *)
Theorem authorize_digest w (nonce pw : string) (auth1 reply : element) t1 t2 :
  let digest := MD5.hexdigest (Str.encode_utf8 (nonce ++ pw)) in
  rpc_call (rpc (self w)) "<auth1/>" = (Ok auth1, t1) ->
  text auth1 = Some nonce ->
  rpc_call t1 (auth2_request digest) = (Ok reply, t2) ->
  (exists b : bool,
     authorize (Some pw) w =
       (Ok b, called w [EvCall "<auth1/>"; EvCall (auth2_request digest)] t2) /\
     (b = true <-> tag reply = "authorized")) /\
  Str.lower digest = digest /\
  MD5.hexdigest (Str.encode_utf8 ("abc" ++ "pw")) = "71605ab39e19fe87034aee29cf2957e4".
Proof.
  intros digest H1 Hnonce H2. repeat apply conj.
  - exists (String.eqb (tag reply) "authorized"). split; [| apply String.eqb_eq].
    pose proof (authorize_run w (Some pw) (Some pw) auth1 reply t1 t2) as Hrun.
    cbv zeta in Hrun. unfold consults_file in Hrun.
    rewrite Hnonce, nonce_hash_md5 in Hrun. fold digest in Hrun.
    now apply Hrun.
  - apply hex_lower, digest_range.
  - vm_compute. reflexivity.
Qed.


(** *** connect *)

Lemma exchange_versions_run w (reply : element) t (v : gmap string value) :
  rpc_call (rpc (self w)) "<exchange_versions/>" = (Ok reply, t) ->
  VersionInfo_parse reply = Ok v ->
  exchange_versions w = (Ok v, called w [EvCall "<exchange_versions/>"] t).
Proof.
  intros H Hv. unfold exchange_versions, bind, lift.
  now rewrite (self_rpc_call_run _ _ _ _ H), Hv.
Qed.

Lemma connect_unfold w :
  connect w =
    match self_rpc_connect (hostname (self w)) (port (self w)) w with
    | (Ok _, w1) =>
        match authorize (passwd (self w1)) (with_connected true w1) with
        | (Ok a, w2) =>
            match exchange_versions
                    (mkWorld (set_authorized a (self w2)) (passwd_file w2) (trace w2)) with
            | (Ok v, w3) =>
                (Ok tt, mkWorld (set_version v (self w3)) (passwd_file w3) (trace w3))
            | (Raise e, w3) => (Raise e, w3)
            end
        | (Raise e, w2) => (Raise e, w2)
        end
    | (Raise SocketError, w1) => (Ok tt, with_connected false w1)
    | (Raise e, w1) => (Raise e, w1)
    end.
Proof.
  unfold connect, bind at 1, get. unfold bind at 1, get.
  unfold bind at 1, try_except_socket_error, bind at 1.
  destruct (self_rpc_connect _ _ w) as [[[] | e] w1].
  - unfold bind at 1, update, ret. unfold bind at 1, get. simpl self.
    unfold bind at 1. fold (with_connected true w1).
    destruct (authorize _ (with_connected true w1)) as [[a | e] w2]; [| reflexivity].
    unfold bind at 1, update. unfold bind at 1.
    destruct (exchange_versions _) as [[v | e] w3]; reflexivity.
  - destruct e; try reflexivity.
Qed.

(** A failure of the transport's [connect] is caught: [connect] returns,
    [connected] is false and nothing else is attempted. *)
Lemma connect_refused w t :
  rpc_connect (rpc (self w)) (hostname (self w)) (port (self w)) = (Raise SocketError, t) ->
  connect w =
    (Ok tt, with_connected false
              (called w [EvConnect (hostname (self w)) (port (self w))] t)).
Proof.
  intros H. rewrite connect_unfold. now rewrite (self_rpc_connect_run _ _ _ _ _ H).
Qed.

(** C5, amended.  A failure of the transport's [connect] does not escape
    [connect()]: the method returns with [connected] false, without any
    call.  When the transport connects, [connected] is true and the
    handshake and the exchange of versions follow in this order; when their
    calls are answered and the version decodes, [authorized] tells whether
    the handshake succeeded and [version] holds the decoded version.  The
    password [pw] is the one that [authorize] resolves; when resolving it
    raises, for a password file that is no text, the exception leaves
    [connect()] after the transport has connected and before any call. *)
Theorem connect_spec w :
  let host := hostname (self w) in
  let p := port (self w) in
  let opened := if consults_file host (passwd (self w))
                then [EvOpen GUI_RPC_PASSWD_FILE] else [] in
  (forall t,
     rpc_connect (rpc (self w)) host p = (Raise SocketError, t) ->
     exists w',
       connect w = (Ok tt, w') /\
       connected (self w') = false /\
       authorized (self w') = authorized (self w) /\
       version (self w') = version (self w) /\
       trace w' = (trace w ++ [EvConnect host p])%list) /\
  (forall (pw : option string) t0 (auth1 reply versions : element) t1 t2 t3
          (v : gmap string value),
     resolved_password host (passwd (self w)) (passwd_file w) = Ok pw ->
     rpc_connect (rpc (self w)) host p = (Ok tt, t0) ->
     rpc_call t0 "<auth1/>" = (Ok auth1, t1) ->
     rpc_call t1 (auth2_request (nonce_hash (text auth1) pw)) = (Ok reply, t2) ->
     rpc_call t2 "<exchange_versions/>" = (Ok versions, t3) ->
     VersionInfo_parse versions = Ok v ->
     exists w',
       connect w = (Ok tt, w') /\
       connected (self w') = true /\
       authorized (self w') = String.eqb (tag reply) "authorized" /\
       version (self w') = Some v /\
       trace w' =
         (trace w ++ [EvConnect host p] ++ opened ++
          [EvCall "<auth1/>"; EvCall (auth2_request (nonce_hash (text auth1) pw));
           EvCall "<exchange_versions/>"])%list) /\
  (forall (e : exn) t0,
     resolved_password host (passwd (self w)) (passwd_file w) = Raise e ->
     rpc_connect (rpc (self w)) host p = (Ok tt, t0) ->
     exists w',
       connect w = (Raise e, w') /\
       connected (self w') = true /\
       trace w' = (trace w ++ [EvConnect host p] ++ opened)%list).
Proof.
  intros host p opened. split; [| split].
  - intros t H. eexists. split; [exact (connect_refused w t H) |].
    repeat split.
  - intros pw t0 auth1 reply versions t1 t2 t3 v Hpw Hc H1 H2 H3 Hv.
    rewrite connect_unfold. fold host. fold p.
    rewrite (self_rpc_connect_run _ _ _ _ _ Hc).
    set (w1 := with_connected true (called w [EvConnect host p] t0)).
    pose proof (authorize_run w1 (passwd (self w)) pw auth1 reply t1 t2) as Hrun.
    cbv zeta in Hrun. simpl in Hrun. fold host in Hrun.
    specialize (Hrun Hpw H1 H2).
    change (passwd (self (called w [EvConnect host p] t0))) with (passwd (self w)).
    rewrite Hrun.
    erewrite exchange_versions_run; [| exact H3 | exact Hv].
    eexists. split; [reflexivity |]. simpl.
    repeat split. now rewrite <- !app_assoc.
  - intros e t0 Hpw Hc.
    rewrite connect_unfold. fold host. fold p.
    rewrite (self_rpc_connect_run _ _ _ _ _ Hc).
    set (w1 := with_connected true (called w [EvConnect host p] t0)).
    change (passwd (self (called w [EvConnect host p] t0))) with (passwd (self w)).
    rewrite authorize_unfold.
    change (hostname (self w1)) with host.
    change (passwd_file w1) with (passwd_file w).
    rewrite Hpw. eexists. split; [reflexivity |]. simpl.
    split; [reflexivity |]. now rewrite <- !app_assoc.
Qed.

(** *** get_cc_status *)

Lemma self_rpc_connect_eq w (host : string) (p : Z) :
  self_rpc_connect host p w =
    (fst (rpc_connect (rpc (self w)) host p),
     called w [EvConnect host p] (snd (rpc_connect (rpc (self w)) host p))).
Proof.
  unfold self_rpc_connect, bind, log, called. simpl.
  now destruct (rpc_connect (rpc (self w)) host p).
Qed.

(** The first thing [connect] does is to connect the transport. *)
Lemma connect_trace w :
  exists evs,
    trace (snd (connect w)) =
      (trace w ++ EvConnect (hostname (self w)) (port (self w)) :: evs)%list.
Proof.
  rewrite connect_unfold, self_rpc_connect_eq.
  destruct (fst (rpc_connect _ _ _)) as [[] | e].
  - match goal with
    | |- context [authorize ?pw ?w1] =>
        destruct (authorize_trace w1 pw) as (calls & Ht & _);
        destruct (authorize pw w1) as [[a | e] w2]
    end; simpl in Ht.
    + unfold exchange_versions, bind, lift. rewrite self_rpc_call_eq.
      destruct (fst (rpc_call _ _)) as [reply | e]; [destruct (VersionInfo_parse reply) |];
        simpl; rewrite Ht; rewrite <- !app_assoc; simpl; eexists; reflexivity.
    + simpl. rewrite Ht. rewrite <- !app_assoc. simpl. eexists. reflexivity.
  - exists []. now destruct e.
Qed.

Lemma get_cc_status_unfold w :
  get_cc_status w =
    match (if connected (self w) then (Ok tt, w) else connect w) with
    | (Ok _, w1) =>
        match self_rpc_call "<get_cc_status/>" w1 with
        | (Ok reply, w2) =>
            match CcStatus_parse reply with
            | Ok status => (Ok (Some status), w2)
            | Raise SocketError => (Ok None, with_connected false w2)
            | Raise e => (Raise e, w2)
            end
        | (Raise SocketError, w2) => (Ok None, with_connected false w2)
        | (Raise e, w2) => (Raise e, w2)
        end
    | (Raise e, w1) => (Raise e, w1)
    end.
Proof.
  unfold get_cc_status, bind at 1, get. unfold bind at 1.
  assert (Hc : (if negb (connected (self w)) then connect else ret tt) w
               = (if connected (self w) then (Ok tt, w) else connect w))
    by now destruct (connected (self w)).
  rewrite Hc.
  destruct (if connected (self w) then (Ok tt, w) else connect w) as [[[] | e] w1];
    [| reflexivity].
  unfold try_except_socket_error, bind at 1.
  destruct (self_rpc_call "<get_cc_status/>" w1) as [[reply | e] w2].
  - unfold bind at 1, lift.
    destruct (CcStatus_parse reply) as [status | e]; [reflexivity |].
    now destruct e.
  - now destruct e.
Qed.

(** C7, amended.  Let [w1] be the world in which the status query is
    issued: the initial one when the client is connected, the one that
    [connect()] returns in otherwise; in that case the transport's [connect]
    is the first event.  When the transport fails on the query,
    [get_cc_status] returns [None] and leaves [connected] false; when the
    query is answered and the reply decodes, it returns the decoded
    status. *)
Theorem get_cc_status_spec w w1 :
  (if connected (self w) then w1 = w else connect w = (Ok tt, w1)) ->
  (connected (self w) = false ->
   exists evs,
     trace w1 = (trace w ++ EvConnect (hostname (self w)) (port (self w)) :: evs)%list) /\
  (forall t,
     rpc_call (rpc (self w1)) "<get_cc_status/>" = (Raise SocketError, t) ->
     exists w',
       get_cc_status w = (Ok None, w') /\
       connected (self w') = false /\
       trace w' = (trace w1 ++ [EvCall "<get_cc_status/>"])%list) /\
  (forall (reply : element) t (status : gmap string value),
     rpc_call (rpc (self w1)) "<get_cc_status/>" = (Ok reply, t) ->
     CcStatus_parse reply = Ok status ->
     exists w',
       get_cc_status w = (Ok (Some status), w') /\
       connected (self w') = connected (self w1) /\
       trace w' = (trace w1 ++ [EvCall "<get_cc_status/>"])%list).
Proof.
  intros Hw1.
  assert (Hfirst : (if connected (self w) then (Ok tt, w) else connect w) = (Ok tt, w1)).
  { destruct (connected (self w)); [now subst | exact Hw1]. }
  repeat apply conj.
  - intros Hc. rewrite Hc in Hw1.
    destruct (connect_trace w) as [evs Hevs]. rewrite Hw1 in Hevs. eauto.
  - intros t H. rewrite get_cc_status_unfold, Hfirst.
    rewrite (self_rpc_call_run _ _ _ _ H). eexists. repeat split.
  - intros reply t status H Hs. rewrite get_cc_status_unfold, Hfirst.
    rewrite (self_rpc_call_run _ _ _ _ H), Hs. eexists. repeat split.
Qed.

(** *** get_results and get_projects *)

Lemma parse_items_spec (parse : element -> res (gmap string value)) (items : list element) :
  forall acc rs,
    parse_items parse items acc = Ok rs <->
    exists rs', rs = (acc ++ rs')%list /\ Forall2 (fun c r => parse c = Ok r) items rs'.
Proof.
  induction items as [| item rest IH]; intros acc rs; simpl.
  - split.
    + intros [= <-]. exists []. split; [now rewrite app_nil_r | constructor].
    + intros (rs' & -> & H). inversion H. now rewrite app_nil_r.
  - destruct (parse item) as [r | e] eqn:Hr; simpl.
    + rewrite IH. split.
      * intros (rs' & -> & H). exists (r :: rs').
        split; [now rewrite <- app_assoc | now constructor].
      * intros (rs' & -> & H). inversion H as [| ? r' ? rs'' Hr' Hrest]; subst.
        rewrite Hr in Hr'. injection Hr' as <-.
        exists rs''. split; [now rewrite <- app_assoc | exact Hrest].
    + split; [discriminate |].
      intros (rs' & _ & H). inversion H as [| ? r' ? rs'' Hr' Hrest]; subst. congruence.
Qed.

(** C8.  On a reply whose tag is not "results", [get_results] returns the
    empty list; on a reply tagged "results" it returns one decoded [Result]
    per child, in the order of the children, and it returns exactly when
    every child decodes.  The same holds of [get_projects] with the tag
    "projects" and [Project]. *)
Theorem get_results_get_projects_spec w (active_only : bool) :
  (forall (reply : element) t,
     rpc_call (rpc (self w))
       ("<get_results><active_only>" ++ (if active_only then "1" else "0")
        ++ "</active_only></get_results>") = (Ok reply, t) ->
     (tag reply <> "results" -> fst (get_results active_only w) = Ok []) /\
     (tag reply = "results" ->
      forall rs,
        fst (get_results active_only w) = Ok rs <->
        Forall2 (fun c r => Result_parse c = Ok r) (children reply) rs)) /\
  (forall (reply : element) t,
     rpc_call (rpc (self w)) "<get_project_status/>" = (Ok reply, t) ->
     (tag reply <> "projects" -> fst (get_projects w) = Ok []) /\
     (tag reply = "projects" ->
      forall ps,
        fst (get_projects w) = Ok ps <->
        Forall2 (fun c r => Project_parse c = Ok r) (children reply) ps)).
Proof.
  split; intros reply t H.
  - unfold get_results, bind, lift, ret. rewrite (self_rpc_call_run _ _ _ _ H).
    destruct (String.eqb_spec (tag reply) "results") as [Ht | Ht]; simpl.
    + split; [congruence |]. intros _ rs. rewrite parse_items_spec. simpl.
      split; [now intros (rs' & -> & Hall) | intros Hall; eauto].
    + split; [reflexivity | congruence].
  - unfold get_projects, bind, lift, ret. rewrite (self_rpc_call_run _ _ _ _ H).
    destruct (String.eqb_spec (tag reply) "projects") as [Ht | Ht]; simpl.
    + split; [congruence |]. intros _ ps. rewrite orb_false_r.
      unfold element_truthy. destruct (children reply) as [| c cs] eqn:Hc; cbn [negb fst].
      * split; [intros [= <-]; constructor | intros Hall; now inversion Hall].
      * rewrite parse_items_spec. cbn [app].
        split; [now intros (rs' & -> & Hall) | intros Hall; eauto].
    + rewrite orb_true_r. split; [reflexivity | congruence].
Qed.

End ClientProperties.

(** ** The generic decoder: invariants and outcome *)

Section DecoderInvariants.

Context {pyfloat : PyFloat}.

Variable cls : string -> option class_attr.

Lemma infer_attrfunc_kind (v v' : value) :
  kind v = kind v' -> infer_attrfunc v = infer_attrfunc v'.
Proof. destruct v, v'; intros H; try discriminate; reflexivity. Qed.

Lemma attr_attrfunc_kind (a a' : attribute) :
  attr_kind a = attr_kind a' -> attr_attrfunc a = attr_attrfunc a'.
Proof.
  destruct a as [v | [v | | r]], a' as [v' | [v' | | r']];
    cbn [attr_kind attr_attrfunc]; intros H;
    try (now apply infer_attrfunc_kind); try reflexivity;
    first [ destruct v; try discriminate; reflexivity
          | destruct v'; try discriminate; reflexivity ].
Qed.

Lemma attr_attrfunc_result_kind (a : attribute) (v : value) (e : element) :
  attr_attrfunc a e = Ok v -> kind v = attr_kind a.
Proof.
  destruct a as [v0 | [v0 | | r]]; cbn [attr_kind attr_attrfunc];
    try apply infer_attrfunc_result_kind; now intros [= <-].
Qed.

Lemma same_shape_refl (o : gmap string value) : same_shape cls o o.
Proof. now intros k. Qed.

Lemma same_shape_trans (o1 o2 o3 : gmap string value) :
  same_shape cls o1 o2 -> same_shape cls o2 o3 -> same_shape cls o1 o3.
Proof. intros H12 H23 k. now rewrite H12. Qed.

Lemma same_shape_find (o1 o2 : gmap string value) (k : string) (a2 : attribute) :
  same_shape cls o1 o2 -> find_attr cls o2 k = Some a2 ->
  exists a1, find_attr cls o1 k = Some a1 /\
             attr_kind a1 = attr_kind a2 /\ attr_raises a1 = attr_raises a2.
Proof.
  intros Hs H. specialize (Hs k). rewrite H in Hs.
  destruct (find_attr cls o1 k) as [a1 |]; [| discriminate].
  cbn in Hs. injection Hs as H1 H2. eauto.
Qed.

Lemma same_shape_none (o1 o2 : gmap string value) (k : string) :
  same_shape cls o1 o2 -> find_attr cls o2 k = None -> find_attr cls o1 k = None.
Proof.
  intros Hs H. specialize (Hs k). rewrite H in Hs.
  now destruct (find_attr cls o1 k).
Qed.

(** One step of the loop on a child whose tag names an attribute. *)
Lemma setattr_from_child_found (obj : gmap string value) (e : element) (a : attribute) :
  find_attr cls obj (tag e) = Some a ->
  setattr_from_child cls ∅ obj e =
    match attr_attrfunc a e with
    | Ok v =>
        match attr_raises a with
        | Some raised => Raise raised
        | None => Ok (<[tag e := v]> obj)
        end
    | Raise ex => Raise ex
    end.
Proof.
  intros H. rewrite setattr_from_child_eq, H.
  destruct (attr_attrfunc a e); [| reflexivity].
  now destruct a as [v0 | [v0 | | r]].
Qed.

Lemma setattr_from_child_shape (obj obj' : gmap string value) (e : element) :
  setattr_from_child cls ∅ obj e = Ok obj' -> same_shape cls obj' obj.
Proof.
  intros H k. destruct (decide (tag e = k)) as [<- | Hne].
  - destruct (find_attr cls obj (tag e)) as [a |] eqn:Ha.
    + rewrite (setattr_from_child_found _ _ _ Ha) in H.
      destruct (attr_attrfunc a e) as [v |] eqn:Hv; [| discriminate].
      destruct (attr_raises a) eqn:Hr; [discriminate |].
      injection H as <-. unfold find_attr at 1. rewrite lookup_insert_eq. cbn.
      now rewrite Hr, (attr_attrfunc_result_kind _ _ _ Hv).
    + rewrite setattr_from_child_eq, Ha in H. injection H as <-. now rewrite Ha.
  - unfold find_attr. now rewrite (setattr_from_child_frame _ _ _ _ H k Hne).
Qed.

Lemma for_each_shape (items : list element) (obj obj' : gmap string value) :
  for_each (setattr_from_child cls ∅) items obj = Ok obj' -> same_shape cls obj' obj.
Proof.
  apply (for_each_invariant (fun o => same_shape cls o obj)).
  - intros s x s' Hs Hstep.
    exact (same_shape_trans _ _ _ (setattr_from_child_shape _ _ _ Hstep) Hs).
  - apply same_shape_refl.
Qed.

(** An attribute that the loop adds is named by the tag of an item. *)
Lemma for_each_added (items : list element) :
  forall (obj obj' : gmap string value) (k : string),
  for_each (setattr_from_child cls ∅) items obj = Ok obj' ->
  obj !! k = None -> obj' !! k <> None -> In k (List.map tag items).
Proof.
  induction items as [| x rest IH]; simpl; intros obj obj' k H Hk Hk'.
  - injection H as <-. contradiction.
  - destruct (setattr_from_child cls ∅ obj x) as [o1 | ex] eqn:Hx; simpl in H;
      [| discriminate].
    destruct (decide (tag x = k)) as [Heq | Hne]; [now left | right].
    apply (IH o1 obj' k H); [| exact Hk'].
    now rewrite (setattr_from_child_frame _ _ _ _ Hx k Hne).
Qed.

(** The names that an object finds on the class of a struct: [parse],
    [_tuple], and names that begin with two underscores. *)
Lemma assoc_attr_In (name : string) (l : list (string * class_attr)) (a : class_attr) :
  assoc_attr name l = Some a -> In (name, a) l.
Proof.
  induction l as [| [k b] l IH]; simpl; [discriminate |].
  destruct (String.eqb_spec k name) as [-> | Hne]; [intros [= ->]; now left |].
  intros H. right. now apply IH.
Qed.

Lemma class_attrs_names (c : StructClass) (name : string) (a : class_attr) :
  class_attrs c name = Some a ->
  name = "parse" \/ name = "_tuple" \/ Str.startswith "__" name = true.
Proof.
  intros H. apply assoc_attr_In in H.
  destruct c; cbn [own_attrs Struct_attrs object_attrs app In] in H;
    repeat (destruct H as [[= <- <-] | H];
            [first [left; reflexivity | right; left; reflexivity
                   | right; right; reflexivity] |]);
    contradiction.
Qed.

(** X1.  Decoding never removes an attribute, and every attribute keeps the
    class of its value: a bool stays a bool, an int an int, a float a float,
    a string a string and a list a list; an attribute that holds [None]
    holds [None] or an element afterwards.  An attribute is added only
    under the tag of a child that names an attribute of the class which an
    assignment shadows, such as a method or the docstring, and its value is
    of the class of that attribute; when no child is tagged in this way the
    attributes are those before.  On the classes derived from [_Struct]
    such a tag is [parse] or begins with two underscores. *)
Theorem setattrs_from_xml_keeps_shape (obj obj' : gmap string value) (xml : element) :
  setattrs_from_xml cls obj xml ∅ = Ok obj' ->
  (forall k v, obj !! k = Some v -> exists v', obj' !! k = Some v' /\ kind v' = kind v) /\
  (forall k v', obj !! k = None -> obj' !! k = Some v' ->
     In k (child_tags xml) /\
     exists a, cls k = Some a /\ attr_raises (ClassAttr a) = None /\
               kind v' = attr_kind (ClassAttr a)) /\
  ((forall k, In k (child_tags xml) -> obj !! k = None -> cls k = None) ->
   dom obj' = dom obj) /\
  (forall (c : StructClass) k a,
     class_attrs c k = Some a -> attr_raises (ClassAttr a) = None ->
     k = "parse" \/ Str.startswith "__" k = true).
Proof.
  intros H.
  assert (Hkept : forall k v, obj !! k = Some v ->
                    exists v', obj' !! k = Some v' /\ kind v' = kind v)
    by exact (setattrs_from_xml_kind cls obj obj' xml H).
  assert (Hadded : forall k v', obj !! k = None -> obj' !! k = Some v' ->
            In k (child_tags xml) /\
            exists a, cls k = Some a /\ attr_raises (ClassAttr a) = None /\
                      kind v' = attr_kind (ClassAttr a)).
  { intros k v' Hk Hk'. split.
    - apply (for_each_added (children xml) obj obj' k H Hk). now rewrite Hk'.
    - pose proof (for_each_shape _ _ _ H k) as Hs. unfold find_attr in Hs.
      rewrite Hk, Hk' in Hs. destruct (cls k) as [a |]; [| discriminate].
      cbn in Hs. injection Hs as H1 H2. exists a. auto. }
  split; [exact Hkept |]. split; [exact Hadded |]. split.
  - intros Hno. apply set_eq. intros k. rewrite !elem_of_dom. split.
    + intros [v' Hv']. destruct (obj !! k) as [v |] eqn:Hk; [eauto |]. exfalso.
      destruct (Hadded k v' Hk Hv') as (Hin & a & Ha & _).
      rewrite (Hno k Hin Hk) in Ha. discriminate.
    + intros [v Hv]. destruct (Hkept k v Hv) as (v' & Hv' & _). eauto.
  - intros c k a Ha Hr.
    destruct (class_attrs_names c k a Ha) as [-> | [-> | Hk]]; [now left | | now right].
    exfalso. destruct c; vm_compute in Ha; try discriminate Ha;
      injection Ha as <-; discriminate.
Qed.

(** The attribute [k] after the loop: decoded from the last item tagged
    [k], by the function that the class of its value selects. *)
Lemma for_each_lookup (k : string) (v0 : value) (items : list element) :
  forall (obj obj' : gmap string value) (v : value),
  obj !! k = Some v -> kind v = kind v0 ->
  for_each (setattr_from_child cls ∅) items obj = Ok obj' ->
  match last (List.filter (fun c => String.eqb (tag c) k) items) with
  | Some e => exists v', infer_attrfunc v0 e = Ok v' /\ obj' !! k = Some v'
  | None => obj' !! k = Some v
  end.
Proof.
  induction items as [| x rest IH]; simpl; intros obj obj' v Hv Hk H.
  - now injection H as <-.
  - destruct (setattr_from_child cls ∅ obj x) as [o1 | ex] eqn:Hx; simpl in H;
      [| discriminate].
    destruct (String.eqb_spec (tag x) k) as [Heq | Hne].
    + subst k. rewrite (setattr_from_child_instance _ _ _ _ Hv) in Hx.
      rewrite (infer_attrfunc_kind v v0 Hk) in Hx. unfold res_map, res_bind in Hx.
      destruct (infer_attrfunc v0 x) as [v1 |] eqn:Hv1; [| discriminate].
      injection Hx as <-.
      assert (Hk1 : kind v1 = kind v0) by exact (infer_attrfunc_result_kind _ _ _ Hv1).
      specialize (IH _ _ v1 (lookup_insert_eq _ _ _) Hk1 H).
      rewrite last_cons.
      destruct (last (List.filter _ rest)) as [e |]; [exact IH | eauto].
    + assert (Ho1 : o1 !! k = Some v)
        by (rewrite (setattr_from_child_frame _ _ _ _ Hx k Hne); exact Hv).
      exact (IH _ _ v Ho1 Hk H).
Qed.

(** X2.  Decoding works attribute by attribute: after a successful decoding,
    an attribute is the value decoded from the last child that carries its
    tag, by the function that the class of its former value selects; the
    other children, and the children met before that one, play no part.  An
    attribute whose tag no child carries keeps its value. *)
Theorem setattrs_from_xml_last_child (obj obj' : gmap string value) (xml : element)
    (k : string) (v0 : value) :
  obj !! k = Some v0 ->
  setattrs_from_xml cls obj xml ∅ = Ok obj' ->
  match last (children_tagged k xml) with
  | Some e => exists v, infer_attrfunc v0 e = Ok v /\ obj' !! k = Some v
  | None => obj' !! k = Some v0
  end.
Proof.
  intros Hk H. exact (for_each_lookup k v0 (children xml) obj obj' v0 Hk eq_refl H).
Qed.

(** The loop succeeds exactly when each item decodes under the attribute
    that the initial object has for its tag, and this attribute can be
    set. *)
Lemma for_each_is_ok (obj0 : gmap string value) (items : list element) :
  forall obj, same_shape cls obj obj0 ->
  is_ok (for_each (setattr_from_child cls ∅) items obj) = true <->
  Forall (fun c => forall a, find_attr cls obj0 (tag c) = Some a ->
                     is_ok (attr_attrfunc a c) = true /\ attr_raises a = None) items.
Proof.
  induction items as [| x rest IH]; intros obj Hs; simpl.
  - split; [constructor | reflexivity].
  - rewrite Forall_cons.
    destruct (find_attr cls obj0 (tag x)) as [a0 |] eqn:Ha0.
    + destruct (same_shape_find _ _ _ _ Hs Ha0) as (a & Ha & Hk & Hr).
      rewrite (setattr_from_child_found _ _ _ Ha), (attr_attrfunc_kind a a0 Hk), Hr.
      destruct (attr_attrfunc a0 x) as [v |] eqn:Hv.
      * destruct (attr_raises a0) as [raised |] eqn:Hr0; simpl.
        -- split; [discriminate |]. intros [H _].
           destruct (H a0 eq_refl) as [_ Hn]. congruence.
        -- assert (Hstep : setattr_from_child cls ∅ obj x = Ok (<[tag x := v]> obj)).
           { rewrite (setattr_from_child_found _ _ _ Ha), (attr_attrfunc_kind a a0 Hk).
             rewrite Hv, Hr. now try rewrite Hr0. }
           rewrite (IH (<[tag x := v]> obj))
             by exact (same_shape_trans _ _ _ (setattr_from_child_shape _ _ _ Hstep) Hs).
           split; [| now intros [_ H]]. intros H. split; [| exact H].
           intros a' [= <-]. now rewrite Hv.
      * simpl. split; [discriminate |]. intros [H _].
        destruct (H a0 eq_refl) as [Hok _]. now rewrite Hv in Hok.
    + rewrite setattr_from_child_eq, (same_shape_none _ _ _ Hs Ha0). simpl.
      rewrite (IH obj Hs). split; [| now intros [_ H]].
      intros H. split; [discriminate | exact H].
Qed.

Lemma infer_attrfunc_raises (attr : value) (c : element) (ex : exn) :
  infer_attrfunc attr c = Raise ex ->
  (kind attr = 2%nat \/ kind attr = 3%nat) /\ (ex = ValueError \/ ex = OverflowError).
Proof.
  destruct attr; simpl; try discriminate; unfold parse_int, parse_float, int_of_float.
  - destruct (text c); [| discriminate].
    destruct (float_of_str _); [| simpl; intros [= <-]; auto].
    destruct (Prim2SF _); simpl; intros [= <-]; auto.
  - destruct (text c); [| discriminate].
    destruct (float_of_str _); [discriminate | simpl; intros [= <-]; auto].
Qed.

Lemma attr_attrfunc_raises (a : attribute) (c : element) (ex : exn) :
  attr_attrfunc a c = Raise ex ->
  (attr_kind a = 2%nat \/ attr_kind a = 3%nat) /\ (ex = ValueError \/ ex = OverflowError).
Proof.
  destruct a as [v | [v | | r]]; cbn [attr_attrfunc attr_kind];
    try apply infer_attrfunc_raises; discriminate.
Qed.

Lemma for_each_raises (obj0 : gmap string value) (items : list element) (ex : exn) :
  forall obj, same_shape cls obj obj0 ->
  for_each (setattr_from_child cls ∅) items obj = Raise ex ->
  exists c a,
    In c items /\ find_attr cls obj0 (tag c) = Some a /\
    (attr_attrfunc a c = Raise ex \/ attr_raises a = Some ex).
Proof.
  induction items as [| x rest IH]; intros obj Hs; simpl; [discriminate |].
  destruct (setattr_from_child cls ∅ obj x) as [o1 | ex'] eqn:Hx; simpl.
  - intros H.
    destruct (IH o1 (same_shape_trans _ _ _ (setattr_from_child_shape _ _ _ Hx) Hs) H)
      as (c & a & Hin & Ha & Hr).
    exists c, a. auto.
  - intros [= ->].
    destruct (find_attr cls obj0 (tag x)) as [a0 |] eqn:Ha0.
    + destruct (same_shape_find _ _ _ _ Hs Ha0) as (a & Ha & Hk & Hr).
      rewrite (setattr_from_child_found _ _ _ Ha), (attr_attrfunc_kind a a0 Hk), Hr in Hx.
      exists x, a0. split; [now left |]. split; [exact Ha0 |].
      destruct (attr_attrfunc a0 x) as [v |].
      * destruct (attr_raises a0); [right; congruence | discriminate].
      * left. congruence.
    + rewrite setattr_from_child_eq, (same_shape_none _ _ _ Hs Ha0) in Hx. discriminate.
Qed.

Lemma class_attrs_descriptors (c : StructClass) (name : string) (raised : exn) :
  class_attrs c name = Some (ClassDescriptor raised) ->
  (raised = TypeError /\ (name = "__class__" \/ name = "__dict__")) \/
  (raised = AttributeError /\ (name = "__weakref__" \/ name = "_tuple")).
Proof.
  intros H. pose proof (assoc_attr_In _ _ _ H) as Hin.
  destruct c; cbn [own_attrs Struct_attrs object_attrs app In] in Hin;
    repeat (destruct Hin as [Hin | Hin];
            [try discriminate Hin; injection Hin as <- <-; auto |]);
    contradiction.
Qed.

(** X3.  Decoding succeeds exactly when every child whose tag names an
    attribute, of the instance or of its class, decodes under the class of
    the value found there, and this attribute can be set.  When decoding
    fails, the exception is the ValueError or OverflowError of a child
    tagged with an int or float attribute, or the exception of the
    assignment to a descriptor of the class; children tagged with a bool, a
    string, a list or [None], and children with an unknown tag, never make
    it fail.  On the classes derived from [_Struct] the descriptors are
    [__class__] and [__dict__], which raise TypeError, and [__weakref__] and
    [_tuple], which raise AttributeError. *)
Theorem setattrs_from_xml_outcome (obj : gmap string value) (xml : element) :
  (is_ok (setattrs_from_xml cls obj xml ∅) = true <->
   Forall (fun c => forall a, find_attr cls obj (tag c) = Some a ->
                      is_ok (attr_attrfunc a c) = true /\ attr_raises a = None)
     (children xml)) /\
  (forall ex, setattrs_from_xml cls obj xml ∅ = Raise ex ->
     exists c a,
       In c (children xml) /\ find_attr cls obj (tag c) = Some a /\
       ((attr_kind a = 2%nat \/ attr_kind a = 3%nat) /\
        (ex = ValueError \/ ex = OverflowError) /\ attr_attrfunc a c = Raise ex
        \/ attr_raises a = Some ex)) /\
  (forall (c : StructClass) k raised,
     class_attrs c k = Some (ClassDescriptor raised) ->
     (raised = TypeError /\ (k = "__class__" \/ k = "__dict__")) \/
     (raised = AttributeError /\ (k = "__weakref__" \/ k = "_tuple"))).
Proof.
  split; [| split].
  - apply for_each_is_ok, same_shape_refl.
  - intros ex H.
    destruct (for_each_raises obj (children xml) ex obj (same_shape_refl obj) H)
      as (c & a & Hin & Ha & [Hr | Hr]).
    + destruct (attr_attrfunc_raises a c ex Hr) as [Hk Hex].
      exists c, a. split; [exact Hin |]. split; [exact Ha |]. left. auto.
    + exists c, a. auto.
  - exact class_attrs_descriptors.
Qed.

(** The loop skips the items whose tag names no attribute. *)
Lemma for_each_skip_unknown (obj0 : gmap string value) (items : list element) :
  forall obj, same_shape cls obj obj0 ->
  for_each (setattr_from_child cls ∅) (List.filter (has_attr cls obj0) items) obj =
  for_each (setattr_from_child cls ∅) items obj.
Proof.
  induction items as [| x rest IH]; intros obj Hs; simpl; [reflexivity |].
  unfold has_attr at 1.
  destruct (find_attr cls obj0 (tag x)) as [a0 |] eqn:Ha0.
  - simpl. destruct (setattr_from_child cls ∅ obj x) as [o1 |] eqn:Hx; simpl;
      [| reflexivity].
    apply IH. exact (same_shape_trans _ _ _ (setattr_from_child_shape _ _ _ Hx) Hs).
  - rewrite setattr_from_child_eq, (same_shape_none _ _ _ Hs Ha0). simpl. now apply IH.
Qed.

(** X4.  Children whose tag names no attribute of the object, neither of
    the instance nor of its class, are skipped: taking them out of the
    element changes neither the decoded object nor the exception raised.
    On the classes derived from [_Struct], a tag that names no attribute of
    the instance, is not [parse] nor [_tuple] and does not begin with two
    underscores names no attribute. *)
Theorem setattrs_from_xml_skips_unknown (obj : gmap string value) (t : string)
    (txt : option string) (cs : list element) :
  setattrs_from_xml cls obj (Element t txt (List.filter (has_attr cls obj) cs)) ∅ =
  setattrs_from_xml cls obj (Element t txt cs) ∅ /\
  (forall (c : StructClass) (e : element),
     obj !! tag e = None -> tag e <> "parse" -> tag e <> "_tuple" ->
     Str.startswith "__" (tag e) = false ->
     has_attr (class_attrs c) obj e = false).
Proof.
  split; [apply for_each_skip_unknown, same_shape_refl |].
  intros c e Hobj Hp Ht Hs. unfold has_attr, find_attr. rewrite Hobj.
  destruct (class_attrs c (tag e)) as [a |] eqn:Ha; [| reflexivity].
  destruct (class_attrs_names c _ a Ha) as [H | [H | H]]; congruence.
Qed.

End DecoderInvariants.

(** ** parse_str *)

Lemma lstrip_head (s r : string) (c : ascii) :
  Str.lstrip s = String c r -> Str.isspace c = false.
Proof.
  induction s as [| a s IH]; simpl; [discriminate |].
  destruct (Str.isspace a) eqn:Ha; [exact IH |]. now intros [= <- _].
Qed.

Lemma lstrip_nonspace (c : ascii) (s : string) :
  Str.isspace c = false -> Str.lstrip (String c s) = String c s.
Proof. intros H. simpl. now rewrite H. Qed.

Lemma rstrip_nonspace_head (c : ascii) (s : string) :
  Str.isspace c = false -> exists r, Str.rstrip (String c s) = String c r.
Proof. intros H. simpl. destruct (Str.rstrip s); rewrite ?H; eauto. Qed.

Lemma rstrip_idempotent (s : string) : Str.rstrip (Str.rstrip s) = Str.rstrip s.
Proof.
  induction s as [| a s IH]; [reflexivity |]. simpl.
  destruct (Str.rstrip s) as [| b x] eqn:E.
  - destruct (Str.isspace a) eqn:Ha; [reflexivity |]. simpl. now rewrite Ha.
  - change (Str.rstrip (String a (String b x)))
      with (match Str.rstrip (String b x) with
            | EmptyString => if Str.isspace a then EmptyString else String a EmptyString
            | r => String a r
            end).
    now rewrite IH.
Qed.

Lemma rstrip_last (s r : string) (c : ascii) :
  Str.rstrip s = r ++ String c "" -> Str.isspace c = false.
Proof.
  revert r. induction s as [| a s IH]; intros r; simpl.
  - now destruct r.
  - destruct (Str.rstrip s) as [| b x] eqn:E.
    + destruct (Str.isspace a) eqn:Ha; [now destruct r |].
      destruct r as [| a' r']; simpl; [now intros [= <-] |].
      intros [= _ H]. now destruct r'.
    + destruct r as [| a' r']; simpl; [discriminate |].
      intros [= _ H]. exact (IH r' H).
Qed.

Lemma strip_idempotent (s : string) : Str.strip (Str.strip s) = Str.strip s.
Proof.
  unfold Str.strip. destruct (Str.lstrip s) as [| c r] eqn:E; [reflexivity |].
  pose proof (lstrip_head s r c E) as Hc.
  destruct (rstrip_nonspace_head c r Hc) as [r' Hr]. rewrite Hr.
  rewrite (lstrip_nonspace c r' Hc), <- Hr. apply rstrip_idempotent.
Qed.

(** X5.  A decoded string neither begins nor ends with a whitespace
    character, and trimming it again changes nothing. *)
Theorem parse_str_trimmed (e : element) :
  Str.strip (parse_str e) = parse_str e /\
  (forall c s, parse_str e = String c s -> Str.isspace c = false) /\
  (forall s c, parse_str e = s ++ String c "" -> Str.isspace c = false).
Proof.
  unfold parse_str. destruct (text e) as [t |].
  - repeat apply conj.
    + apply strip_idempotent.
    + intros c s H. unfold Str.strip in H.
      destruct (Str.lstrip t) as [| a r] eqn:E; [discriminate |].
      pose proof (lstrip_head t r a E) as Ha.
      destruct (rstrip_nonspace_head a r Ha) as [r' Hr]. rewrite Hr in H.
      now injection H as <- _.
    + intros s c H. exact (rstrip_last _ _ _ H).
  - repeat apply conj; [reflexivity | discriminate |]. intros s c H. now destruct s.
Qed.

(** ** Result.parse and HostInfo.parse *)

Section StructProperties.

Context {pyfloat : PyFloat}.

(** [Result.parse], split into its two parts. *)
Lemma Result_parse_inv (xml : element) (r : gmap string value) :
  Result_parse xml = Ok r ->
  exists r0,
    Result_parse_fields xml = Ok r0 /\
    (forall k, k <> "elapsed_time" -> k <> "final_elapsed_time" -> r !! k = r0 !! k).
Proof.
  intros Hr. unfold Result_parse in Hr.
  destruct (Result_parse_fields xml) as [r0 | ex] eqn:H0; [| discriminate].
  destruct (Result_parse_run xml r0 H0) as (r' & Hr' & Hkeep).
  unfold Result_parse in Hr'. rewrite H0 in Hr'. cbn [res_bind] in Hr, Hr'.
  rewrite Hr in Hr'. injection Hr' as <-. eauto.
Qed.

(** The attribute [k] after the parse of the fields of a [Result]. *)
Lemma Result_parse_fields_lookup (xml : element) (r0 : gmap string value) (k : string)
    (v0 : value) :
  Result_init !! k = Some v0 -> k <> "active_task" ->
  Result_parse_fields xml = Ok r0 ->
  match last (Result_children_tagged k xml) with
  | Some e => exists v, infer_attrfunc v0 e = Ok v /\ r0 !! k = Some v
  | None => r0 !! k = Some v0
  end.
Proof.
  intros Hk Hne H0. unfold Result_parse_fields in H0.
  destruct (setattrs_from_xml (class_attrs Result_class) Result_init xml ∅) as [r1 | ex] eqn:H1; [| discriminate].
  cbn [res_bind] in H0.
  pose proof (for_each_lookup _ k v0 (children xml) Result_init r1 v0 Hk eq_refl H1) as Hr1.
  fold (children_tagged k xml) in Hr1.
  unfold Result_children_tagged.
  destruct (find "active_task" xml) as [active_task |].
  - assert (Hv1 : exists v1, r1 !! k = Some v1 /\ kind v1 = kind v0 /\
                    match last (children_tagged k xml) with
                    | Some e => infer_attrfunc v0 e = Ok v1
                    | None => v1 = v0
                    end).
    { destruct (last (children_tagged k xml)) as [e |].
      - destruct Hr1 as (v & Hv & Hl). exists v.
        split; [exact Hl |]. split; [exact (infer_attrfunc_result_kind _ _ _ Hv) | exact Hv].
      - exists v0. auto. }
    destruct Hv1 as (v1 & Hl1 & Hk1 & Hfrom).
    assert (Hins : <["active_task" := VBool true]> r1 !! k = Some v1)
      by (rewrite lookup_insert_ne by congruence; exact Hl1).
    pose proof (for_each_lookup _ k v0 (children active_task) _ r0 v1 Hins Hk1 H0) as Hr0.
    fold (children_tagged k active_task) in Hr0.
    rewrite last_app.
    destruct (last (children_tagged k active_task)) as [e2 |]; [exact Hr0 |].
    destruct (last (children_tagged k xml)) as [e1 |]; [eauto | congruence].
  - injection H0 as <-. rewrite app_nil_r, lookup_insert_ne by congruence. exact Hr1.
Qed.

(** X6.  The attribute [active_task] of a decoded [Result] tells whether the
    element has a child [<active_task>], whatever the text of that child:
    it is false without such a child, and true with one (provided the child
    has no child of the same tag in turn). *)
Theorem Result_parse_active_task (xml : element) (r : gmap string value) :
  Result_parse xml = Ok r ->
  (find "active_task" xml = None -> r !! "active_task" = Some (VBool false)) /\
  (forall a, find "active_task" xml = Some a -> children_tagged "active_task" a = [] ->
     r !! "active_task" = Some (VBool true)).
Proof.
  intros Hr. destruct (Result_parse_inv xml r Hr) as (r0 & H0 & Hkeep).
  rewrite (Hkeep "active_task") by discriminate. clear Hkeep Hr.
  unfold Result_parse_fields in H0.
  destruct (setattrs_from_xml (class_attrs Result_class) Result_init xml ∅) as [r1 | ex]; [| discriminate].
  cbn [res_bind] in H0. split.
  - intros Hf. rewrite Hf in H0. injection H0 as <-. apply lookup_insert_eq.
  - intros a Hf Ha. rewrite Hf in H0.
    pose proof (for_each_lookup _ "active_task" (VBool true) (children a) _ r0 (VBool true)
                  (lookup_insert_eq _ _ _) eq_refl H0) as Hl.
    fold (children_tagged "active_task" a) in Hl. now rewrite Ha in Hl.
Qed.

(** X7.  Every field of a decoded [Result], the flag [active_task] and the
    two elapsed times apart, is decoded from the last element that carries
    its tag among the children of the element followed by the children of
    its [<active_task>] child: a value under [<active_task>] overrides the
    one at the top; a field that no element carries keeps the value set by
    the constructor. *)
Theorem Result_parse_field (xml : element) (r : gmap string value) (k : string)
    (v0 : value) :
  Result_init !! k = Some v0 ->
  k <> "active_task" -> k <> "elapsed_time" -> k <> "final_elapsed_time" ->
  Result_parse xml = Ok r ->
  match last (Result_children_tagged k xml) with
  | Some e => exists v, infer_attrfunc v0 e = Ok v /\ r !! k = Some v
  | None => r !! k = Some v0
  end.
Proof.
  intros Hk Hne1 Hne2 Hne3 Hr.
  destruct (Result_parse_inv xml r Hr) as (r0 & H0 & Hkeep).
  rewrite (Hkeep k Hne2 Hne3).
  exact (Result_parse_fields_lookup xml r0 k v0 Hk Hne1 H0).
Qed.

(** X8.  A decoded [Result] never shows a nonzero CPU time beside a zero
    elapsed time: when [elapsed_time] is zero so is [current_cpu_time], and
    when [final_elapsed_time] is zero so is [final_cpu_time]. *)
Theorem Result_parse_times_consistent (xml : element) (r : gmap string value) :
  Result_parse xml = Ok r ->
  exists cpu elapsed fcpu felapsed : float,
    r !! "current_cpu_time" = Some (VFloat cpu) /\
    r !! "elapsed_time" = Some (VFloat elapsed) /\
    r !! "final_cpu_time" = Some (VFloat fcpu) /\
    r !! "final_elapsed_time" = Some (VFloat felapsed) /\
    (PrimFloat.eqb elapsed 0 = true -> PrimFloat.eqb cpu 0 = true) /\
    (PrimFloat.eqb felapsed 0 = true -> PrimFloat.eqb fcpu 0 = true).
Proof.
  intros Hr. unfold Result_parse in Hr.
  destruct (Result_parse_fields xml) as [r0 | ex] eqn:H0; [| discriminate].
  cbn [res_bind] in Hr.
  pose proof (Result_parse_fields_kind xml r0 H0) as Hkind.
  destruct Result_init_times as (I1 & I2 & I3 & I4).
  destruct (float_field r0 _ (Hkind _ _ I1)) as [cpu Hcpu].
  destruct (float_field r0 _ (Hkind _ _ I2)) as [el Hel].
  destruct (float_field r0 _ (Hkind _ _ I3)) as [fcpu Hfcpu].
  destruct (float_field r0 _ (Hkind _ _ I4)) as [fel Hfel].
  rewrite (Result_old_client_floats r0 cpu el fcpu fel Hcpu Hel Hfcpu Hfel) in Hr.
  injection Hr as <-. cbv zeta.
  exists cpu, (if negb (PrimFloat.eqb cpu 0) && PrimFloat.eqb el 0 then cpu else el),
         fcpu, (if negb (PrimFloat.eqb fcpu 0) && PrimFloat.eqb fel 0 then fcpu else fel).
  destruct (PrimFloat.eqb cpu 0) eqn:Ec; destruct (PrimFloat.eqb el 0) eqn:Ee;
    destruct (PrimFloat.eqb fcpu 0) eqn:Efc; destruct (PrimFloat.eqb fel 0) eqn:Efe;
    cbn [negb andb];
    repeat apply conj;
    repeat first [ rewrite lookup_insert_eq | rewrite lookup_insert_ne by discriminate ];
    try assumption; try reflexivity; congruence.
Qed.

Lemma parse_coprocs_spec (items : list element) :
  forall acc cs,
    parse_coprocs items acc = Ok cs <->
    exists cs', cs = (acc ++ cs')%list /\ Forall2 (fun c o => Coproc_parse c = Ok o) items cs'.
Proof.
  induction items as [| item rest IH]; intros acc cs; simpl.
  - split.
    + intros [= <-]. exists []. split; [now rewrite app_nil_r | constructor].
    + intros (cs' & -> & H). inversion H. now rewrite app_nil_r.
  - destruct (Coproc_parse item) as [o | e] eqn:Ho; simpl.
    + rewrite IH. split.
      * intros (cs' & -> & H). exists (o :: cs').
        split; [now rewrite <- app_assoc | now constructor].
      * intros (cs' & -> & H). inversion H as [| ? o' ? cs'' Ho' Hrest]; subst.
        rewrite Ho in Ho'. injection Ho' as <-.
        exists cs''. split; [now rewrite <- app_assoc | exact Hrest].
    + split; [discriminate |].
      intros (cs' & _ & H). inversion H as [| ? o' ? cs'' Ho' Hrest]; subst. congruence.
Qed.

(** X9.  [HostInfo.parse] returns the object decoded from the element
    together with one [Coproc] per child of the last [<coprocs>] child, in
    the order of these children, and exactly when the element and each of
    these children decode; without a [<coprocs>] child the list is empty. *)
Theorem HostInfo_parse_coprocs (xml : element) (h : gmap string value)
    (cs : list (gmap string value)) :
  HostInfo_parse xml = Ok (h, cs) <->
  setattrs_from_xml (class_attrs HostInfo_class) HostInfo_init xml ∅ = Ok h /\
  Forall2 (fun c o => Coproc_parse c = Ok o)
    (match last (children_tagged "coprocs" xml) with
     | Some e => children e
     | None => []
     end) cs.
Proof.
  unfold HostInfo_parse.
  destruct (setattrs_from_xml (class_attrs HostInfo_class) HostInfo_init xml ∅)
    as [h' | ex] eqn:H; cbn [res_bind].
  - assert (Hinit : HostInfo_init !! "coprocs" = Some (VList [])) by (vm_compute; reflexivity).
    pose proof (for_each_lookup _ "coprocs" (VList []) (children xml) HostInfo_init h'
                  (VList []) Hinit eq_refl H) as Hl.
    fold (children_tagged "coprocs" xml) in Hl.
    assert (Hc : h' !! "coprocs"
                 = Some (VList (match last (children_tagged "coprocs" xml) with
                                | Some e => children e
                                | None => []
                                end))).
    { destruct (last (children_tagged "coprocs" xml)) as [e |]; [| exact Hl].
      destruct Hl as (v & Hv & Hl). simpl in Hv. now injection Hv as <-. }
    unfold getattr. rewrite Hc. cbn [res_bind iterate].
    destruct (parse_coprocs _ []) as [aux | ex] eqn:Haux; cbn [res_bind].
    + apply parse_coprocs_spec in Haux. destruct Haux as (cs' & -> & Hall). simpl.
      split.
      * intros [= <- <-]. auto.
      * intros [[= <-] Hall']. f_equal. f_equal.
        clear -Hall Hall'. revert cs Hall'.
        induction Hall as [| c o l l' Ho _ IH]; intros cs Hall'; inversion Hall'; subst;
          [reflexivity |]. f_equal; [congruence | now apply IH].
    + split; [discriminate |]. intros [_ Hall]. exfalso.
      assert (Hex : parse_coprocs
                      (match last (children_tagged "coprocs" xml) with
                       | Some e => children e
                       | None => []
                       end) [] = Ok cs)
        by (apply parse_coprocs_spec; exists cs; auto).
      congruence.
  - split; [discriminate | now intros [[=] _]].
Qed.

End StructProperties.

(** ** The session: what the methods change, catch and send *)

Section SessionProperties.

Context {pyfloat : PyFloat} {T : Type} {transport : Rpc T}.

Implicit Types (w : world T) (t : T).

Lemma same_client_called w (evs : list event) t : same_client (self w) (self (called w evs t)).
Proof. repeat split. Qed.

(** X10.  When [get_cc_status] returns no status, [connected] is false; so a
    caller that finds [connected] true after the call holds a status. *)
Theorem get_cc_status_result w w' (r : option (gmap string value)) :
  get_cc_status w = (Ok r, w') ->
  (r = None -> connected (self w') = false) /\
  (connected (self w') = true -> exists status, r = Some status).
Proof.
  intros H.
  assert (Hnone : r = None -> connected (self w') = false).
  { revert H. rewrite get_cc_status_unfold.
    destruct (if connected (self w) then _ else _) as [[[] | e] w1]; [| discriminate].
    destruct (self_rpc_call "<get_cc_status/>" w1) as [[reply | e] w2].
    - destruct (CcStatus_parse reply) as [status | e].
      + intros [= <- <-]. discriminate.
      + destruct e; try discriminate. now intros [= <- <-].
    - destruct e; try discriminate. now intros [= <- <-]. }
  split; [exact Hnone |].
  intros Hc. destruct r as [status |]; [eauto |].
  rewrite Hnone in Hc by reflexivity. discriminate.
Qed.

(** X11.  A connected client sends the status query and nothing else: it
    does not connect again.  A client that is not connected tries to
    connect first, and when the transport refuses it still sends the query;
    [connected] is then false after the call, whatever the reply. *)
Theorem get_cc_status_trace w :
  (connected (self w) = true ->
   trace (snd (get_cc_status w)) = (trace w ++ [EvCall "<get_cc_status/>"])%list) /\
  (connected (self w) = false -> forall t,
   rpc_connect (rpc (self w)) (hostname (self w)) (port (self w)) = (Raise SocketError, t) ->
   trace (snd (get_cc_status w))
     = (trace w ++ [EvConnect (hostname (self w)) (port (self w));
                    EvCall "<get_cc_status/>"])%list /\
   connected (self (snd (get_cc_status w))) = false).
Proof.
  split.
  - intros Hc. rewrite get_cc_status_unfold, Hc, self_rpc_call_eq.
    destruct (fst (rpc_call _ _)) as [reply | e].
    + destruct (CcStatus_parse reply) as [status | e]; [reflexivity |].
      now destruct e.
    + now destruct e.
  - intros Hc t Hr. rewrite get_cc_status_unfold, Hc, (connect_refused w t Hr).
    rewrite self_rpc_call_eq.
    destruct (fst (rpc_call _ _)) as [reply | e].
    + destruct (CcStatus_parse reply) as [status | e].
      * simpl. now rewrite <- app_assoc.
      * destruct e; simpl; now rewrite <- app_assoc.
    + destruct e; simpl; now rewrite <- app_assoc.
Qed.

Lemma handshake_keeps (pw : option string) w0 :
  same_client (self w0) (self (snd (handshake pw w0))) /\
  passwd_file (snd (handshake pw w0)) = passwd_file w0.
Proof.
  unfold handshake. rewrite self_rpc_call_eq.
  destruct (fst (rpc_call _ "<auth1/>")) as [auth1 | e]; [| split; apply same_client_called || reflexivity].
  rewrite self_rpc_call_eq.
  destruct (fst (rpc_call _ (auth2_request _))); split; repeat split.
Qed.

(** X12.  The queries [get_results], [get_projects], [get_host_info] and
    [run_benchmarks], and [authorize], [exchange_versions] and [disconnect],
    never write an attribute of the client other than its transport, and
    leave the password file as it is, whatever the transport answers: in
    particular none of them updates [connected], and [disconnect] does not
    clear it. *)
Theorem queries_keep_flags w (active_only : bool) (password : option string) :
  keeps_flags (get_results active_only) w /\
  keeps_flags get_projects w /\
  keeps_flags get_host_info w /\
  keeps_flags run_benchmarks w /\
  keeps_flags (authorize password) w /\
  keeps_flags exchange_versions w /\
  keeps_flags disconnect w.
Proof.
  assert (Hcall : forall (A : Type) (request : string) (k : element -> res A),
            keeps_flags (bind (self_rpc_call request) (fun reply => lift (k reply))) w).
  { intros A request k. unfold keeps_flags, bind, lift. rewrite self_rpc_call_eq.
    destruct (fst (rpc_call _ _)) as [reply | e]; split;
      solve [apply same_client_called | reflexivity]. }
  split; [| split; [| split; [| split; [| split; [| split]]]]].
  - unfold keeps_flags, get_results, bind, lift, ret. rewrite self_rpc_call_eq.
    destruct (fst (rpc_call _ _)) as [reply | e];
      [destruct (negb _) |]; split; solve [apply same_client_called | reflexivity].
  - unfold keeps_flags, get_projects, bind, lift, ret. rewrite self_rpc_call_eq.
    destruct (fst (rpc_call _ _)) as [reply | e];
      [destruct (_ || _) |]; split; solve [apply same_client_called | reflexivity].
  - apply Hcall.
  - unfold keeps_flags, run_benchmarks, bind, ret. rewrite self_rpc_call_eq.
    destruct (fst (rpc_call _ _)) as [reply | e]; split;
      solve [apply same_client_called | reflexivity].
  - unfold keeps_flags. rewrite authorize_unfold.
    destruct (resolved_password (hostname (self w)) password (passwd_file w)) as [pw | e].
    + destruct (handshake_keeps pw
                  (called w (if consults_file (hostname (self w)) password
                             then [EvOpen GUI_RPC_PASSWD_FILE] else []) (rpc (self w))))
        as [Hc Hf].
      split; [exact Hc | exact Hf].
    + split; [apply same_client_called | reflexivity].
  - apply Hcall.
  - split; [repeat split | reflexivity].
Qed.

(** X13.  Unlike [get_cc_status], the other queries catch nothing: an
    exception that the transport raises on their call, socket.error
    included, is raised by the method. *)
Theorem queries_propagate_errors w (active_only : bool) (e : exn) t :
  (rpc_call (rpc (self w))
     ("<get_results><active_only>" ++ (if active_only then "1" else "0")
      ++ "</active_only></get_results>") = (Raise e, t) ->
   fst (get_results active_only w) = Raise e) /\
  (rpc_call (rpc (self w)) "<get_project_status/>" = (Raise e, t) ->
   fst (get_projects w) = Raise e) /\
  (rpc_call (rpc (self w)) "<get_host_info/>" = (Raise e, t) ->
   fst (get_host_info w) = Raise e) /\
  (rpc_call (rpc (self w)) "<run_benchmarks/>" = (Raise e, t) ->
   fst (run_benchmarks w) = Raise e) /\
  (rpc_call (rpc (self w)) "<quit/>" = (Raise e, t) ->
   quit w = (Raise e, called w [EvCall "<quit/>"] t)) /\
  (rpc_call (rpc (self w)) "<exchange_versions/>" = (Raise e, t) ->
   fst (exchange_versions w) = Raise e).
Proof.
  repeat apply conj; intros H.
  - unfold get_results, bind. now rewrite (self_rpc_call_run _ _ _ _ H).
  - unfold get_projects, bind. now rewrite (self_rpc_call_run _ _ _ _ H).
  - unfold get_host_info, bind. now rewrite (self_rpc_call_run _ _ _ _ H).
  - unfold run_benchmarks, bind. now rewrite (self_rpc_call_run _ _ _ _ H).
  - unfold quit, bind. now rewrite (self_rpc_call_run _ _ _ _ H).
  - unfold exchange_versions, bind. now rewrite (self_rpc_call_run _ _ _ _ H).
Qed.

(** X14.  Without a password and for a host that is not the local one, the
    handshake hashes the nonce followed by the text "None": [authorize]
    then behaves as with the explicit password "None". *)
Theorem authorize_None_remote w :
  hostname (self w) <> "" ->
  authorize None w = authorize (Some "None") w.
Proof.
  intros Hhost. rewrite !authorize_unfold. unfold consults_file, resolved_password.
  destruct (hostname (self w)) as [| c host]; [congruence |].
  unfold handshake.
  destruct (self_rpc_call "<auth1/>" _) as [[auth1 | e] w1]; reflexivity.
Qed.

Lemma handshake_file (pw : option string) (c : BoincClient T) (f1 f2 : file_content)
    (tr : list event) :
  fst (handshake pw (mkWorld c f1 tr)) = fst (handshake pw (mkWorld c f2 tr)) /\
  self (snd (handshake pw (mkWorld c f1 tr))) = self (snd (handshake pw (mkWorld c f2 tr))) /\
  trace (snd (handshake pw (mkWorld c f1 tr))) = trace (snd (handshake pw (mkWorld c f2 tr))).
Proof.
  unfold handshake. rewrite !self_rpc_call_eq. simpl.
  destruct (fst (rpc_call (rpc c) "<auth1/>")) as [auth1 | e]; [| now repeat split].
  rewrite !self_rpc_call_eq. simpl.
  destruct (fst (rpc_call _ (auth2_request _))); now repeat split.
Qed.

(** X15.  For the local host and without a password, an empty password
    file, a file that holds one newline only (a line feed, a carriage
    return, or both) and a file that cannot be read are the same to
    [authorize]: the same requests are sent and the same result comes
    back. *)
Theorem authorize_blank_password_file w (file : file_content) :
  hostname (self w) = "" ->
  In file [Unreadable; Text ""; Text (String "010"%char "");
           Text (String "013"%char (String "010"%char "")); Text (String "013"%char "")] ->
  fst (authorize None (with_file file w)) = fst (authorize None (with_file Unreadable w)) /\
  self (snd (authorize None (with_file file w)))
    = self (snd (authorize None (with_file Unreadable w))) /\
  trace (snd (authorize None (with_file file w)))
    = trace (snd (authorize None (with_file Unreadable w))).
Proof.
  intros Hhost Hfile. rewrite !authorize_unfold.
  unfold with_file, called. cbn [self passwd_file trace].
  rewrite Hhost.
  assert (Hpw : resolved_password "" None file = Ok (Some "")).
  { destruct Hfile as [<- | [<- | [<- | [<- | [<- | []]]]]]; reflexivity. }
  rewrite Hpw. change (resolved_password "" None Unreadable) with (Ok (Some "")).
  apply handshake_file.
Qed.

(** [name] raises nothing but RecursionError and TypeError. *)
Lemma name_raises (depth : nat) :
  forall (cls : EnumClass) (v : pyval) (e : exn),
  name depth cls v = Raise e -> e = RecursionError \/ e = TypeError.
Proof.
  induction depth as [| d IH]; intros cls v e; simpl; [intros [= <-]; auto |].
  assert (HE : forall c x, Enum_name (name d) c x = Raise e ->
                           e = RecursionError \/ e = TypeError).
  { intros c x. unfold Enum_name.
    destruct (class_hasattr c (py_str x)).
    - destruct x; try (intros [= <-]; auto). apply IH.
    - destruct (first_key x (class_dict c)); [discriminate | apply IH]. }
  destruct cls; try apply HE;
    unfold NetworkStatus_name, SuspendReason_name, RunMode_name;
    repeat match goal with
    | |- context [if ?b then _ else _] => destruct b; [discriminate |]
    end; apply HE.
Qed.

(** X16.  [set_mode] turns a failure of the transport into the answer false:
    it never raises socket.error, it never writes an attribute of the client
    other than its transport, and it answers true only when one request was
    sent and the reply to it is tagged "success". *)
Theorem set_mode_catches_socket_error w (depth : nat) (component : string) (mode : pyval)
    (duration : float) :
  fst (set_mode depth component mode duration w) <> Raise SocketError /\
  keeps_flags (set_mode depth component mode duration) w /\
  (fst (set_mode depth component mode duration w) = Ok true ->
   exists request reply t,
     rpc_call (rpc (self w)) request = (Ok reply, t) /\ tag reply = "success" /\
     trace (snd (set_mode depth component mode duration w))
       = (trace w ++ [EvCall request])%list).
Proof.
  unfold keeps_flags, set_mode, try_except_socket_error, bind, lift, ret.
  destruct (name depth RunMode mode) as [label | e] eqn:Hname.
  - rewrite self_rpc_call_eq.
    match goal with
    | |- context [rpc_call (rpc (self w)) ?req] =>
        set (request0 := req); destruct (rpc_call (rpc (self w)) request0) as [r t0] eqn:Hcall
    end.
    cbn [fst snd].
    destruct r as [reply | e].
    + split; [discriminate |]. split; [split; [apply same_client_called | reflexivity] |].
      intros [= Htag]. exists request0, reply, t0.
      split; [exact Hcall |]. split; [now apply String.eqb_eq | reflexivity].
    + destruct e; (split; [discriminate |]);
        (split; [split; [apply same_client_called | reflexivity] | discriminate]).
  - destruct (name_raises depth RunMode mode e Hname) as [-> | ->];
      (split; [discriminate |]); (split; [split; [repeat split | reflexivity] | discriminate]).
Qed.

(** X17.  For the modes 1 to 4 (ALWAYS, AUTO, NEVER, RESTORE), [set_mode]
    sends one request that names the component, the mode and the duration
    with six decimals, and answers whether the reply is tagged "success",
    or false when the transport fails.  The mode AUTO is named by its label
    "according to preferences".  Of the component names that the method
    documents, "cpu" becomes "run" and "net" becomes "network", "run" and
    "gpu" are kept, and "network" becomes "networkwork". *)
Theorem set_mode_request_sent w (depth : nat) (component : string) (z : Z)
    (duration : float) (r : res element) t :
  In z [1; 2; 3; 4] ->
  rpc_call (rpc (self w))
    (set_mode_request (component_tag component) (mode_label z) duration) = (r, t) ->
  set_mode (S depth) component (PInt z) duration w =
    (match r with
     | Ok reply => Ok (String.eqb (tag reply) "success")
     | Raise SocketError => Ok false
     | Raise e => Raise e
     end,
     called w [EvCall (set_mode_request (component_tag component) (mode_label z) duration)] t)
  /\ component_tag "run" = "run" /\ component_tag "cpu" = "run"
  /\ component_tag "gpu" = "gpu" /\ component_tag "net" = "network"
  /\ component_tag "network" = "networkwork".
Proof.
  intros Hz Hcall. split; [| repeat split].
  assert (Hname : name (S depth) RunMode (PInt z) = Ok (mode_label z)
                  /\ Str.lower (mode_label z) = mode_label z).
  { destruct Hz as [<- | [<- | [<- | [<- | []]]]]; split; reflexivity. }
  destruct Hname as [Hname Hlower].
  unfold set_mode, try_except_socket_error, bind, lift, ret.
  rewrite Hname, Hlower.
  fold (component_tag component).
  change ("<set_" ++ component_tag component ++ "_mode>"
          ++ "<" ++ mode_label z ++ "/><duration>" ++ Str.format_f duration ++ "</duration>"
          ++ "</set_" ++ component_tag component ++ "_mode>")
    with (set_mode_request (component_tag component) (mode_label z) duration).
  rewrite (self_rpc_call_run _ _ _ _ Hcall).
  destruct r as [reply | e]; [reflexivity | now destruct e].
Qed.


End SessionProperties.

(** ** The remaining methods of the session *)

Section SessionMethods.

Context {pyfloat : PyFloat} {T : Type} {transport : Rpc T}.

Implicit Types (w : world T) (t : T).





Lemma has_char_app (c : ascii) (a b : string) :
  has_char c (a ++ b) = has_char c a || has_char c b.
Proof.
  induction a as [| x a IH]; [reflexivity |].
  change (has_char c (String x a ++ b)) with (Ascii.eqb x c || has_char c (a ++ b)).
  rewrite IH. cbn [has_char]. now rewrite orb_assoc.
Qed.

(** X20.  [read_gui_rpc_password] opens the password file once and changes
    nothing.  When the file cannot be opened or read, the result is [None].
    When its bytes are no text, UnicodeDecodeError leaves the function.
    Otherwise the result is the text of the file as text mode gives it,
    every carriage return and every carriage return with its line feed read
    as one line feed, less exactly one line feed when the text ends with
    one; it holds no carriage return. *)
Theorem read_gui_rpc_password_spec w :
  snd (read_gui_rpc_password w)
    = mkWorld (self w) (passwd_file w) (trace w ++ [EvOpen GUI_RPC_PASSWD_FILE])%list /\
  match passwd_file w with
  | Unreadable => fst (read_gui_rpc_password w) = Ok None
  | Undecodable => fst (read_gui_rpc_password w) = Raise UnicodeDecodeError
  | Text stored =>
      exists p,
        fst (read_gui_rpc_password w) = Ok (Some p) /\
        has_char "013" p = false /\
        (Str.universal_newlines stored = p ++ String "010"%char "" \/
         Str.universal_newlines stored = p /\ Str.endswith_char "010"%char p = false)
  end.
Proof.
  unfold read_gui_rpc_password, bind, log. cbn [passwd_file self trace].
  destruct (passwd_file w) as [| | stored]; [now split | now split |].
  cbv zeta. pose proof (universal_newlines_no_cr stored) as Hcr.
  destruct (Str.endswith_char "010" (Str.universal_newlines stored)) eqn:He.
  - split; [reflexivity |]. exists (Str.drop_last (Str.universal_newlines stored)).
    split; [reflexivity |].
    pose proof (endswith_drop_last _ _ He) as Hd.
    split; [| now left].
    rewrite Hd, has_char_app in Hcr. now apply orb_false_iff in Hcr.
  - split; [reflexivity |]. exists (Str.universal_newlines stored).
    split; [reflexivity |]. split; [exact Hcr | now right].
Qed.

(** X21.  [quit] clears [connected] exactly when it answers true, that is
    when the reply is tagged "success"; with any other reply, and when the
    transport raises, [connected] keeps its value.  One request is sent in
    every case. *)
Theorem quit_connected w :
  (fst (quit w) = Ok true -> connected (self (snd (quit w))) = false) /\
  (fst (quit w) <> Ok true -> connected (self (snd (quit w))) = connected (self w)) /\
  (fst (quit w) = Ok true <->
   exists reply, fst (rpc_call (rpc (self w)) "<quit/>") = Ok reply /\ tag reply = "success") /\
  trace (snd (quit w)) = (trace w ++ [EvCall "<quit/>"])%list.
Proof.
  unfold quit, bind, update, ret. rewrite self_rpc_call_eq.
  destruct (fst (rpc_call (rpc (self w)) "<quit/>")) as [reply | e].
  - destruct (String.eqb (tag reply) "success") eqn:Htag; cbn [fst snd self trace called].
    + split; [reflexivity |]. split; [congruence |]. split; [| reflexivity].
      split; [| reflexivity]. intros _. exists reply. split; [reflexivity |].
      now apply String.eqb_eq.
    + split; [discriminate |]. split; [reflexivity |]. split; [| reflexivity].
      split; [discriminate |]. intros [reply' [[= <-] Ht]].
      apply String.eqb_eq in Ht. congruence.
  - cbn [fst snd self trace called].
    split; [discriminate |]. split; [reflexivity |]. split; [| reflexivity].
    split; [discriminate |]. now intros [reply' [? _]].
Qed.

End SessionMethods.

(** ** The text of a version *)






(** ** The helpers of the decoder and the enumerations, continued *)

(** X23.  [parse_int] is [parse_float] followed by the truncation [int]:
    it raises whatever [parse_float] raises, and when it returns an integer
    [parse_float] returns a number of which this integer is the
    truncation. *)
Theorem parse_int_via_parse_float {pyfloat : PyFloat} (e : element) :
  parse_int e = (x <~ parse_float e ;; int_of_float x) /\
  (forall err, parse_float e = Raise err -> parse_int e = Raise err) /\
  (forall z, parse_int e = Ok z ->
     exists x, parse_float e = Ok x /\ int_of_float x = Ok z).
Proof.
  assert (H : parse_int e = (x <~ parse_float e ;; int_of_float x)).
  { unfold parse_int, parse_float, res_bind.
    destruct (text e) as [t |]; [| reflexivity].
    now destruct (float_of_str (Str.strip t)). }
  split; [exact H |]. rewrite H. unfold res_bind. split.
  - now intros err ->.
  - intros z Hz. destruct (parse_float e) as [x | err]; [| discriminate]. now exists x.
Qed.

(** X24.  Every code that a class binds has a label, found without a
    further nested call, and within a class different codes have different
    labels. *)
Theorem name_known_codes (cls : EnumClass) (a b : Z) (depth : nat) :
  In a (known_codes cls) -> In b (known_codes cls) ->
  exists la lb,
    name (S depth) cls (PInt a) = Ok la /\
    name (S depth) cls (PInt b) = Ok lb /\
    (la = lb -> a = b).
Proof.
  intros Ha Hb.
  destruct cls; cbn in Ha, Hb;
    repeat (destruct Ha as [<- | Ha]; [| try contradiction]);
    repeat (destruct Hb as [<- | Hb]; [| try contradiction]);
    (eexists; eexists; split; [reflexivity | split; [reflexivity |]];
     intros E; solve [reflexivity | discriminate E]).
Qed.

(** X25.  A constant may be given by its name: [cls.name("K")] is
    [cls.name(cls.K)], one nested call deeper. *)
Theorem name_by_key (cls : EnumClass) (k : string) (z : Z) (depth : nat) :
  class_getattr cls k = Some (PInt z) ->
  name (S depth) cls (PStr k) = name depth cls (PInt z).
Proof.
  intros Hk.
  assert (HE : Enum_name (name depth) cls (PStr k) = name depth cls (PInt z)).
  { unfold Enum_name, class_hasattr. cbn [py_str]. now rewrite Hk. }
  destruct cls; exact HE.
Qed.

(* ===================================================================== *)
(** * The properties on concrete inputs *)
(* ===================================================================== *)

Import Sample.

Lemma ok_or_eq {A : Type} (d : A) (r : res A) : is_ok r = true -> r = Ok (ok_or d r).
Proof. now destruct r. Qed.

Lemma returns_eq {A W : Type} (a : A) (m : res A * W) : fst m = Ok a -> m = (Ok a, snd m).
Proof. destruct m as [r w]. simpl. now intros ->. Qed.

(** ** The decoder *)

Example parse_int_examples :
  parse_int (Element "x" (Some "3.0") []) = Ok 3 /\
  parse_int (Element "x" (Some " 12 ") []) = Ok 12 /\
  parse_int (Element "x" None []) = Ok 0 /\
  parse_int (Element "x" (Some "abc") []) = Raise ValueError /\
  int_of_float (-2.75)%float = Ok (-2) /\
  int_of_float infinity = Raise OverflowError /\
  int_of_float nan = Raise ValueError.
Proof. repeat split; vm_compute; reflexivity. Qed.

(** Children tagged with a name that the object finds on its class: a
    method is shadowed by the child, the docstring by the text of the child,
    and the descriptors refuse the assignment. *)
Example setattrs_from_xml_class_names :
  ok_or ∅ (VersionInfo_parse (Element "v" None [Element "parse" (Some "1") []]))
    !! "parse" = Some (VElem (Element "parse" (Some "1") [])) /\
  ok_or ∅ (Coproc_parse (Element "c" None [Element "__doc__" (Some " text ") []]))
    !! "__doc__" = Some (VStr "text") /\
  VersionInfo_parse (Element "v" None [Element "__class__" None []]) = Raise TypeError /\
  VersionInfo_parse (Element "v" None [Element "__dict__" None []]) = Raise TypeError /\
  VersionInfo_parse (Element "v" None [Element "__weakref__" None []])
    = Raise AttributeError /\
  VersionInfo_parse (Element "v" None [Element "_tuple" None []]) = Raise AttributeError /\
  is_ok (CcStatus_parse (Element "s" None [Element "_tuple" None []])) = true /\
  ok_or ∅ (CcStatus_parse (Element "s" None [Element "_tuple" None []])) !! "_tuple" = None.
Proof. repeat apply conj; vm_compute; reflexivity. Qed.

Lemma Result_parse_old_client_shim_witness :
  exists r,
    Result_parse sample_result = Ok r /\
    r !! "elapsed_time" = Some (VFloat 42) /\
    r !! "final_elapsed_time" = Some (VFloat 0).
Proof.
  assert (H0 : Result_parse_fields sample_result
               = Ok (ok_or ∅ (Result_parse_fields sample_result)))
    by (apply ok_or_eq; vm_compute; reflexivity).
  destruct (Result_parse_old_client_shim sample_result _ H0)
    as (cpu & el & fcpu & fel & r & Hcpu & Hel & Hfcpu & Hfel & Hr & He & Hfe & _).
  vm_compute in Hcpu, Hel, Hfcpu, Hfel.
  injection Hcpu as <-. injection Hel as <-. injection Hfcpu as <-. injection Hfel as <-.
  exists r. split; [exact Hr |]. split; [exact He | exact Hfe].
Defined.

Lemma setattrs_from_xml_unset_default_witness :
  (exists p,
     Project_parse sample_project = Ok p /\
     p !! "symstore" = Some (VElem (Element "symstore" (Some "store") []))) /\
  (exists r,
     Result_parse sample_result = Ok r /\
     r !! "platform" = Some (VElem (Element "platform" (Some "x86_64-pc-linux-gnu") []))).
Proof.
  split.
  - assert (Hk : Project_init !! "symstore" = Some VNone) by (vm_compute; reflexivity).
    assert (H : setattrs_from_xml (class_attrs Project_class) Project_init sample_project ∅
                = Ok (ok_or ∅ (setattrs_from_xml (class_attrs Project_class) Project_init
                                 sample_project ∅)))
      by (apply ok_or_eq; vm_compute; reflexivity).
    destruct (setattrs_from_xml_unset_default _ Project_init _ sample_project "symstore" Hk H)
      as (Hlast & _ & _).
    eexists. split; [exact H |]. apply Hlast. reflexivity.
  - assert (Hk : Result_init !! "platform" = Some VNone) by (vm_compute; reflexivity).
    assert (H : setattrs_from_xml (class_attrs Result_class) Result_init sample_result ∅
                = Ok (ok_or ∅ (setattrs_from_xml (class_attrs Result_class) Result_init
                                 sample_result ∅)))
      by (apply ok_or_eq; vm_compute; reflexivity).
    destruct (setattrs_from_xml_unset_default _ Result_init _ sample_result "platform" Hk H)
      as (_ & _ & _ & Hresult).
    assert (Hr : Result_parse sample_result = Ok (ok_or ∅ (Result_parse sample_result)))
      by (apply ok_or_eq; vm_compute; reflexivity).
    eexists. split; [exact Hr |]. apply (Hresult eq_refl); [exact Hr | reflexivity].
Defined.

(** ** The session *)

Lemma authorize_digest_witness :
  exists w',
    authorize (Some "pw")
      (fresh "boinc.example.org" (Some "pw") Unreadable
         (sample_session [Ok nonce_abc; Ok reply_authorized])) = (Ok true, w') /\
    trace w' =
      [EvCall "<auth1/>";
       EvCall "<auth2><nonce_hash>71605ab39e19fe87034aee29cf2957e4</nonce_hash></auth2>"].
Proof.
  set (w := fresh "boinc.example.org" (Some "pw") Unreadable
              (sample_session [Ok nonce_abc; Ok reply_authorized])).
  assert (H1 : rpc_call (rpc (self w)) "<auth1/>"
               = (Ok nonce_abc, sample_session [Ok reply_authorized])) by reflexivity.
  assert (H2 : rpc_call (sample_session [Ok reply_authorized])
                 (auth2_request (MD5.hexdigest (Str.encode_utf8 ("abc" ++ "pw"))))
               = (Ok reply_authorized, sample_session [])) by reflexivity.
  destruct (authorize_digest w "abc" "pw" nonce_abc reply_authorized _ _ H1 eq_refl H2)
    as ((b & Hb & Hiff) & _ & _).
  assert (Htrue : b = true) by (apply Hiff; reflexivity).
  rewrite Htrue in Hb. eexists. split; [exact Hb |].
  vm_compute. reflexivity.
Defined.

(** The transport connects and then fails on the first call of the
    handshake: [connect] raises, and [connected] is true. *)
Lemma connect_propagates_call_failure :
  exists w',
    connect (fresh "" (Some "pw") Unreadable (sample_session [Raise SocketError]))
      = (Raise SocketError, w') /\
    connected (self w') = true.
Proof. eexists. split; vm_compute; reflexivity. Defined.

Lemma connect_spec_witness :
  (exists w' v,
     connect (fresh "" (Some "pw") Unreadable
                (sample_session [Ok nonce_abc; Ok reply_authorized; Ok reply_version]))
       = (Ok tt, w') /\
     connected (self w') = true /\
     authorized (self w') = true /\
     version (self w') = Some v /\
     v !! "major" = Some (VInt 7) /\ v !! "minor" = Some (VInt 16) /\
     v !! "release" = Some (VInt 6)) /\
  (exists w',
     connect (fresh "" (Some "pw") Unreadable (mkScript (Raise SocketError) []))
       = (Ok tt, w') /\
     connected (self w') = false) /\
  (exists w',
     connect (fresh "" None Undecodable (sample_session [Ok nonce_abc]))
       = (Raise UnicodeDecodeError, w') /\
     connected (self w') = true /\
     trace w' = [EvConnect "" 0; EvOpen GUI_RPC_PASSWD_FILE]).
Proof.
  split; [| split].
  - set (w := fresh "" (Some "pw") Unreadable
                (sample_session [Ok nonce_abc; Ok reply_authorized; Ok reply_version])).
    destruct (connect_spec w) as [_ [Hok _]].
    assert (Hv : VersionInfo_parse reply_version
                 = Ok (ok_or ∅ (VersionInfo_parse reply_version)))
      by (apply ok_or_eq; vm_compute; reflexivity).
    destruct (Hok (Some "pw")
                (sample_session [Ok nonce_abc; Ok reply_authorized; Ok reply_version])
                nonce_abc reply_authorized reply_version
                (sample_session [Ok reply_authorized; Ok reply_version])
                (sample_session [Ok reply_version]) (sample_session [])
                _ eq_refl eq_refl eq_refl eq_refl eq_refl Hv)
      as (w' & Hc & Hconn & Hauth & Hver & _).
    exists w'. eexists. split; [exact Hc |]. split; [exact Hconn |].
    split; [exact Hauth |]. split; [exact Hver |].
    repeat split; vm_compute; reflexivity.
  - set (w := fresh "" (Some "pw") Unreadable (mkScript (Raise SocketError) [])).
    destruct (connect_spec w) as [Hrefused _].
    destruct (Hrefused (mkScript (Raise SocketError) []) eq_refl)
      as (w' & Hc & Hconn & _).
    exists w'. split; assumption.
  - set (w := fresh "" None Undecodable (sample_session [Ok nonce_abc])).
    destruct (connect_spec w) as [_ [_ Hraise]].
    destruct (Hraise UnicodeDecodeError (sample_session [Ok nonce_abc]) eq_refl eq_refl)
      as (w' & Hc & Hconn & Htrace).
    exists w'. split; [exact Hc |]. split; [exact Hconn | exact Htrace].
Defined.



(** The transport connects and then fails on the first call of the
    handshake: [get_cc_status] raises, [connected] is true and the status
    query is not issued. *)
Lemma get_cc_status_propagates_handshake_failure :
  exists w',
    get_cc_status (fresh "" (Some "pw") Unreadable (sample_session [Raise SocketError]))
      = (Raise SocketError, w') /\
    connected (self w') = true /\
    trace w' = [EvConnect "" 0; EvCall "<auth1/>"].
Proof. eexists. split; [| split]; vm_compute; reflexivity. Defined.

Lemma get_cc_status_spec_witness :
  (exists w',
     get_cc_status
       (fresh "" (Some "pw") Unreadable
          (sample_session [Ok nonce_abc; Ok reply_authorized; Ok reply_version;
                           Raise SocketError]))
       = (Ok None, w') /\
     connected (self w') = false) /\
  (exists status w',
     get_cc_status
       (fresh "" (Some "pw") Unreadable
          (sample_session [Ok nonce_abc; Ok reply_authorized; Ok reply_version;
                           Ok sample_status]))
       = (Ok (Some status), w') /\
     status !! "task_mode" = Some (VInt 2)).
Proof.
  split.
  - set (w := fresh "" (Some "pw") Unreadable _).
    assert (Hconnect : connect w = (Ok tt, snd (connect w)))
      by (apply returns_eq; vm_compute; reflexivity).
    destruct (get_cc_status_spec w (snd (connect w)) Hconnect) as (_ & Hfail & _).
    assert (Hcall : rpc_call (rpc (self (snd (connect w)))) "<get_cc_status/>"
                    = (Raise SocketError, sample_session []))
      by (vm_compute; reflexivity).
    destruct (Hfail _ Hcall) as (w' & Hr & Hconn & _).
    exists w'. split; assumption.
  - set (w := fresh "" (Some "pw") Unreadable _).
    assert (Hconnect : connect w = (Ok tt, snd (connect w)))
      by (apply returns_eq; vm_compute; reflexivity).
    destruct (get_cc_status_spec w (snd (connect w)) Hconnect) as (_ & _ & Hok).
    assert (Hcall : rpc_call (rpc (self (snd (connect w)))) "<get_cc_status/>"
                    = (Ok sample_status, sample_session []))
      by (vm_compute; reflexivity).
    assert (Hs : CcStatus_parse sample_status
                 = Ok (ok_or ∅ (CcStatus_parse sample_status)))
      by (apply ok_or_eq; vm_compute; reflexivity).
    destruct (Hok _ _ _ Hcall Hs) as (w' & Hr & _).
    eexists. exists w'. split; [exact Hr |]. vm_compute. reflexivity.
Defined.

Lemma get_results_get_projects_spec_witness :
  (exists r1 r2,
     fst (get_results false (fresh "" None Unreadable (sample_session [Ok sample_results])))
       = Ok [r1; r2] /\
     r1 !! "name" = Some (VStr "task_1") /\ r2 !! "name" = Some (VStr "")) /\
  fst (get_results true (fresh "" None Unreadable (sample_session [Ok (Element "error" None [])])))
    = Ok [] /\
  (exists p,
     fst (get_projects (fresh "" None Unreadable
                          (sample_session [Ok (Element "projects" None [sample_project])])))
       = Ok [p] /\
     p !! "master_url" = Some (VStr "http://example.org/")).
Proof.
  repeat apply conj.
  - set (w := fresh "" None Unreadable _).
    destruct (get_results_get_projects_spec w false) as [Hresults _].
    destruct (Hresults sample_results (sample_session []) eq_refl) as [_ Hall].
    exists (ok_or ∅ (Result_parse sample_result)),
           (ok_or ∅ (Result_parse (Element "result" None []))).
    split; [| split; vm_compute; reflexivity].
    apply Hall; [reflexivity |].
    repeat constructor; apply ok_or_eq; vm_compute; reflexivity.
  - set (w := fresh "" None Unreadable _).
    destruct (get_results_get_projects_spec w true) as [Hresults _].
    destruct (Hresults (Element "error" None []) (sample_session []) eq_refl) as [Hnot _].
    apply Hnot. discriminate.
  - set (w := fresh "" None Unreadable _).
    destruct (get_results_get_projects_spec w false) as [_ Hprojects].
    destruct (Hprojects (Element "projects" None [sample_project]) (sample_session [])
                eq_refl) as [_ Hall].
    exists (ok_or ∅ (Project_parse sample_project)).
    split; [| vm_compute; reflexivity].
    apply Hall; [reflexivity |].
    repeat constructor; apply ok_or_eq; vm_compute; reflexivity.
Defined.


(** ** The decoder and the structures, continued *)

Lemma setattrs_from_xml_keeps_shape_witness :
  exists status,
    setattrs_from_xml (class_attrs CcStatus_class) CcStatus_init sample_status ∅
      = Ok status /\
    dom status = dom CcStatus_init /\
    exists v, status !! "task_mode" = Some v /\ kind v = 2%nat.
Proof.
  assert (H : setattrs_from_xml (class_attrs CcStatus_class) CcStatus_init sample_status ∅
              = Ok (ok_or ∅ (setattrs_from_xml (class_attrs CcStatus_class) CcStatus_init
                               sample_status ∅)))
    by (apply ok_or_eq; vm_compute; reflexivity).
  destruct (setattrs_from_xml_keeps_shape _ _ _ _ H) as (Hkept & _ & Hdom & _).
  eexists. split; [exact H |]. split.
  - apply Hdom. intros k [<- | [<- | []]] Hk; vm_compute in Hk; discriminate Hk.
  - apply (Hkept "task_mode" (VInt UNKNOWN)). vm_compute. reflexivity.
Defined.

Lemma setattrs_from_xml_last_child_witness :
  exists status,
    setattrs_from_xml (class_attrs CcStatus_class) CcStatus_init sample_status ∅
      = Ok status /\
    status !! "task_mode" = Some (VInt 2) /\
    status !! "gpu_mode" = Some (VInt UNKNOWN).
Proof.
  assert (H : setattrs_from_xml (class_attrs CcStatus_class) CcStatus_init sample_status ∅
              = Ok (ok_or ∅ (setattrs_from_xml (class_attrs CcStatus_class) CcStatus_init
                               sample_status ∅)))
    by (apply ok_or_eq; vm_compute; reflexivity).
  assert (Hk : CcStatus_init !! "task_mode" = Some (VInt UNKNOWN))
    by (vm_compute; reflexivity).
  assert (Hg : CcStatus_init !! "gpu_mode" = Some (VInt UNKNOWN))
    by (vm_compute; reflexivity).
  pose proof (setattrs_from_xml_last_child _ _ _ sample_status "task_mode" _ Hk H) as H1.
  pose proof (setattrs_from_xml_last_child _ _ _ sample_status "gpu_mode" _ Hg H) as H2.
  change (last (children_tagged "task_mode" sample_status))
    with (Some (Element "task_mode" (Some "2") [])) in H1.
  change (last (children_tagged "gpu_mode" sample_status)) with (@None element) in H2.
  destruct H1 as (v & Hv & H1). vm_compute in Hv. injection Hv as <-.
  eexists. split; [exact H |]. split; [exact H1 | exact H2].
Defined.

Lemma Result_parse_active_task_witness :
  exists r,
    Result_parse sample_result = Ok r /\ r !! "active_task" = Some (VBool true).
Proof.
  assert (Hr : Result_parse sample_result = Ok (ok_or ∅ (Result_parse sample_result)))
    by (apply ok_or_eq; vm_compute; reflexivity).
  destruct (Result_parse_active_task _ _ Hr) as [_ Ha].
  eexists. split; [exact Hr |].
  apply (Ha (Element "active_task" None
               [Element "current_cpu_time" (Some "42.0") [];
                Element "elapsed_time" (Some "0") []])); reflexivity.
Defined.

Lemma Result_parse_field_witness :
  exists r,
    Result_parse sample_result = Ok r /\
    r !! "name" = Some (VStr "task_1") /\
    r !! "current_cpu_time" = Some (VFloat 42).
Proof.
  assert (Hr : Result_parse sample_result = Ok (ok_or ∅ (Result_parse sample_result)))
    by (apply ok_or_eq; vm_compute; reflexivity).
  assert (Hn : Result_init !! "name" = Some (VStr "")) by (vm_compute; reflexivity).
  assert (Hc : Result_init !! "current_cpu_time" = Some (VFloat 0))
    by (vm_compute; reflexivity).
  pose proof (Result_parse_field sample_result _ "name" _ Hn
                ltac:(discriminate) ltac:(discriminate) ltac:(discriminate) Hr) as H1.
  pose proof (Result_parse_field sample_result _ "current_cpu_time" _ Hc
                ltac:(discriminate) ltac:(discriminate) ltac:(discriminate) Hr) as H2.
  change (last (Result_children_tagged "name" sample_result))
    with (Some (Element "name" (Some "task_1") [])) in H1.
  change (last (Result_children_tagged "current_cpu_time" sample_result))
    with (Some (Element "current_cpu_time" (Some "42.0") [])) in H2.
  destruct H1 as (v1 & Hv1 & H1). vm_compute in Hv1. injection Hv1 as <-.
  destruct H2 as (v2 & Hv2 & H2). vm_compute in Hv2. injection Hv2 as <-.
  eexists. split; [exact Hr |]. split; [exact H1 | exact H2].
Defined.

Lemma Result_parse_times_consistent_witness :
  exists (r : gmap string value) (cpu elapsed : float),
    Result_parse sample_result = Ok r /\
    r !! "current_cpu_time" = Some (VFloat cpu) /\
    r !! "elapsed_time" = Some (VFloat elapsed) /\
    (PrimFloat.eqb elapsed 0 = true -> PrimFloat.eqb cpu 0 = true).
Proof.
  assert (Hr : Result_parse sample_result = Ok (ok_or ∅ (Result_parse sample_result)))
    by (apply ok_or_eq; vm_compute; reflexivity).
  destruct (Result_parse_times_consistent _ _ Hr)
    as (cpu & elapsed & fcpu & felapsed & Hcpu & Hel & _ & _ & Hc & _).
  eexists. exists cpu, elapsed. split; [exact Hr |].
  split; [exact Hcpu |]. split; [exact Hel | exact Hc].
Defined.

(** ** The enumerations, continued *)

(** A string that names a descriptor stored in the class is found again by
    the loop over the class; a classmethod and the mapping of the class are
    not. *)
Example name_of_class_objects :
  name 2 Enum (PStr "__weakref__") = Ok "  weakref  " /\
  name 3 NetworkStatus (PStr "__weakref__") = Ok "unknown" /\
  name 3 Enum (PStr "name") = Ok "unknown" /\
  name 3 Enum (PStr "__dict__") = Ok "unknown" /\
  name 3 NetworkStatus (PStr "__doc__") = Ok "  doc  ".
Proof. repeat apply conj; vm_compute; reflexivity. Qed.

Lemma name_known_codes_witness :
  exists la lb,
    name 1 SuspendReason (PInt 64) = Ok la /\
    name 1 SuspendReason (PInt 4096) = Ok lb /\
    (la = lb -> 64 = 4096).
Proof.
  apply (name_known_codes SuspendReason 64 4096 0);
    vm_compute; repeat (first [left; reflexivity | right]).
Defined.

Lemma name_by_key_witness :
  name 2 NetworkStatus (PStr "ONLINE") = name 1 NetworkStatus (PInt 0).
Proof. apply (name_by_key NetworkStatus "ONLINE" 0 1). reflexivity. Defined.

(** ** The session, continued *)

(** The port of a new client. *)
Example BoincClient_new_examples :
  res_map port (BoincClient_new "boinc.example.org:31416" None (sample_session []))
    = Ok 31416 /\
  res_map hostname (BoincClient_new "boinc.example.org:31416" None (sample_session []))
    = Ok "boinc.example.org" /\
  res_map port (BoincClient_new "" None (sample_session [])) = Ok 0 /\
  res_map port (BoincClient_new "host:" None (sample_session [])) = Raise ValueError /\
  res_map port (BoincClient_new "host:1:2" None (sample_session [])) = Raise ValueError /\
  res_map port (BoincClient_new ("host:" ++ Str.zeros 4300) None (sample_session []))
    = Ok 0 /\
  res_map port (BoincClient_new ("host:" ++ Str.zeros 4301) None (sample_session []))
    = Raise ValueError.
Proof. repeat apply conj; vm_compute; reflexivity. Qed.

Lemma get_cc_status_result_witness :
  exists w',
    get_cc_status (with_connected true (fresh "" None Unreadable (sample_session [])))
      = (Ok None, w') /\
    connected (self w') = false.
Proof.
  set (w := with_connected true (fresh "" None Unreadable (sample_session []))).
  assert (H : get_cc_status w = (Ok None, snd (get_cc_status w)))
    by (apply returns_eq; vm_compute; reflexivity).
  destruct (get_cc_status_result w _ None H) as [Hnone _].
  eexists. split; [exact H | exact (Hnone eq_refl)].
Defined.

Lemma authorize_None_remote_witness :
  authorize None
    (fresh "boinc.example.org" None Unreadable (sample_session [Ok nonce_abc; Ok reply_authorized]))
  = authorize (Some "None")
      (fresh "boinc.example.org" None Unreadable
         (sample_session [Ok nonce_abc; Ok reply_authorized])).
Proof. apply authorize_None_remote. intros H. vm_compute in H. discriminate H. Defined.

Lemma authorize_blank_password_file_witness :
  fst (authorize None
         (with_file (Text (String "010"%char ""))
            (fresh "" None Unreadable (sample_session [Ok nonce_abc; Ok reply_authorized]))))
  = fst (authorize None
           (with_file Unreadable
              (fresh "" None Unreadable (sample_session [Ok nonce_abc; Ok reply_authorized])))).
Proof.
  apply (authorize_blank_password_file
           (fresh "" None Unreadable (sample_session [Ok nonce_abc; Ok reply_authorized]))
           (Text (String "010"%char "")) eq_refl).
  right. right. left. reflexivity.
Defined.

Lemma set_mode_request_sent_witness :
  exists w',
    set_mode 2 "cpu" (PInt 3) 3600
      (fresh "" None Unreadable (sample_session [Ok (Element "success" None [])]))
      = (Ok true, w') /\
    trace w' = [EvCall "<set_run_mode><never/><duration>3600.000000</duration></set_run_mode>"].
Proof.
  set (w := fresh "" None Unreadable (sample_session [Ok (Element "success" None [])])).
  assert (Hc : rpc_call (rpc (self w))
                 (set_mode_request (component_tag "cpu") (mode_label 3) 3600)
               = (Ok (Element "success" None []), sample_session [])) by reflexivity.
  assert (Hz : In 3 [1; 2; 3; 4]) by (right; right; left; reflexivity).
  destruct (set_mode_request_sent w 1 "cpu" 3 3600 _ _ Hz Hc) as [H _].
  eexists. split; [exact H |]. vm_compute. reflexivity.
Defined.

